(** * HmSph backend: the listing / filtering / projection layer

    A shallow embedding of the Express route handlers of the real-estate
    backend (routes/properties, routes/reviews, routes/agents, routes/admin,
    routes/favorites, routes/auth) together with the properties the
    specification states about them.

    Conventions of the embedding.
    - [req.query], [req.body] and the objects built by the handlers are finite
      maps from keys to JavaScript values ([gmap string _]); an absent key is
      JavaScript's [undefined].
    - JavaScript numbers are modelled by exact rationals extended with NaN and
      the two infinities.  The model coincides with IEEE-754 doubles wherever
      double arithmetic is exact, which covers every integer computation below
      2^53; negative zero is identified with zero.  The statements that tell
      which numbers a response carries bound their integers accordingly.
    - Strings are strings of ASCII characters.  [Number], [parseInt] and
      [parseFloat] read every string by the grammar of the language: white
      space, signs, decimal points, exponents, [Infinity], the prefixes [0x],
      [0o] and [0b], and the longest-prefix rule of the two parsers.
    - The ORM (Prisma) is an external collaborator: [findMany] and [count]
      are given their documented list semantics (filter, order, skip, take);
      a string filter [contains] is the [ILIKE] of the database, wildcards
      included; a value outside the enumeration of an enumerated column and
      an operand that is no 32-bit integer on an [Int] column make the
      client throw.
    - External libraries (bcrypt, jsonwebtoken, email validators) are Section
      variables. *)

From Stdlib Require Import ZArith QArith Qround String Ascii DecimalString List Lia Bool Sorted.
From stdpp Require Import gmap strings list fin_maps.

Set Warnings "-register-all".
Local Open Scope string_scope.

(** ** JavaScript numbers *)

Module JS.

Inductive jsnum :=
| JNum (q : Q)        (* a finite number, kept in lowest terms *)
| JNaN
| JInf (neg : bool).  (* Infinity (false) and -Infinity (true) *)

Definition jint (z : Z) : jsnum := JNum (inject_Z z).

Definition Qsign (q : Q) : comparison := (Qnum q ?= 0)%Z.

(** [a - b] *)
Definition js_sub (a b : jsnum) : jsnum :=
  match a, b with
  | JNaN, _ | _, JNaN => JNaN
  | JNum x, JNum y => JNum (Qred (x - y))
  | JNum _, JInf n => JInf (negb n)
  | JInf n, JNum _ => JInf n
  | JInf n, JInf m => if Bool.eqb n m then JNaN else JInf n
  end.

(** [a * b] *)
Definition js_mul (a b : jsnum) : jsnum :=
  match a, b with
  | JNaN, _ | _, JNaN => JNaN
  | JNum x, JNum y => JNum (Qred (x * y))
  | JNum x, JInf n | JInf n, JNum x =>
      match Qsign x with
      | Eq => JNaN
      | Gt => JInf n
      | Lt => JInf (negb n)
      end
  | JInf n, JInf m => JInf (xorb n m)
  end.

(** [a / b] *)
Definition js_div (a b : jsnum) : jsnum :=
  match a, b with
  | JNaN, _ | _, JNaN => JNaN
  | JNum x, JNum y =>
      match Qsign y with
      | Eq => match Qsign x with
              | Eq => JNaN
              | Gt => JInf false
              | Lt => JInf true
              end
      | _ => JNum (Qred (x / y))
      end
  | JNum _, JInf _ => JNum 0
  | JInf n, JNum y => match Qsign y with Lt => JInf (negb n) | _ => JInf n end
  | JInf _, JInf _ => JNaN
  end.

(** [Math.ceil(a)] *)
Definition js_ceil (a : jsnum) : jsnum :=
  match a with
  | JNum x => jint (Qceiling x)
  | _ => a
  end.

(** The integer a number denotes, when it denotes one. *)
Definition as_int (a : jsnum) : option Z :=
  match a with
  | JNum x => if Qeq_bool x (inject_Z (Qfloor x)) then Some (Qfloor x) else None
  | _ => None
  end.

(** ** Strings *)

Definition is_digit (c : ascii) : bool :=
  let n := nat_of_ascii c in (48 <=? n)%nat && (n <=? 57)%nat.

Definition is_upper (c : ascii) : bool :=
  let n := nat_of_ascii c in (65 <=? n)%nat && (n <=? 90)%nat.

Definition is_lower (c : ascii) : bool :=
  let n := nat_of_ascii c in (97 <=? n)%nat && (n <=? 122)%nat.

Definition is_letter (c : ascii) : bool := is_upper c || is_lower c.

(** ASCII white space: TAB, LF, VT, FF, CR and SPACE. *)
Definition is_space (c : ascii) : bool :=
  let n := nat_of_ascii c in
  ((9 <=? n)%nat && (n <=? 13)%nat) || (n =? 32)%nat.

Definition lower_char (c : ascii) : ascii :=
  if is_upper c then ascii_of_nat (nat_of_ascii c + 32) else c.

Definition upper_char (c : ascii) : ascii :=
  if is_lower c then ascii_of_nat (nat_of_ascii c - 32) else c.

Fixpoint map_string (f : ascii -> ascii) (s : string) : string :=
  match s with
  | EmptyString => EmptyString
  | String c r => String (f c) (map_string f r)
  end.

(** [s.toLowerCase()] and [s.toUpperCase()] (ASCII). *)
Definition toLowerCase : string -> string := map_string lower_char.
Definition toUpperCase : string -> string := map_string upper_char.

Fixpoint all_chars (p : ascii -> bool) (s : string) : bool :=
  match s with
  | EmptyString => true
  | String c r => p c && all_chars p r
  end.

Fixpoint trim_start (s : string) : string :=
  match s with
  | String c r => if is_space c then trim_start r else s
  | EmptyString => EmptyString
  end.

Fixpoint trim_end (s : string) : string :=
  match s with
  | EmptyString => EmptyString
  | String c r =>
      match trim_end r with
      | EmptyString => if is_space c then EmptyString else String c EmptyString
      | r' => String c r'
      end
  end.

(** [s.trim()] *)
Definition trim (s : string) : string := trim_end (trim_start s).

(** [s.includes(p)] *)
Fixpoint includes (p s : string) : bool :=
  String.prefix p s ||
  match s with
  | EmptyString => false
  | String _ r => includes p r
  end.

(** SQL [LIKE]: in the pattern [%] stands for any string, [_] for any one
    character, and a backslash takes the character after it literally. *)
Fixpoint like (p : string) : string -> bool :=
  match p with
  | EmptyString => fun s => String.eqb s ""
  | String c p' =>
      if Ascii.eqb c "%" then
        fix any (s : string) : bool :=
          like p' s || match s with String _ s' => any s' | EmptyString => false end
      else if Ascii.eqb c "_" then
        fun s => match s with String _ s' => like p' s' | EmptyString => false end
      else if Ascii.eqb c "\" then
        match p' with
        | String c' p'' =>
            fun s => match s with
                     | String x s' => Ascii.eqb x c' && like p'' s'
                     | EmptyString => false
                     end
        | EmptyString => fun _ => false
        end
      else
        fun s => match s with
                 | String x s' => Ascii.eqb x c && like p' s'
                 | EmptyString => false
                 end
  end.

(** Prisma's [{ contains: p, mode: 'insensitive' }] on a text column: the
    client sends [column ILIKE '%p%'] and leaves the characters [%], [_] and
    backslash of [p] to the pattern language. *)
Definition contains_insensitive (p s : string) : bool :=
  like (toLowerCase ("%" ++ p ++ "%")) (toLowerCase s).

(** [s.replace(p, r)] for a string pattern: the first occurrence only. *)
Fixpoint replace_first (p r s : string) : string :=
  if String.prefix p s
  then r ++ String.substring (String.length p) (String.length s - String.length p) s
  else match s with
       | EmptyString => EmptyString
       | String c t => String c (replace_first p r t)
       end.

(** ** Numeric strings *)

Fixpoint digits_value (acc : Z) (s : string) : Z :=
  match s with
  | EmptyString => acc
  | String c r => digits_value (10 * acc + Z.of_nat (nat_of_ascii c - 48)) r
  end.

Definition unsigned_literal (s : string) : option Z :=
  match s with
  | EmptyString => None
  | _ => if all_chars is_digit s then Some (digits_value 0 s) else None
  end.

(** A signed decimal integer literal, [[+-]?[0-9]+], and the integer it
    denotes; the literals of negative zero are left to the general grammar
    below. *)
Definition int_literal (s : string) : option Z :=
  match s with
  | String "-" r =>
      match unsigned_literal r with
      | Some 0%Z => None
      | Some v => Some (- v)%Z
      | None => None
      end
  | String "+" r => unsigned_literal r
  | _ => unsigned_literal s
  end.

(** The longest prefix of characters that satisfy [p], and what follows. *)
Fixpoint span (p : ascii -> bool) (s : string) : string * string :=
  match s with
  | String c r =>
      if p c then let '(a, b) := span p r in (String c a, b) else (EmptyString, s)
  | EmptyString => (EmptyString, EmptyString)
  end.

(** The value of a digit in a radix up to 36, [None] for any other character. *)
Definition digit_of (c : ascii) : option Z :=
  let n := nat_of_ascii c in
  if is_digit c then Some (Z.of_nat (n - 48))
  else if is_upper c then Some (Z.of_nat (n - 55))
  else if is_lower c then Some (Z.of_nat (n - 87))
  else None.

Definition is_digit_in (radix : Z) (c : ascii) : bool :=
  match digit_of c with
  | Some v => (v <? radix)%Z
  | None => false
  end.

Fixpoint radix_value (radix : Z) (acc : Z) (s : string) : Z :=
  match s with
  | EmptyString => acc
  | String c r => radix_value radix (radix * acc + default 0%Z (digit_of c)) r
  end.

(** [10 ** e] *)
Definition pow10 (e : Z) : Q :=
  if (0 <=? e)%Z then inject_Z (10 ^ e) else Qinv (inject_Z (10 ^ (- e))).

(** [-n] *)
Definition js_neg (n : jsnum) : jsnum :=
  match n with
  | JNum q => JNum (Qred (- q))
  | JInf neg => JInf (negb neg)
  | JNaN => JNaN
  end.

(** ExponentPart: [e] or [E], an optional sign, digits.  Without digits the
    letter belongs to what follows. *)
Definition exponent_part (s : string) : Z * string :=
  match s with
  | String c r =>
      if Ascii.eqb c "e" || Ascii.eqb c "E" then
        let '(neg, r1) :=
          match r with
          | String "-" t => (true, t)
          | String "+" t => (false, t)
          | _ => (false, r)
          end in
        let '(ds, rest) := span is_digit r1 in
        match ds with
        | EmptyString => (0%Z, s)
        | _ => ((if neg then - digits_value 0 ds else digits_value 0 ds)%Z, rest)
        end
      else (0%Z, s)
  | EmptyString => (0%Z, s)
  end.

(** StrUnsignedDecimalLiteral: the number the longest such prefix of [s]
    denotes, and what follows it.
<<
    Infinity | digits . digits? exponent? | . digits exponent? | digits exponent?
>> *)
Definition unsigned_decimal (s : string) : option (jsnum * string) :=
  if String.prefix "Infinity" s then
    Some (JInf false, String.substring 8 (String.length s - 8) s)
  else
    let '(ip, r1) := span is_digit s in
    match r1 with
    | String "." r2 =>
        let '(fp, r3) := span is_digit r2 in
        match ip, fp with
        | EmptyString, EmptyString => None
        | _, _ =>
            let '(e, rest) := exponent_part r3 in
            Some (JNum (Qred (inject_Z (digits_value 0 (ip ++ fp))
                              * pow10 (e - Z.of_nat (String.length fp)))), rest)
        end
    | _ =>
        match ip with
        | EmptyString => None
        | _ =>
            let '(e, rest) := exponent_part r1 in
            Some (JNum (Qred (inject_Z (digits_value 0 ip) * pow10 e)), rest)
        end
    end.

(** StrDecimalLiteral: an optional sign, then the unsigned literal. *)
Definition signed_decimal (s : string) : option (jsnum * string) :=
  match s with
  | String "-" r =>
      match unsigned_decimal r with
      | Some (n, rest) => Some (js_neg n, rest)
      | None => None
      end
  | String "+" r => unsigned_decimal r
  | _ => unsigned_decimal s
  end.

(** NonDecimalIntegerLiteral: [0x], [0o] or [0b] and digits of that radix,
    without a sign. *)
Definition radix_of_prefix (c : ascii) : option Z :=
  if Ascii.eqb c "x" || Ascii.eqb c "X" then Some 16%Z
  else if Ascii.eqb c "o" || Ascii.eqb c "O" then Some 8%Z
  else if Ascii.eqb c "b" || Ascii.eqb c "B" then Some 2%Z
  else None.

Definition radix_literal (s : string) : option jsnum :=
  match s with
  | String "0" (String c (String _ _ as ds)) =>
      match radix_of_prefix c with
      | Some radix =>
          if all_chars (is_digit_in radix) ds then Some (jint (radix_value radix 0 ds))
          else None
      | None => None
      end
  | _ => None
  end.

(** [Number(s)] on a string that is not a signed decimal integer: white
    space around the literal is dropped, the empty string is [0], a string
    that is no numeric literal as a whole is [NaN]. *)
Definition number_of_text (s : string) : jsnum :=
  let t := trim s in
  if String.eqb t "" then jint 0
  else
    match radix_literal t with
    | Some n => n
    | None =>
        match signed_decimal t with
        | Some (n, EmptyString) => n
        | _ => JNaN
        end
    end.

(** [parseInt(s)] on such a string: leading white space and a sign, [0x] for
    radix 16, then the longest prefix of digits; [NaN] without a digit. *)
Definition int_of_text (s : string) : jsnum :=
  let t := trim_start s in
  let '(neg, t) :=
    match t with
    | String "-" r => (true, r)
    | String "+" r => (false, r)
    | _ => (false, t)
    end in
  let '(radix, t) :=
    match t with
    | String "0" (String c r) =>
        if Ascii.eqb c "x" || Ascii.eqb c "X" then (16%Z, r) else (10%Z, t)
    | _ => (10%Z, t)
    end in
  let '(ds, _) := span (is_digit_in radix) t in
  match ds with
  | EmptyString => JNaN
  | _ => jint (if neg then - radix_value radix 0 ds else radix_value radix 0 ds)
  end.

(** [parseFloat(s)] on such a string: leading white space, then the longest
    prefix that is a decimal literal; [NaN] without one. *)
Definition float_of_text (s : string) : jsnum :=
  match signed_decimal (trim_start s) with
  | Some (n, _) => n
  | None => JNaN
  end.

(** [Number(s)], the conversion behind [s - 1], [s * n] and [n / s]. *)
Definition to_number_str (s : string) : jsnum :=
  match int_literal s with
  | Some z => jint z
  | None => number_of_text s
  end.

(** [parseInt(s)] *)
Definition parse_int_str (s : string) : jsnum :=
  match int_literal s with
  | Some z => jint z
  | None => int_of_text s
  end.

(** [parseFloat(s)] *)
Definition parse_float_str (s : string) : jsnum :=
  match int_literal s with
  | Some z => jint z
  | None => float_of_text s
  end.

(** ** Values *)

Inductive jsval :=
| VUndefined
| VNull
| VBool (b : bool)
| VNum (n : jsnum)
| VStr (s : string)
| VDate (t : Z)                  (* a Date; its ISO-8601 string once serialised *)
| VArr (l : list jsval)
| VObj (m : gmap string jsval).

(** A value read from an object: an absent key reads as [undefined]. *)
Definition get (o : gmap string jsval) (k : string) : jsval :=
  default VUndefined (o !! k).

(** ToBoolean on the values the handlers test. *)
Definition truthy (v : jsval) : bool :=
  match v with
  | VUndefined | VNull => false
  | VBool b => b
  | VNum (JNum q) => negb (Qeq_bool q 0)
  | VNum JNaN => false
  | VNum (JInf _) => true
  | VStr s => negb (String.eqb s "")
  | VDate _ | VArr _ | VObj _ => true
  end.

(** [a || b] *)
Definition js_or (a b : jsval) : jsval := if truthy a then a else b.

Definition is_undefined (v : jsval) : bool :=
  match v with VUndefined => true | _ => false end.

(** A nullable text column as a value. *)
Definition nullable (x : option string) : jsval :=
  match x with Some s => VStr s | None => VNull end.

(** [JSON.stringify] leaves out the keys of an object whose value is
    [undefined]; this is the object a client receives. *)
Definition json_object (o : gmap string jsval) : gmap string jsval :=
  filter (fun kv => is_undefined kv.2 = false) o.

(** ToNumber on numbers and strings. *)
Definition to_number (v : jsval) : option jsnum :=
  match v with
  | VNum n => Some n
  | VStr s => Some (to_number_str s)
  | _ => None
  end.

(** [parseInt(v)]: the argument is first converted to a string; an integer
    below 1e21 prints as its decimal literal. *)
Definition parseInt (v : jsval) : option jsnum :=
  match v with
  | VNum n => match as_int n with Some z => Some (jint z) | None => None end
  | VStr s => Some (parse_int_str s)
  | _ => None
  end.

(** A query-string parameter with a default: [const { k = d } = req.query]. *)
Definition param_or (q : gmap string string) (k : string) (d : jsval) : jsval :=
  match q !! k with
  | Some s => VStr s
  | None => d
  end.

(** A query-string or body parameter without default. *)
Definition param (q : gmap string string) (k : string) : jsval :=
  param_or q k VUndefined.

End JS.

Import JS.

(** ** The ORM: list semantics of [findMany] and [count] *)

Module Prisma.

Section Query.
Context {R : Type}.

(** [orderBy: { field: 'asc' | 'desc' }] on an integer-valued column
    (time stamps, ratings). *)
Inductive direction := Asc | Desc.

Record ordering := OrderBy { ord_key : R -> Z; ord_dir : direction }.

Definition comes_first (o : ordering) (x y : R) : bool :=
  match ord_dir o with
  | Asc => (ord_key o x <=? ord_key o y)%Z
  | Desc => (ord_key o y <=? ord_key o x)%Z
  end.

Fixpoint insert_sorted (o : ordering) (x : R) (l : list R) : list R :=
  match l with
  | [] => [x]
  | y :: r => if comes_first o x y then x :: y :: r else y :: insert_sorted o x r
  end.

Definition sort_rows (o : option ordering) (l : list R) : list R :=
  match o with
  | None => l
  | Some o => foldr (insert_sorted o) [] l
  end.

(** The window [skip]/[take] selects from the ordered rows.  [skip] must be
    a non-negative integer and [take] an integer, otherwise the client throws;
    a negative [take] counts from the end of the list. *)
Definition window (skip tk : option jsnum) (l : list R) : option (list R) :=
  match skip with
  | None => Some 0%Z
  | Some n => match as_int n with
              | Some z => if (0 <=? z)%Z then Some z else None
              | None => None
              end
  end ≫= fun s =>
  match tk with
  | None => Some l
  | Some n =>
      match as_int n with
      | Some t =>
          if (0 <=? t)%Z
          then Some (firstn (Z.to_nat t) (skipn (Z.to_nat s) l))
          else Some (rev (firstn (Z.to_nat (- t)) (skipn (Z.to_nat s) (rev l))))
      | None => None
      end
  end.

(** [prisma.model.findMany({ where, skip, take, orderBy })]; [None] when the
    call throws. *)
Definition findMany (rows : list R) (matches : R -> bool)
    (skip tk : option jsnum) (o : option ordering) : option (list R) :=
  window skip tk (sort_rows o (List.filter matches rows)).

(** [prisma.model.count({ where })] *)
Definition count (rows : list R) (matches : R -> bool) : Z :=
  Z.of_nat (length (List.filter matches rows)).

(** [prisma.model.findFirst({ where })] *)
Definition findFirst (rows : list R) (matches : R -> bool) : option R :=
  List.find matches rows.

End Query.

Arguments ordering : clear implicits.

End Prisma.

(** ** The Paginator and the listing pattern

    Every paginated handler opens with the same three lines and closes with
    the same response object:
<<
    const { page = 1, limit = D, ... } = req.query;
    const skip = (page - 1) * limit;
    const take = parseInt(limit);
    ...
    res.json({ items, total, page: parseInt(page), pages: Math.ceil(total / limit) });
>> *)

Module Paginator.

Record page_args := PageArgs {
  pa_skip : jsnum;    (* (page - 1) * limit *)
  pa_take : jsnum;    (* parseInt(limit) *)
  pa_page : jsnum;    (* parseInt(page), echoed in the response *)
  pa_limit : jsnum    (* limit as a number, the divisor of [pages] *)
}.

Definition paginate (defLimit : Z) (query : gmap string string) : option page_args :=
  let page := param_or query "page" (VNum (jint 1)) in
  let limit := param_or query "limit" (VNum (jint defLimit)) in
  p ← to_number page;
  l ← to_number limit;
  let skip := js_mul (js_sub p (jint 1)) l in
  tk ← parseInt limit;
  pg ← parseInt page;
  Some (PageArgs skip tk pg l).

(** [Math.ceil(total / limit)] *)
Definition pages_of (total : Z) (limit : jsnum) : jsnum :=
  js_ceil (js_div (jint total) limit).

(** The outcome of a listing handler: the 200 body, or the 500 of the
    [catch] block. *)
Inductive listing (A : Type) :=
| Ok200 (items : list A) (total : Z) (page pages : jsnum)
| Err500.
Arguments Ok200 {A}.
Arguments Err500 {A}.

(** The [total] and the number of items of a 200 response. *)
Definition total_of {A : Type} (r : option (listing A)) : option Z :=
  match r with
  | Some (Ok200 _ total _ _) => Some total
  | _ => None
  end.

Definition item_count {A : Type} (r : option (listing A)) : option nat :=
  match r with
  | Some (Ok200 items _ _ _) => Some (length items)
  | _ => None
  end.

(** A listing endpoint: its default limit, the [where] object it hands to
    [findMany], the [where] object it hands to [count], their evaluation, and
    the order of the fetch.  The builders take the route parameters and the
    query string.  [ep_valid] tells whether the client accepts the [where]
    object: a string outside the enumeration of its column or an operand
    that is no 32-bit integer on an [Int] column makes it throw. *)
Record endpoint := Endpoint {
  ep_row : Type;
  ep_where : Type;
  ep_limit : Z;
  ep_fetch_where : gmap string string -> gmap string string -> option ep_where;
  ep_count_where : gmap string string -> gmap string string -> option ep_where;
  ep_valid : ep_where -> bool;
  ep_matches : ep_where -> ep_row -> bool;
  ep_order : gmap string string -> option (Prisma.ordering ep_row)
}.

(** [Promise.all([findMany, count])] followed by the response. *)
Definition respond (e : endpoint) (rows : list (ep_row e))
    (query : gmap string string) (fw cw : ep_where e) (pa : page_args)
    : listing (ep_row e) :=
  if ep_valid e fw && ep_valid e cw then
    match Prisma.findMany rows (ep_matches e fw)
            (Some (pa_skip pa)) (Some (pa_take pa)) (ep_order e query) with
    | Some items =>
        let total := Prisma.count rows (ep_matches e cw) in
        Ok200 items total (pa_page pa) (pages_of total (pa_limit pa))
    | None => Err500
    end
  else Err500.

(** The handler: table, route parameters, query string. *)
Definition handle (e : endpoint) (rows : list (ep_row e))
    (params query : gmap string string) : option (listing (ep_row e)) :=
  pa ← paginate (ep_limit e) query;
  fw ← ep_fetch_where e params query;
  cw ← ep_count_where e params query;
  Some (respond e rows query fw cw pa).

End Paginator.
Import Paginator.

(** ** Data model

    The tables of the schema, with the columns the handlers read.  Nullable
    columns are options.  The agent's registration number is the column the
    first migration calls [licenseNumber]; the handlers written before the
    rename read it under that name. *)

Module Model.

Record user := User {
  u_id : string;
  u_email : string;
  u_password : string;          (* the bcrypt hash *)
  u_firstName : string;
  u_lastName : string;
  u_role : string;              (* USER | AGENT | ADMIN *)
  u_avatar : option string;
  u_createdAt : Z
}.

Record agent := Agent {
  a_id : string;
  a_userId : string;
  a_registrationNumber : string;
  a_isVerified : bool;
  a_verificationStatus : string; (* PENDING | APPROVED | REJECTED | SUSPENDED *)
  a_subscriptionPlan : string;
  a_businessName : option string;
  a_phone : option string;
  a_bio : option string;
  a_profileImage : option string;
  a_specialties : list string;
  a_listingLimits : Z;
  a_createdAt : Z;
  a_updatedAt : Z
}.

Record property := Property {
  p_id : string;
  p_title : string;
  p_description : string;
  p_price : Z;
  p_address : string;
  p_city : string;
  p_state : string;
  p_zipCode : string;
  p_bedrooms : Z;
  p_bathrooms : Q;
  p_squareFootage : Z;
  p_propertyType : string;
  p_status : string;            (* PENDING | ACTIVE | SOLD | REJECTED *)
  p_agentId : string;
  p_createdAt : Z
}.

Record review := Review {
  r_id : string;
  r_rating : Z;
  r_comment : string;
  r_propertyId : option string;
  r_agentId : option string;
  r_userId : string;
  r_status : string;            (* PENDING | APPROVED | REJECTED *)
  r_createdAt : Z;
  r_updatedAt : Z               (* no default and no handler writes it:
                                   the client stamps it at every write *)
}.

Record favorite := Favorite {
  f_id : string;
  f_userId : string;
  f_propertyId : string;
  f_createdAt : Z
}.

(** A submission of the contact form. *)
Record contact := Contact {
  c_id : string;
  c_name : string;
  c_email : string;
  c_phone : option string;
  c_subject : string;
  c_message : string;
  c_inquiryType : string;
  c_status : string;            (* NEW | CONTACTED | QUALIFIED | CONVERTED | ARCHIVED *)
  c_userId : option string;
  c_agentId : option string;
  c_propertyId : option string;
  c_createdAt : Z;
  c_updatedAt : Z
}.

(** The store.  [db_clock] stands for the server's clock and the source of
    generated identifiers: both only move forward. *)
Record db := Db {
  users : list user;
  agents : list agent;
  properties : list property;
  reviews : list review;
  favorites : list favorite;
  db_clock : nat
}.

Definition empty_db : db := Db [] [] [] [] [] 0.

Definition find_user (d : db) (id : string) : option user :=
  List.find (fun u => String.eqb (u_id u) id) (users d).

Definition find_agent (d : db) (id : string) : option agent :=
  List.find (fun a => String.eqb (a_id a) id) (agents d).

Definition find_agent_of_user (d : db) (uid : string) : option agent :=
  List.find (fun a => String.eqb (a_userId a) uid) (agents d).

Definition find_property (d : db) (id : string) : option property :=
  List.find (fun p => String.eqb (p_id p) id) (properties d).

(** Identifiers generated by the store ([@default(cuid())]). *)
Definition fresh_id (prefix : string) (d : db) : string :=
  prefix ++ NilEmpty.string_of_uint (Nat.to_uint (db_clock d)).

Definition now (d : db) : Z := Z.of_nat (db_clock d).

(** Rows as the listing queries see them: the record with the relations the
    [where] object may traverse. *)
Record property_row := PropertyRow {
  pr_property :> property;
  pr_agent_user : option user       (* property.agent.user *)
}.

Record agent_row := AgentRow {
  ar_agent :> agent;
  ar_user : option user;            (* agent.user *)
  ar_properties : list property     (* agent.properties *)
}.

Record review_row := ReviewRow {
  rr_review :> review;
  rr_property : option property     (* review.property *)
}.

(** The enumerated types of the schema.  [VerificationStatus],
    [ReviewStatus] and [ContactStatus] are those of the migrations; the
    migration that creates the two enumerations of a property is not part of
    the repository, their values are the ones the handlers and the validators
    write. *)
Definition VerificationStatus : list string :=
  ["PENDING"; "APPROVED"; "REJECTED"; "SUSPENDED"].
Definition ReviewStatus : list string := ["PENDING"; "APPROVED"; "REJECTED"].
Definition ContactStatus : list string :=
  ["NEW"; "CONTACTED"; "QUALIFIED"; "CONVERTED"; "ARCHIVED"].
Definition PropertyStatus : list string := ["PENDING"; "ACTIVE"; "SOLD"; "REJECTED"].
Definition PropertyType : list string :=
  ["HOUSE"; "APARTMENT"; "CONDO"; "TOWNHOUSE"; "LAND"; "COMMERCIAL"].

(** A value of an enumerated column: the client refuses any other string. *)
Definition member (enum : list string) (s : string) : bool :=
  existsb (String.eqb s) enum.

Definition property_rows (d : db) : list property_row :=
  map (fun p => PropertyRow p (find_agent d (p_agentId p) ≫= fun a => find_user d (a_userId a)))
      (properties d).

Definition agent_rows (d : db) : list agent_row :=
  map (fun a => AgentRow a (find_user d (a_userId a))
                  (List.filter (fun p => String.eqb (p_agentId p) (a_id a)) (properties d)))
      (agents d).

Definition review_rows (d : db) : list review_row :=
  map (fun r => ReviewRow r (r_propertyId r ≫= find_property d)) (reviews d).

End Model.
Import Model.

(** ** Filter Builder: the [where] objects

    A [where] object is a record with one optional field per key the handlers
    may set.  Spreading [...(cond && { key: v })] into the literal sets that
    key when [cond] is truthy; a key set twice keeps the later value. *)

Module Where.

(** The test [x && ...] on a query parameter: a present, non-empty string. *)
Definition given (query : gmap string string) (k : string) : option string :=
  match query !! k with
  | Some s => if String.eqb s "" then None else Some s
  | None => None
  end.

(** [...(x && f x)]: apply the update when the parameter is truthy. *)
Definition spread {W : Type} (x : option string) (f : string -> W -> option W)
    (w : W) : option W :=
  match x with
  | Some s => f s w
  | None => Some w
  end.

Inductive user_text := UFirstName | ULastName | UEmail.

(** [{ field: { contains: s, mode: 'insensitive' } }] on a user. *)
Inductive user_clause := UContains (f : user_text) (s : string).

Definition user_field (f : user_text) (u : user) : string :=
  match f with
  | UFirstName => u_firstName u
  | ULastName => u_lastName u
  | UEmail => u_email u
  end.

Definition user_clause_holds (u : user) (c : user_clause) : bool :=
  let 'UContains f s := c in contains_insensitive s (user_field f u).

(** A relation filter on an optional relation holds of no missing relative. *)
Definition some_user (u : option user) (p : user -> bool) : bool :=
  match u with Some u => p u | None => false end.

Inductive num_filter :=
| Gte (n : jsnum)     (* { gte: n } *)
| Lte (n : jsnum).    (* { lte: n } *)

Definition num_filter_arg (f : num_filter) : jsnum :=
  match f with Gte n | Lte n => n end.

(** The operand of a filter on an [Int] column: a 32-bit integer. *)
Definition is_int32 (n : jsnum) : bool :=
  match as_int n with
  | Some z => (- 2 ^ 31 <=? z)%Z && (z <? 2 ^ 31)%Z
  | None => false
  end.

Definition num_filter_holds (f : num_filter) (x : Q) : bool :=
  match f with
  | Gte (JNum n) => Qle_bool n x
  | Lte (JNum n) => Qle_bool x n
  | _ => false
  end.

Definition num_equals (n : jsnum) (x : Q) : bool :=
  match n with JNum q => Qeq_bool q x | _ => false end.

Definition opt_holds {A : Type} (f : option A) (p : A -> bool) : bool :=
  match f with Some a => p a | None => true end.

End Where.
Import Where.

(** ** Properties: [GET /properties], [GET /properties/search],
    [GET /admin/properties] *)

Module Properties.

Inductive prop_text := PTitle | PDescription | PCity | PAddress.

Inductive prop_clause :=
| PContains (f : prop_text) (s : string)   (* { f: { contains: s, mode: 'insensitive' } } *)
| PAgentUser (l : list user_clause).       (* { agent: { user: { OR: l } } } *)

Record prop_where := PropWhere {
  pw_status : option string;
  pw_OR : option (list prop_clause);
  pw_price : option num_filter;
  pw_bedrooms : option jsnum;
  pw_bathrooms : option num_filter;
  pw_propertyType : option string;
  pw_city : option string;        (* contains, insensitive *)
  pw_state : option string        (* contains, insensitive *)
}.

Definition no_filter : prop_where :=
  PropWhere None None None None None None None None.

Definition set_status v (w : prop_where) : prop_where :=
  PropWhere (Some v) (pw_OR w) (pw_price w) (pw_bedrooms w) (pw_bathrooms w)
    (pw_propertyType w) (pw_city w) (pw_state w).
Definition set_OR v (w : prop_where) : prop_where :=
  PropWhere (pw_status w) (Some v) (pw_price w) (pw_bedrooms w) (pw_bathrooms w)
    (pw_propertyType w) (pw_city w) (pw_state w).
Definition set_price v (w : prop_where) : prop_where :=
  PropWhere (pw_status w) (pw_OR w) (Some v) (pw_bedrooms w) (pw_bathrooms w)
    (pw_propertyType w) (pw_city w) (pw_state w).
Definition set_bedrooms v (w : prop_where) : prop_where :=
  PropWhere (pw_status w) (pw_OR w) (pw_price w) (Some v) (pw_bathrooms w)
    (pw_propertyType w) (pw_city w) (pw_state w).
Definition set_bathrooms v (w : prop_where) : prop_where :=
  PropWhere (pw_status w) (pw_OR w) (pw_price w) (pw_bedrooms w) (Some v)
    (pw_propertyType w) (pw_city w) (pw_state w).
Definition set_propertyType v (w : prop_where) : prop_where :=
  PropWhere (pw_status w) (pw_OR w) (pw_price w) (pw_bedrooms w) (pw_bathrooms w)
    (Some v) (pw_city w) (pw_state w).
Definition set_city v (w : prop_where) : prop_where :=
  PropWhere (pw_status w) (pw_OR w) (pw_price w) (pw_bedrooms w) (pw_bathrooms w)
    (pw_propertyType w) (Some v) (pw_state w).
Definition set_state v (w : prop_where) : prop_where :=
  PropWhere (pw_status w) (pw_OR w) (pw_price w) (pw_bedrooms w) (pw_bathrooms w)
    (pw_propertyType w) (pw_city w) (Some v).

Definition prop_field (f : prop_text) (p : property) : string :=
  match f with
  | PTitle => p_title p
  | PDescription => p_description p
  | PCity => p_city p
  | PAddress => p_address p
  end.

Definition clause_holds (r : property_row) (c : prop_clause) : bool :=
  match c with
  | PContains f s => contains_insensitive s (prop_field f r)
  | PAgentUser l => some_user (pr_agent_user r) (fun u => existsb (user_clause_holds u) l)
  end.

(** A row satisfies the object when it satisfies every key that is set. *)
Definition matches (w : prop_where) (r : property_row) : bool :=
  opt_holds (pw_status w) (String.eqb (p_status r)) &&
  opt_holds (pw_OR w) (existsb (clause_holds r)) &&
  opt_holds (pw_price w) (fun f => num_filter_holds f (inject_Z (p_price r))) &&
  opt_holds (pw_bedrooms w) (fun n => num_equals n (inject_Z (p_bedrooms r))) &&
  opt_holds (pw_bathrooms w) (fun f => num_filter_holds f (p_bathrooms r)) &&
  opt_holds (pw_propertyType w) (String.eqb (p_propertyType r)) &&
  opt_holds (pw_city w) (fun s => contains_insensitive s (p_city r)) &&
  opt_holds (pw_state w) (fun s => contains_insensitive s (p_state r)).

(** The [where] objects the client accepts: a value of the enumeration on
    an enumerated column, a 32-bit integer on an [Int] column.  The [Float]
    column [bathrooms] takes any number; [NaN] and the infinities reach the
    database as [null], and no row compares with it ([num_filter_holds]). *)
Definition valid (w : prop_where) : bool :=
  opt_holds (pw_status w) (member PropertyStatus) &&
  opt_holds (pw_price w) (fun f => is_int32 (num_filter_arg f)) &&
  opt_holds (pw_bedrooms w) is_int32 &&
  opt_holds (pw_propertyType w) (member PropertyType).

(** The filters the two public handlers share, key by key. *)
Definition list_where (query : gmap string string) : option prop_where :=
  w ← Some (set_status "ACTIVE" no_filter);
  w ← spread (given query "search") (fun s w =>
        Some (set_OR [PContains PTitle s; PContains PDescription s; PContains PCity s] w)) w;
  w ← spread (given query "priceMin") (fun s w =>
        Some (set_price (Gte (parse_int_str s)) w)) w;
  w ← spread (given query "priceMax") (fun s w =>
        Some (set_price (Lte (parse_int_str s)) w)) w;
  w ← spread (given query "bedrooms") (fun s w =>
        Some (set_bedrooms (parse_int_str s) w)) w;
  w ← spread (given query "bathrooms") (fun s w =>
        Some (set_bathrooms (Gte (parse_float_str s)) w)) w;
  w ← spread (given query "propertyType") (fun s w => Some (set_propertyType s w)) w;
  w ← spread (given query "city") (fun s w => Some (set_city s w)) w;
  spread (given query "state") (fun s w => Some (set_state s w)) w.

Definition search_where (query : gmap string string) : option prop_where :=
  w ← Some (set_status "ACTIVE" no_filter);
  w ← spread (given query "q") (fun s w =>
        Some (set_OR [PContains PTitle s; PContains PDescription s;
                      PContains PCity s; PContains PAddress s] w)) w;
  w ← spread (given query "priceMin") (fun s w =>
        Some (set_price (Gte (parse_int_str s)) w)) w;
  w ← spread (given query "priceMax") (fun s w =>
        Some (set_price (Lte (parse_int_str s)) w)) w;
  w ← spread (given query "bedrooms") (fun s w =>
        Some (set_bedrooms (parse_int_str s) w)) w;
  w ← spread (given query "bathrooms") (fun s w =>
        Some (set_bathrooms (Gte (parse_float_str s)) w)) w;
  w ← spread (given query "propertyType") (fun s w => Some (set_propertyType s w)) w;
  w ← spread (given query "city") (fun s w => Some (set_city s w)) w;
  spread (given query "state") (fun s w => Some (set_state s w)) w.

(** [GET /admin/properties]: [status = 'all'] by default. *)
Definition admin_where (query : gmap string string) : option prop_where :=
  let status := default "all" (query !! "status") in
  w ← Some no_filter;
  w ← spread (if String.eqb status "" || String.eqb status "all" then None else Some status)
        (fun s w => Some (set_status s w)) w;
  spread (given query "search") (fun s w =>
        Some (set_OR [PContains PTitle s; PContains PDescription s; PContains PAddress s;
                      PAgentUser [UContains UFirstName s; UContains ULastName s;
                                  UContains UEmail s]] w)) w.

Definition newest : option (Prisma.ordering property_row) :=
  Some (Prisma.OrderBy (fun r : property_row => p_createdAt r) Prisma.Desc).

Definition list_endpoint : endpoint :=
  Endpoint property_row prop_where 10
    (fun _ q => list_where q) (fun _ q => list_where q)
    valid matches (fun _ => newest).

Definition search_endpoint : endpoint :=
  Endpoint property_row prop_where 10
    (fun _ q => search_where q) (fun _ q => search_where q)
    valid matches (fun _ => newest).

Definition admin_endpoint : endpoint :=
  Endpoint property_row prop_where 50
    (fun _ q => admin_where q) (fun _ q => admin_where q)
    valid matches (fun _ => newest).

(** [GET /properties] *)
Definition get_properties (d : db) (query : gmap string string) :=
  handle list_endpoint (property_rows d) ∅ query.

(** [GET /properties/search] *)
Definition get_properties_search (d : db) (query : gmap string string) :=
  handle search_endpoint (property_rows d) ∅ query.

(** [GET /admin/properties], behind [authenticate] and [requireAdmin]. *)
Definition get_admin_properties (d : db) (query : gmap string string) :=
  handle admin_endpoint (property_rows d) ∅ query.

End Properties.

(** ** Reviews: the public and the moderation listings *)

Module Reviews.

Record review_where := ReviewWhere {
  rw_status : option string;
  rw_propertyId : option string;
  rw_agentId : option string;
  rw_userId : option string;
  rw_property_agentId : option string    (* { property: { agentId } } *)
}.

Definition opt_is (x : option string) (v : string) : bool :=
  match x with Some y => String.eqb y v | None => false end.

Definition matches (w : review_where) (r : review_row) : bool :=
  opt_holds (rw_status w) (String.eqb (r_status r)) &&
  opt_holds (rw_propertyId w) (opt_is (r_propertyId r)) &&
  opt_holds (rw_agentId w) (opt_is (r_agentId r)) &&
  opt_holds (rw_userId w) (String.eqb (r_userId r)) &&
  opt_holds (rw_property_agentId w) (fun a =>
    match rr_property r with
    | Some p => String.eqb (p_agentId p) a
    | None => false
    end).

(** [status] is a column of the enumeration [ReviewStatus]. *)
Definition valid (w : review_where) : bool :=
  opt_holds (rw_status w) (member ReviewStatus).

Definition any_review : review_where := ReviewWhere None None None None None.

(** An object literal that writes the same key twice keeps the last value:
    [{ where: a, where: b, ... }] is [{ where: b, ... }]. *)
Definition repeated_key {W : Type} (first last : W) : W := last.

Definition by_createdAt (d : Prisma.direction) : option (Prisma.ordering review_row) :=
  Some (Prisma.OrderBy (fun r : review_row => r_createdAt r) d).

Definition by_rating (d : Prisma.direction) : option (Prisma.ordering review_row) :=
  Some (Prisma.OrderBy (fun r : review_row => r_rating r) d).

(** The [switch (sortBy)] of [GET /reviews]. *)
Definition orderBy (query : gmap string string) : option (Prisma.ordering review_row) :=
  let sortBy := default "newest" (query !! "sortBy") in
  if String.eqb sortBy "newest" then by_createdAt Prisma.Desc
  else if String.eqb sortBy "oldest" then by_createdAt Prisma.Asc
  else if String.eqb sortBy "highest" then by_rating Prisma.Desc
  else if String.eqb sortBy "lowest" then by_rating Prisma.Asc
  else by_createdAt Prisma.Desc.

Definition newest (_ : gmap string string) := by_createdAt Prisma.Desc.

Definition approved : review_where := ReviewWhere (Some "APPROVED") None None None None.
Definition pending : review_where := ReviewWhere (Some "PENDING") None None None None.

(** [GET /reviews] (both versions of the router). *)
Definition all_endpoint : endpoint :=
  Endpoint review_row review_where 20
    (fun _ _ => Some approved) (fun _ _ => Some approved)
    valid matches orderBy.

(** [GET /reviews/property/:propertyId], first version: [findMany] is given
    [where] twice, [count] once. *)
Definition property_endpoint_v1 : endpoint :=
  Endpoint review_row review_where 10
    (fun params _ =>
       Some (repeated_key approved
               (ReviewWhere None (params !! "propertyId") None None None)))
    (fun params _ => Some (ReviewWhere None (params !! "propertyId") None None None))
    valid matches newest.

(** [GET /reviews/agent/:agentId], first version. *)
Definition agent_endpoint_v1 : endpoint :=
  Endpoint review_row review_where 10
    (fun params _ =>
       Some (repeated_key approved
               (ReviewWhere None None None None (params !! "agentId"))))
    (fun params _ => Some (ReviewWhere None None None None (params !! "agentId")))
    valid matches newest.

(** [GET /reviews/user/:userId], first version. *)
Definition user_endpoint_v1 : endpoint :=
  Endpoint review_row review_where 10
    (fun params _ =>
       Some (repeated_key approved
               (ReviewWhere None None None (params !! "userId") None)))
    (fun params _ => Some (ReviewWhere None None None (params !! "userId") None))
    valid matches newest.

(** The same three routes in the current router. *)
Definition property_endpoint : endpoint :=
  Endpoint review_row review_where 10
    (fun params _ => Some (ReviewWhere (Some "APPROVED") (params !! "propertyId") None None None))
    (fun params _ => Some (ReviewWhere (Some "APPROVED") (params !! "propertyId") None None None))
    valid matches newest.

Definition agent_endpoint : endpoint :=
  Endpoint review_row review_where 10
    (fun params _ => Some (ReviewWhere (Some "APPROVED") None (params !! "agentId") None None))
    (fun params _ => Some (ReviewWhere (Some "APPROVED") None (params !! "agentId") None None))
    valid matches newest.

Definition user_endpoint : endpoint :=
  Endpoint review_row review_where 10
    (fun params _ => Some (ReviewWhere (Some "APPROVED") None None (params !! "userId") None))
    (fun params _ => Some (ReviewWhere (Some "APPROVED") None None (params !! "userId") None))
    valid matches newest.

(** [GET /reviews/admin/all]: neither query has a [where]. *)
Definition admin_all_endpoint : endpoint :=
  Endpoint review_row review_where 100
    (fun _ _ => Some any_review) (fun _ _ => Some any_review)
    valid matches newest.

(** [GET /reviews/admin/pending] and [GET /admin/reviews/pending]. *)
Definition admin_pending_endpoint : endpoint :=
  Endpoint review_row review_where 20
    (fun _ _ => Some pending) (fun _ _ => Some pending)
    valid matches newest.

Definition get_reviews (d : db) (query : gmap string string) :=
  handle all_endpoint (review_rows d) ∅ query.

Definition get_property_reviews (d : db) (propertyId : string) (query : gmap string string) :=
  handle property_endpoint (review_rows d) {[ "propertyId" := propertyId ]} query.


Definition get_pending_reviews (d : db) (query : gmap string string) :=
  handle admin_pending_endpoint (review_rows d) ∅ query.

End Reviews.

(** ** Agents: the public listing and the admin listing *)

Module Agents.

Inductive agent_clause :=
| AUser (c : user_clause)                 (* { user: { field: { contains } } } *)
| ASpecialtiesHasSome (l : list string)   (* { specialties: { hasSome: l } } *)
| ARegistrationNumber (s : string).       (* { registrationNumber: { contains } } *)

Record agent_where := AgentWhere {
  aw_isVerified : option bool;
  aw_verificationStatus : option string;
  aw_OR : option (list agent_clause);
  aw_user : option (list user_clause);    (* { user: { OR: l } } *)
  aw_specialties : option string          (* { specialties: { has: s } } *)
}.

Definition no_filter : agent_where := AgentWhere None None None None None.

Definition set_isVerified v (w : agent_where) : agent_where :=
  AgentWhere (Some v) (aw_verificationStatus w) (aw_OR w) (aw_user w) (aw_specialties w).
Definition set_verificationStatus v (w : agent_where) : agent_where :=
  AgentWhere (aw_isVerified w) (Some v) (aw_OR w) (aw_user w) (aw_specialties w).
Definition set_OR v (w : agent_where) : agent_where :=
  AgentWhere (aw_isVerified w) (aw_verificationStatus w) (Some v) (aw_user w) (aw_specialties w).
Definition set_user v (w : agent_where) : agent_where :=
  AgentWhere (aw_isVerified w) (aw_verificationStatus w) (aw_OR w) (Some v) (aw_specialties w).
Definition set_specialties v (w : agent_where) : agent_where :=
  AgentWhere (aw_isVerified w) (aw_verificationStatus w) (aw_OR w) (aw_user w) (Some v).

Definition has_specialty (a : agent) (s : string) : bool :=
  existsb (String.eqb s) (a_specialties a).

Definition clause_holds (r : agent_row) (c : agent_clause) : bool :=
  match c with
  | AUser c => some_user (ar_user r) (fun u => user_clause_holds u c)
  | ASpecialtiesHasSome l => existsb (has_specialty r) l
  | ARegistrationNumber s => contains_insensitive s (a_registrationNumber r)
  end.

Definition matches (w : agent_where) (r : agent_row) : bool :=
  opt_holds (aw_isVerified w) (Bool.eqb (a_isVerified r)) &&
  opt_holds (aw_verificationStatus w) (String.eqb (a_verificationStatus r)) &&
  opt_holds (aw_OR w) (existsb (clause_holds r)) &&
  opt_holds (aw_user w) (fun l =>
    some_user (ar_user r) (fun u => existsb (user_clause_holds u) l)) &&
  opt_holds (aw_specialties w) (has_specialty r).

(** [verificationStatus] is a column of the enumeration
    [VerificationStatus]: the client refuses any other string. *)
Definition valid (w : agent_where) : bool :=
  opt_holds (aw_verificationStatus w) (member VerificationStatus).

(** The test [x && x !== 'all' && ...] of the public listing. *)
Definition given_not_all (query : gmap string string) (k : string) : option string :=
  match given query k with
  | Some s => if String.eqb s "all" then None else Some s
  | None => None
  end.

Definition public_filters (query : gmap string string) (w : agent_where)
    : option agent_where :=
  w ← spread (given query "search") (fun s w =>
        Some (set_OR [AUser (UContains UFirstName s); AUser (UContains ULastName s);
                      ASpecialtiesHasSome [s]] w)) w;
  w ← spread (given_not_all query "location") (fun s w =>
        Some (set_user [UContains UFirstName s; UContains ULastName s] w)) w;
  spread (given_not_all query "specialty") (fun s w => Some (set_specialties s w)) w.

(** [GET /agents], written against [isVerified] ... *)
Definition public_where_v1 (query : gmap string string) : option agent_where :=
  public_filters query (set_isVerified true no_filter).

(** ... and, in the current router, against [verificationStatus]. *)
Definition public_where (query : gmap string string) : option agent_where :=
  public_filters query (set_verificationStatus "APPROVED" no_filter).

(** [GET /admin/agents], first version: the conditional spreads. *)
Definition admin_where_v1 (query : gmap string string) : option agent_where :=
  w ← spread (given query "search") (fun s w =>
        Some (set_OR [AUser (UContains UFirstName s); AUser (UContains ULastName s);
                      ARegistrationNumber s] w)) no_filter;
  spread (given_not_all query "status") (fun s w => Some (set_verificationStatus s w)) w.

Definition validStatuses : list string := ["PENDING"; "APPROVED"; "REJECTED"; "SUSPENDED"].

(** [GET /admin/agents], current version: [where] starts empty and is
    filled by two guarded assignments. *)
Definition admin_where (query : gmap string string) : option agent_where :=
  let where_ := no_filter in
  let where_ :=
    match query !! "search" with
    | Some search =>
        if negb (String.eqb search "") && negb (String.eqb (trim search) "")
           && negb (String.eqb search "undefined")
        then set_OR [AUser (UContains UFirstName (trim search));
                     AUser (UContains ULastName (trim search));
                     ARegistrationNumber (trim search)] where_
        else where_
    | None => where_
    end in
  let where_ :=
    match query !! "status" with
    | Some status =>
        if negb (String.eqb status "") && negb (String.eqb status "all")
           && negb (String.eqb status "undefined") && negb (String.eqb (trim status) "")
        then
          if existsb (String.eqb (toUpperCase status)) validStatuses
          then set_verificationStatus (toUpperCase status) where_
          else where_
        else where_
    | None => where_
    end in
  Some where_.

Definition newest : option (Prisma.ordering agent_row) :=
  Some (Prisma.OrderBy (fun r : agent_row => a_createdAt r) Prisma.Desc).

Definition admin_endpoint_v1 : endpoint :=
  Endpoint agent_row agent_where 50
    (fun _ q => admin_where_v1 q) (fun _ q => admin_where_v1 q)
    valid matches (fun _ => newest).

Definition admin_endpoint : endpoint :=
  Endpoint agent_row agent_where 50
    (fun _ q => admin_where q) (fun _ q => admin_where q)
    valid matches (fun _ => newest).

End Agents.

(** ** Contact submissions: [GET /contact/submissions]

    The route has no middleware.  The relatives the query includes are added
    to each row; they decide neither which rows are returned nor how many. *)

Module Contacts.

Record contact_where := ContactWhere { cw_status : option string }.

Definition matches (w : contact_where) (c : contact) : bool :=
  opt_holds (cw_status w) (String.eqb (c_status c)).

(** [status] is a column of the enumeration [ContactStatus]. *)
Definition valid (w : contact_where) : bool :=
  opt_holds (cw_status w) (member ContactStatus).

(** [{ ...(status && status !== 'all' && { status }) }], [status = 'all'] by
    default. *)
Definition submissions_where (query : gmap string string) : option contact_where :=
  let status := default "all" (query !! "status") in
  spread (if String.eqb status "" || String.eqb status "all" then None else Some status)
    (fun s _ => Some (ContactWhere (Some s))) (ContactWhere None).

Definition newest : option (Prisma.ordering contact) :=
  Some (Prisma.OrderBy (fun c : contact => c_createdAt c) Prisma.Desc).

Definition submissions_endpoint : endpoint :=
  Endpoint contact contact_where 20
    (fun _ q => submissions_where q) (fun _ q => submissions_where q)
    valid matches (fun _ => newest).

Definition get_submissions (rows : list contact) (query : gmap string string) :=
  handle submissions_endpoint rows ∅ query.

End Contacts.

(** ** Result Projector: the agent listings *)

Module AgentViews.
Import Agents.

Definition count_status (st : string) (ps : list property) : Z :=
  Z.of_nat (length (List.filter (fun p => String.eqb (p_status p) st) ps)).

(** [agent.specialties?.[0]] *)
Definition first_specialty (a : agent) : jsval :=
  match a_specialties a with
  | s :: _ => VStr s
  | [] => VUndefined
  end.

(** [agents.map(agent => ({ ... }))] of the public listing, first version.
    The properties are selected with [id], [status] and [price] only, so
    [p.reviews?.length || 0] is [0] for each of them.  Reading
    [agent.user.firstName] of a missing user throws. *)
Definition transform_public_v1 (r : agent_row) : option (gmap string jsval) :=
  u ← ar_user r;
  let soldProperties := count_status "SOLD" (ar_properties r) in
  let totalReviews := fold_left (fun sum (_ : property) => sum + 0)%Z (ar_properties r) 0%Z in
  Some (list_to_map [
    ("id", VStr (a_id r));
    ("name", VStr (u_firstName u ++ " " ++ u_lastName u));
    ("email", VStr (u_email u));
    ("image", nullable (u_avatar u));
    ("title", VStr "Real Estate Agent");
    ("location", js_or (first_specialty r) (VStr "Available"));
    ("bio", js_or (nullable (a_bio r)) (VStr "Experienced real estate professional"));
    ("specialties", js_or (VArr (map VStr (a_specialties r))) (VArr [VStr "Real Estate"]));
    ("rating", VNum (JNum 4.5));
    ("reviews", VNum (jint totalReviews));
    ("propertiesSold", VNum (jint soldProperties));
    ("yearsExperience", VNum (jint 5));
    ("licenseNumber", VStr (a_registrationNumber r));
    ("isVerified", VBool (a_isVerified r));
    ("phone", nullable (a_phone r));
    ("profileImage", nullable (a_profileImage r))
  ]).

(** The same projection in the current router. *)
Definition transform_public (r : agent_row) : option (gmap string jsval) :=
  u ← ar_user r;
  let soldProperties := count_status "SOLD" (ar_properties r) in
  let totalReviews := fold_left (fun sum (_ : property) => sum + 0)%Z (ar_properties r) 0%Z in
  Some (list_to_map [
    ("id", VStr (a_id r));
    ("name", VStr (u_firstName u ++ " " ++ u_lastName u));
    ("email", VStr (u_email u));
    ("image", nullable (u_avatar u));
    ("title", VStr "Real Estate Agent");
    ("location", js_or (first_specialty r) (VStr "Available"));
    ("bio", js_or (nullable (a_bio r)) (VStr "Experienced real estate professional"));
    ("specialties", js_or (VArr (map VStr (a_specialties r))) (VArr [VStr "Real Estate"]));
    ("rating", VNum (JNum 4.5));
    ("reviews", VNum (jint totalReviews));
    ("propertiesSold", VNum (jint soldProperties));
    ("yearsExperience", VNum (jint 5));
    ("registrationNumber", VStr (a_registrationNumber r));
    ("isVerified", VBool (a_isVerified r));
    ("verificationStatus", VStr (a_verificationStatus r));
    ("phone", nullable (a_phone r));
    ("profileImage", nullable (a_profileImage r))
  ]).

(** [agents.map(agent => ({ ... }))] of the admin listing, first version. *)
Definition transform_admin_v1 (r : agent_row) : option (gmap string jsval) :=
  u ← ar_user r;
  let activeProperties := count_status "ACTIVE" (ar_properties r) in
  let soldProperties := count_status "SOLD" (ar_properties r) in
  Some (list_to_map [
    ("agentId", VStr (a_id r));
    ("firstName", VStr (u_firstName u));
    ("lastName", VStr (u_lastName u));
    ("email", VStr (u_email u));
    ("phone", nullable (a_phone r));
    ("businessName", nullable (a_businessName r));
    ("licenseNumber", VStr (a_registrationNumber r));
    ("isVerified", VBool (a_isVerified r));
    ("verificationStatus", VStr (a_verificationStatus r));
    ("subscriptionPlan", VStr (a_subscriptionPlan r));
    ("currentMonthListings", VNum (jint activeProperties));
    ("listingLimits", js_or (VNum (jint (a_listingLimits r))) (VNum (jint 25)));
    ("profilePicture", js_or (nullable (u_avatar u)) (VStr "/api/placeholder/64/64"));
    ("totalSales", VNum (jint soldProperties));
    ("rating", VNum (JNum 4.8));
    ("joinedDate", VDate (u_createdAt u));
    ("lastActive", VDate (a_updatedAt r))
  ]).

(** [String(x || '')] on a nullable text column. *)
Definition string_or_empty (x : option string) : jsval :=
  js_or (nullable x) (VStr "").

(** The admin listing of the current router: every value goes through
    [String], [Number], [Boolean] or [toISOString]. *)
Definition transform_admin (r : agent_row) : option (gmap string jsval) :=
  u ← ar_user r;
  let activeProperties := count_status "ACTIVE" (ar_properties r) in
  let soldProperties := count_status "SOLD" (ar_properties r) in
  Some (list_to_map [
    ("agentId", VStr (a_id r));
    ("firstName", VStr (u_firstName u));
    ("lastName", VStr (u_lastName u));
    ("email", VStr (u_email u));
    ("phone", string_or_empty (a_phone r));
    ("businessName", string_or_empty (a_businessName r));
    ("registrationNumber", js_or (VStr (a_registrationNumber r)) (VStr ""));
    ("isVerified", VBool (a_isVerified r));
    ("verificationStatus", VStr (a_verificationStatus r));
    ("subscriptionPlan", VStr (a_subscriptionPlan r));
    ("currentMonthListings", VNum (jint activeProperties));
    ("listingLimits", js_or (VNum (jint (a_listingLimits r))) (VNum (jint 25)));
    ("profilePicture", js_or (nullable (u_avatar u)) (VStr "/api/placeholder/64/64"));
    ("totalSales", VNum (jint soldProperties));
    ("rating", VNum (JNum 4.8));
    ("joinedDate", VDate (u_createdAt u));
    ("lastActive", VDate (a_updatedAt r))
  ]).

(** The keys each projection promises. *)
Definition public_contract_v1 : list string :=
  ["id"; "name"; "email"; "image"; "title"; "location"; "bio"; "specialties";
   "rating"; "reviews"; "propertiesSold"; "yearsExperience"; "licenseNumber";
   "isVerified"; "phone"; "profileImage"].

Definition public_contract : list string :=
  ["id"; "name"; "email"; "image"; "title"; "location"; "bio"; "specialties";
   "rating"; "reviews"; "propertiesSold"; "yearsExperience"; "registrationNumber";
   "isVerified"; "verificationStatus"; "phone"; "profileImage"].

Definition admin_contract_v1 : list string :=
  ["agentId"; "firstName"; "lastName"; "email"; "phone"; "businessName";
   "licenseNumber"; "isVerified"; "verificationStatus"; "subscriptionPlan";
   "currentMonthListings"; "listingLimits"; "profilePicture"; "totalSales";
   "rating"; "joinedDate"; "lastActive"].

Definition admin_contract : list string :=
  ["agentId"; "firstName"; "lastName"; "email"; "phone"; "businessName";
   "registrationNumber"; "isVerified"; "verificationStatus"; "subscriptionPlan";
   "currentMonthListings"; "listingLimits"; "profilePicture"; "totalSales";
   "rating"; "joinedDate"; "lastActive"].

(** The public listing has no pagination: one [findMany], then
    [{ agents, total: agents.length, hasMore: false }]. *)
Inductive agents_reply :=
| AgentsOk (agents : list (gmap string jsval)) (total : Z) (hasMore : bool)
| AgentsErr500.

Definition public_listing (where_of : gmap string string -> option agent_where)
    (transform : agent_row -> option (gmap string jsval))
    (d : db) (query : gmap string string) : option agents_reply :=
  w ← where_of query;
  Some match Prisma.findMany (agent_rows d) (matches w) None None newest with
       | Some rows =>
           match mapM transform rows with
           | Some transformedAgents =>
               AgentsOk (map json_object transformedAgents)
                        (Z.of_nat (length transformedAgents)) false
           | None => AgentsErr500
           end
       | None => AgentsErr500
       end.

(** [GET /agents], first and current version. *)
Definition get_agents_v1 := public_listing public_where_v1 transform_public_v1.
Definition get_agents := public_listing public_where transform_public.

(** The admin listing: the paginated pattern, then the projection. *)
Definition project (transform : agent_row -> option (gmap string jsval))
    (r : listing agent_row) : listing (gmap string jsval) :=
  match r with
  | Ok200 items total page pages =>
      match mapM transform items with
      | Some transformedAgents => Ok200 (map json_object transformedAgents) total page pages
      | None => Err500
      end
  | Err500 => Err500
  end.

(** [GET /admin/agents], first and current version. *)
Definition get_admin_agents_v1 (d : db) (query : gmap string string) :=
  project transform_admin_v1 <$> handle admin_endpoint_v1 (agent_rows d) ∅ query.

Definition get_admin_agents (d : db) (query : gmap string string) :=
  project transform_admin <$> handle admin_endpoint (agent_rows d) ∅ query.

End AgentViews.

(** ** Replies of the mutating handlers and the entity objects *)

Module Http.

Record reply := Reply {
  status : Z;
  body : gmap string jsval
}.

(** [res.status(s).json({ message: m })] *)
Definition message_reply (s : Z) (m : string) : reply :=
  Reply s {[ "message" := VStr m ]}.

(** [res.status(400).json({ errors: errors.array() })]: one entry (the name
    of the field) per failed validator. *)
Definition validation_reply (fields : list string) : reply :=
  Reply 400 {[ "errors" := VArr (map VStr fields) ]}.

(** The 500 of a [catch] block. *)
Definition server_error (m : string) : reply := message_reply 500 m.

Definition Z_to_string (z : Z) : string :=
  NilZero.string_of_int (Z.to_int z).

(** The text a validator sees: [toString] of the raw body value. *)
Definition to_text (v : jsval) : string :=
  match v with
  | VStr s => s
  | VNum n => match as_int n with Some z => Z_to_string z | None => "NaN" end
  | VBool true => "true"
  | VBool false => "false"
  | _ => ""
  end.

Definition is_string (v : jsval) : bool :=
  match v with VStr _ => true | _ => false end.

(** [v || null] (or [v || undefined]) on a text value, as an optional column. *)
Definition column (v : jsval) : option string :=
  match v with
  | VStr s => if String.eqb s "" then None else Some s
  | _ => None
  end.

(** [isInt({ min, max })]: an optional sign, then digits (leading zeros are
    allowed by default), within the bounds. *)
Definition isInt (lo hi : Z) (s : string) : bool :=
  let '(neg, ds) :=
    match s with
    | String "-" r => (true, r)
    | String "+" r => (false, r)
    | _ => (false, s)
    end in
  match ds with
  | EmptyString => false
  | String _ _ =>
      all_chars is_digit ds &&
      let v := digits_value 0 ds in
      let v := if neg then (- v)%Z else v in
      (lo <=? v)%Z && (v <=? hi)%Z
  end.

(** [isLength({ min, max })] *)
Definition isLength (lo hi : nat) (s : string) : bool :=
  (lo <=? String.length s)%nat && (String.length s <=? hi)%nat.

Definition min_length (lo : nat) (s : string) : bool :=
  (lo <=? String.length s)%nat.

(** The failed fields among a list of checks. *)
Definition failed (checks : list (string * bool)) : list string :=
  map fst (List.filter (fun c => negb (snd c)) checks).

Definition user_object (u : user) : gmap string jsval :=
  list_to_map [
    ("id", VStr (u_id u));
    ("email", VStr (u_email u));
    ("password", VStr (u_password u));
    ("firstName", VStr (u_firstName u));
    ("lastName", VStr (u_lastName u));
    ("role", VStr (u_role u));
    ("avatar", nullable (u_avatar u));
    ("createdAt", VDate (u_createdAt u))
  ].

Definition agent_object (a : agent) : gmap string jsval :=
  list_to_map [
    ("id", VStr (a_id a));
    ("userId", VStr (a_userId a));
    ("registrationNumber", VStr (a_registrationNumber a));
    ("isVerified", VBool (a_isVerified a));
    ("verificationStatus", VStr (a_verificationStatus a));
    ("subscriptionPlan", VStr (a_subscriptionPlan a));
    ("businessName", nullable (a_businessName a));
    ("phone", nullable (a_phone a));
    ("bio", nullable (a_bio a));
    ("profileImage", nullable (a_profileImage a));
    ("specialties", VArr (map VStr (a_specialties a)));
    ("listingLimits", VNum (jint (a_listingLimits a)));
    ("createdAt", VDate (a_createdAt a));
    ("updatedAt", VDate (a_updatedAt a))
  ].

Definition property_object (p : property) : gmap string jsval :=
  list_to_map [
    ("id", VStr (p_id p));
    ("title", VStr (p_title p));
    ("description", VStr (p_description p));
    ("price", VNum (jint (p_price p)));
    ("address", VStr (p_address p));
    ("city", VStr (p_city p));
    ("state", VStr (p_state p));
    ("zipCode", VStr (p_zipCode p));
    ("bedrooms", VNum (jint (p_bedrooms p)));
    ("bathrooms", VNum (JNum (p_bathrooms p)));
    ("squareFootage", VNum (jint (p_squareFootage p)));
    ("propertyType", VStr (p_propertyType p));
    ("status", VStr (p_status p));
    ("agentId", VStr (p_agentId p));
    ("createdAt", VDate (p_createdAt p))
  ].

Definition review_object (r : review) : gmap string jsval :=
  list_to_map [
    ("id", VStr (r_id r));
    ("rating", VNum (jint (r_rating r)));
    ("comment", VStr (r_comment r));
    ("propertyId", nullable (r_propertyId r));
    ("agentId", nullable (r_agentId r));
    ("userId", VStr (r_userId r));
    ("status", VStr (r_status r));
    ("createdAt", VDate (r_createdAt r));
    ("updatedAt", VDate (r_updatedAt r))
  ].

Definition favorite_object (f : favorite) : gmap string jsval :=
  list_to_map [
    ("id", VStr (f_id f));
    ("userId", VStr (f_userId f));
    ("propertyId", VStr (f_propertyId f));
    ("createdAt", VDate (f_createdAt f))
  ].

(** The identifier of the entity a reply carries under [key]. *)
Definition entity_id (key : string) (r : reply) : option string :=
  match body r !! key with
  | Some (VObj o) => match o !! "id" with Some (VStr i) => Some i | _ => None end
  | _ => None
  end.

(** The store after a write: the clock has moved. *)
Definition tick (d : db) : nat := S (db_clock d).

End Http.
Import Http.

(** ** Property life cycle: creation by an agent, approval by an admin

    The handlers are the code that runs once [authenticate] and the role
    middleware have accepted the request; [userId] is [req.user.id].  The
    JSON body carries numbers in its numeric fields. *)

Module PropertyWrites.

Record property_input := PropertyInput {
  in_title : string;
  in_description : string;
  in_price : Z;
  in_address : string;
  in_city : string;
  in_state : string;
  in_zipCode : string;
  in_bedrooms : Z;
  in_bathrooms : Q;
  in_squareFootage : Z;
  in_propertyType : string
}.

(** The validator chain of [POST /properties]. *)
Definition validate (b : property_input) : list string :=
  failed [
    ("title", min_length 3 (trim (in_title b)));
    ("description", min_length 10 (trim (in_description b)));
    ("price", (0 <=? in_price b)%Z);
    ("address", min_length 5 (trim (in_address b)));
    ("city", min_length 2 (trim (in_city b)));
    ("state", min_length 2 (trim (in_state b)));
    ("zipCode", min_length 5 (trim (in_zipCode b)));
    ("bedrooms", (0 <=? in_bedrooms b)%Z);
    ("bathrooms", Qle_bool 0 (in_bathrooms b));
    ("squareFootage", (0 <=? in_squareFootage b)%Z);
    ("propertyType", existsb (String.eqb (in_propertyType b))
                       ["HOUSE"; "APARTMENT"; "CONDO"; "TOWNHOUSE"; "LAND"; "COMMERCIAL"])
  ].

(** [prisma.property.create({ data: { ...req.body, status, agentId } })];
    the [trim] sanitizers have rewritten the text fields of the body. *)
Definition create_property (b : property_input) (st agentId : string) (d : db) : property :=
  Property (fresh_id "p" d) (trim (in_title b)) (trim (in_description b)) (in_price b)
    (trim (in_address b)) (trim (in_city b)) (trim (in_state b)) (trim (in_zipCode b))
    (in_bedrooms b) (in_bathrooms b) (in_squareFootage b) (in_propertyType b)
    st agentId (now d).

Definition add_property (p : property) (d : db) : db :=
  Db (users d) (agents d) (properties d ++ [p]) (reviews d) (favorites d) (tick d).


Definition set_property_status (st : string) (p : property) : property :=
  Property (p_id p) (p_title p) (p_description p) (p_price p) (p_address p) (p_city p)
    (p_state p) (p_zipCode p) (p_bedrooms p) (p_bathrooms p) (p_squareFootage p)
    (p_propertyType p) st (p_agentId p) (p_createdAt p).

Definition update_property_status (id st : string) (d : db) : db :=
  Db (users d) (agents d)
     (map (fun p => if String.eqb (p_id p) id then set_property_status st p else p)
          (properties d))
     (reviews d) (favorites d) (tick d).


End PropertyWrites.

(** ** Favorites: [POST /favorites], [DELETE /favorites/:propertyId]

    Both routes sit behind [authenticate]; [userId] is [req.user.id]. *)

Module Favorites.

(** [prisma.favorite.findUnique({ where: { userId_propertyId: { ... } } })] *)
Definition find_favorite (d : db) (userId propertyId : string) : option favorite :=
  List.find (fun f => String.eqb (f_userId f) userId && String.eqb (f_propertyId f) propertyId)
            (favorites d).

Definition add_favorite (f : favorite) (d : db) : db :=
  Db (users d) (agents d) (properties d) (reviews d) (favorites d ++ [f]) (tick d).

Definition remove_favorite (userId propertyId : string) (d : db) : db :=
  Db (users d) (agents d) (properties d) (reviews d)
     (List.filter (fun f => negb (String.eqb (f_userId f) userId
                                  && String.eqb (f_propertyId f) propertyId))
                  (favorites d))
     (tick d).

(** The number of favorite records of a user. *)
Definition favorite_count (d : db) (userId : string) : nat :=
  length (List.filter (fun f => String.eqb (f_userId f) userId) (favorites d)).

Definition post_favorite (userId : string) (body : gmap string jsval) (d : db)
    : reply * db :=
  let propertyId := get body "propertyId" in
  if negb (truthy propertyId) then
    (message_reply 400 "Property ID is required", d)
  else
    match propertyId with
    | VStr propertyId =>
        match find_property d propertyId with
        | None => (message_reply 404 "Property not found", d)
        | Some property =>
            match find_favorite d userId propertyId with
            | Some existingFavorite =>
                (message_reply 409 "Property already in favorites", d)
            | None =>
                let favorite := Favorite (fresh_id "f" d) userId propertyId (now d) in
                (Reply 201 {[ "message" := VStr "Property added to favorites";
                              "favorite" := VObj (<[ "property" := VObj (property_object property) ]>
                                                    (favorite_object favorite)) ]},
                 add_favorite favorite d)
            end
        end
    | _ =>
        (* the client refuses an id that is not a string *)
        (server_error "Server error occurred while adding favorite.", d)
    end.

Definition delete_favorite (userId propertyId : string) (d : db) : reply * db :=
  match find_favorite d userId propertyId with
  | None => (message_reply 404 "Favorite not found", d)
  | Some favorite =>
      (message_reply 200 "Property removed from favorites",
       remove_favorite userId propertyId d)
  end.

(** Referential integrity of the favorites table: every record points to a
    stored property under a non-empty identifier. *)
Definition favorites_ok (d : db) : Prop :=
  forall f, In f (favorites d) ->
    f_propertyId f <> "" /\ exists p, find_property d (f_propertyId f) = Some p.

End Favorites.

(** ** Review creation: [POST /reviews] in its two versions *)

Module ReviewWrites.

Record request := Request {
  authorization : option string;     (* req.header('Authorization') *)
  req_body : gmap string jsval
}.

(** [req.header('Authorization')?.replace('Bearer ', '')] *)
Definition token_of (r : request) : jsval :=
  match authorization r with
  | Some h => VStr (replace_first "Bearer " "" h)
  | None => VUndefined
  end.

(** [.optional()]: the chain is skipped for an [undefined] value. *)
Definition optional (check : jsval -> bool) (v : jsval) : bool :=
  is_undefined v || check v.

Definition add_review (r : review) (d : db) : db :=
  Db (users d) (agents d) (properties d) (reviews d ++ [r]) (favorites d) (tick d).

Section Handlers.

(** [jwt.verify(token, process.env.JWT_SECRET)]: the user id of the decoded
    payload, [None] when it throws. *)
Variable jwt_verify : string -> option string.

Definition server_error_creating : reply :=
  server_error "Server error occurred while creating review.".

(** First version: [propertyId] is a mandatory, non-empty string. *)
Definition post_review_v1 (r : request) (d : db) : reply * db :=
  let b := req_body r in
  let errors := failed [
    ("rating", isInt 1 5 (to_text (get b "rating")));
    ("comment", isLength 10 1000 (trim (to_text (get b "comment"))));
    ("propertyId", is_string (get b "propertyId"));
    ("propertyId", negb (String.eqb (to_text (get b "propertyId")) ""))
  ] in
  match errors with
  | _ :: _ => (validation_reply errors, d)
  | [] =>
      match token_of r with
      | VStr (String _ _ as token) =>
          match jwt_verify token with
          | None => (server_error_creating, d)
          | Some userId =>
              let propertyId := to_text (get b "propertyId") in
              match List.find (fun x => String.eqb (r_userId x) userId
                                        && Reviews.opt_is (r_propertyId x) propertyId)
                              (reviews d) with
              | Some existingReview =>
                  (message_reply 400 "You have already reviewed this property", d)
              | None =>
                  match parseInt (get b "rating") ≫= as_int with
                  | Some rating =>
                      let review :=
                        Review (fresh_id "r" d) rating (trim (to_text (get b "comment")))
                               (Some propertyId) None userId "PENDING" (now d) (now d) in
                      (Reply 201 {[ "review" := VObj (review_object review) ]},
                       add_review review d)
                  | None => (server_error_creating, d)
                  end
              end
          end
      | _ => (message_reply 401 "No token provided", d)
      end
  end.

(** How the client evaluates an alternative of [OR] whose only key has the
    value [undefined], as in [{ agentId: undefined }]: its documentation
    treats [undefined] as "no condition" and leaves open whether such an
    alternative holds of every record or of none.  The handler is
    parametrised by the answer. *)
Variable undefined_alternative : bool.

(** [{ propertyId: propertyId || undefined }] inside [OR]. *)
Definition target_clause (col : review -> option string) (v : option string)
    (x : review) : bool :=
  match v with
  | Some s => Reviews.opt_is (col x) s
  | None => undefined_alternative
  end.

(** Current version: either target may be given. *)
Definition post_review (r : request) (d : db) : reply * db :=
  let b := req_body r in
  let errors := failed [
    ("rating", isInt 1 5 (to_text (get b "rating")));
    ("comment", isLength 10 1000 (trim (to_text (get b "comment"))));
    ("propertyId", optional is_string (get b "propertyId"));
    ("agentId", optional is_string (get b "agentId"))
  ] in
  match errors with
  | _ :: _ => (validation_reply errors, d)
  | [] =>
      match token_of r with
      | VStr (String _ _ as token) =>
          match jwt_verify token with
          | None => (server_error_creating, d)
          | Some userId =>
              let propertyId := get b "propertyId" in
              let agentId := get b "agentId" in
              if negb (truthy propertyId) && negb (truthy agentId) then
                (message_reply 400 "Either propertyId or agentId must be provided for reviews", d)
              else if truthy propertyId
                      && negb (bool_decide (is_Some (find_property d (to_text propertyId)))) then
                (message_reply 400 "Invalid propertyId: property does not exist", d)
              else if truthy agentId
                      && negb (bool_decide (is_Some (find_agent d (to_text agentId)))) then
                (message_reply 400 "Invalid agentId: agent does not exist", d)
              else
                match List.find (fun x => String.eqb (r_userId x) userId
                                   && (target_clause r_propertyId (column propertyId) x
                                       || target_clause r_agentId (column agentId) x))
                                (reviews d) with
                | Some existingReview =>
                    (message_reply 400 "You have already reviewed this property or agent", d)
                | None =>
                    match parseInt (get b "rating") ≫= as_int with
                    | Some rating =>
                        let review :=
                          Review (fresh_id "r" d) rating (trim (to_text (get b "comment")))
                                 (column propertyId) (column agentId) userId "PENDING" (now d) (now d) in
                        (Reply 201 {[ "review" := VObj (review_object review) ]},
                         add_review review d)
                    | None => (server_error_creating, d)
                    end
                end
          end
      | _ => (message_reply 401 "No token provided", d)
      end
  end.

End Handlers.

End ReviewWrites.

(** ** Authentication routes: [register], [login], [profile], [me]

    The second version of the router adds the verification e-mail to
    [register] (a write to two token columns and a best-effort send after
    [user] is bound); the replies are built by the same code. *)

Module Auth.

(** [prisma.user.create({ ..., select })]: the keys marked [true]. *)
Definition select_keys (keys : list string) (o : gmap string jsval) : gmap string jsval :=
  filter (fun kv => kv.1 ∈ keys) o.

(** [prisma.user.findUnique({ ..., include: { agent: true } })] *)
Definition user_with_agent (d : db) (u : user) : gmap string jsval :=
  <[ "agent" := match find_agent_of_user d (u_id u) with
                | Some a => VObj (agent_object a)
                | None => VNull
                end ]> (user_object u).

(** [const { password, ...userWithoutPassword } = user] *)
Definition without_password (user : gmap string jsval) : gmap string jsval :=
  delete "password" user.

Definition find_user_by_email (d : db) (email : string) : option user :=
  List.find (fun u => String.eqb (u_email u) email) (users d).

Definition find_agent_by_registration (d : db) (n : string) : option agent :=
  List.find (fun a => String.eqb (a_registrationNumber a) n) (agents d).

Definition add_user (u : user) (d : db) : db :=
  Db (users d ++ [u]) (agents d) (properties d) (reviews d) (favorites d) (tick d).

Definition add_agent (a : agent) (d : db) : db :=
  Db (users d) (agents d ++ [a]) (properties d) (reviews d) (favorites d) (tick d).

Definition config_error : reply :=
  Reply 500 {[ "message" := VStr "Server configuration error. Please contact administrator.";
               "code" := VStr "JWT_CONFIG_ERROR" ]}.

Section Handlers.

(** [process.env.JWT_SECRET] *)
Variable JWT_SECRET : option string.
(** [bcrypt.hash(password, 12)] and [bcrypt.compare(password, hash)] *)
Variable bcrypt_hash : string -> string.
Variable bcrypt_compare : string -> string -> bool.
(** [jwt.sign({ userId, email, role }, secret, options)] *)
Variable jwt_sign : string -> string -> string -> string.
(** The validators and the sanitizer of express-validator. *)
Variable isEmail : string -> bool.
Variable normalizeEmail : string -> string.
Variable isMobilePhone : string -> bool.

Definition secret_missing : bool :=
  match JWT_SECRET with
  | Some s => String.eqb s ""
  | None => true
  end.

Definition optional (check : string -> bool) (v : jsval) : bool :=
  is_undefined v || check (to_text v).

(** [POST /auth/register] *)
Definition register (b : gmap string jsval) (d : db) : reply * db :=
  if secret_missing then (config_error, d) else
  let role := to_text (get b "role") in
  let errors := failed [
    ("email", isEmail (to_text (get b "email")));
    ("password", min_length 6 (to_text (get b "password")));
    ("firstName", min_length 2 (trim (to_text (get b "firstName"))));
    ("lastName", min_length 2 (trim (to_text (get b "lastName"))));
    ("role", existsb (String.eqb role) ["USER"; "AGENT"]);
    ("phone", optional isMobilePhone (get b "phone"));
    ("businessName", optional (fun s => min_length 2 (trim s)) (get b "businessName"));
    ("registrationNumber",
       negb (String.eqb role "AGENT")
       || negb (String.eqb (to_text (get b "registrationNumber")) ""));
    ("registrationNumber",
       negb (String.eqb role "AGENT")
       || min_length 3 (trim (to_text (get b "registrationNumber"))));
    ("yearsOfExperience", optional (isInt 0 50) (get b "yearsOfExperience"))
  ] in
  match errors with
  | _ :: _ => (validation_reply errors, d)
  | [] =>
      let email := normalizeEmail (to_text (get b "email")) in
      match find_user_by_email d email with
      | Some existingUser => (message_reply 400 "User already exists", d)
      | None =>
          let hashedPassword := bcrypt_hash (to_text (get b "password")) in
          let row := User (fresh_id "u" d) email hashedPassword
                          (trim (to_text (get b "firstName")))
                          (trim (to_text (get b "lastName"))) role None (now d) in
          let user := select_keys ["id"; "email"; "firstName"; "lastName"; "role"; "createdAt"]
                                  (user_object row) in
          let d := add_user row d in
          let registrationNumber := trim (to_text (get b "registrationNumber")) in
          let created :=
            if String.eqb role "AGENT" then
              match find_agent_by_registration d registrationNumber with
              | Some existingAgent => None
              | None =>
                  Some (add_agent
                    (Agent (fresh_id "a" d) (u_id row) registrationNumber false "PENDING" "BASIC"
                       (column (VStr (trim (to_text (get b "businessName")))))
                       (column (get b "phone")) None None
                       (if truthy (get b "yearsOfExperience")
                        then [to_text (get b "yearsOfExperience") ++ " years experience"]
                        else [])
                       25 (now d) (now d)) d)
              end
            else Some d in
          match created with
          | None => (message_reply 400 "Registration number already exists", d)
          | Some d =>
              let token := jwt_sign (u_id row) (u_email row) (u_role row) in
              (Reply 201 {[ "message" := VStr "User created successfully";
                            "token" := VStr token;
                            "user" := VObj user ]}, d)
          end
      end
  end.

(** [POST /auth/login] *)
Definition login (b : gmap string jsval) (d : db) : reply :=
  if secret_missing then config_error else
  let errors := failed [
    ("email", isEmail (to_text (get b "email")));
    ("password", negb (is_undefined (get b "password")))
  ] in
  match errors with
  | _ :: _ => validation_reply errors
  | [] =>
      let email := normalizeEmail (to_text (get b "email")) in
      match find_user_by_email d email with
      | None => message_reply 400 "Invalid credentials"
      | Some row =>
          let user := user_with_agent d row in
          if bcrypt_compare (to_text (get b "password")) (u_password row) then
            let userWithoutPassword := without_password user in
            let token := jwt_sign (u_id row) (u_email row) (u_role row) in
            Reply 200 {[ "message" := VStr "Login successful";
                         "token" := VStr token;
                         "user" := VObj userWithoutPassword ]}
          else message_reply 400 "Invalid credentials"
      end
  end.

(** [GET /auth/profile], behind [authenticate]; [userId] is [req.user.id]. *)
Definition profile (userId : string) (d : db) : reply :=
  match find_user d userId with
  | None => message_reply 404 "User not found"
  | Some row =>
      let user := user_with_agent d row in
      let userWithoutPassword := without_password user in
      Reply 200 {[ "user" := VObj userWithoutPassword ]}
  end.

(** [GET /auth/me], behind [authenticate]. *)
Definition me (userId : string) (d : db) : reply :=
  match find_user d userId with
  | None => message_reply 404 "User not found"
  | Some row =>
      let user := user_with_agent d row in
      let userWithoutPassword := without_password user in
      Reply 200 {[ "user" := VObj userWithoutPassword ]}
  end.

End Handlers.
End Auth.

(** ** Favorites: [GET /favorites], [GET /favorites/check/:propertyId] *)

Module FavoriteReads.

(** [GET /favorites]: the caller's favorites, newest first, mapped to their
    properties; [total] is the length of that list. *)
Definition get_favorites (userId : string) (d : db) : list (option property) * Z :=
  let favorites :=
    Prisma.sort_rows (Some (Prisma.OrderBy f_createdAt Prisma.Desc))
      (List.filter (fun f => String.eqb (f_userId f) userId) (favorites d)) in
  let properties := map (fun fav => find_property d (f_propertyId fav)) favorites in
  (properties, Z.of_nat (length properties)).

(** [GET /favorites/check/:propertyId]: [{ isFavorited, favoriteId }]. *)
Definition check_favorite (userId propertyId : string) (d : db) : bool * option string :=
  match Favorites.find_favorite d userId propertyId with
  | Some favorite => (true, Some (f_id favorite))
  | None => (false, None)
  end.

End FavoriteReads.

(** ** Review moderation: [PUT /reviews/:id/approve], [PUT /reviews/:id/reject],
    [POST /admin/reviews/:id/approve], [POST /admin/reviews/:id/reject]

    The routes sit behind [authenticate] and [requireAdmin]. *)

Module ReviewModeration.

Definition find_review (d : db) (id : string) : option review :=
  List.find (fun r => String.eqb (r_id r) id) (reviews d).

(** The row after [data: { status }] at time [t]. *)
Definition set_review_status (st : string) (t : Z) (r : review) : review :=
  Review (r_id r) (r_rating r) (r_comment r) (r_propertyId r) (r_agentId r)
         (r_userId r) st (r_createdAt r) t.

(** [prisma.review.update({ where: { id }, data: { status } })] *)
Definition update_review_status (id st : string) (d : db) : db :=
  Db (users d) (agents d) (properties d)
     (map (fun r => if String.eqb (r_id r) id then set_review_status st (now d) r else r)
          (reviews d))
     (favorites d) (tick d).

(** The reviews router looks the review up first and answers 404. *)
Definition moderate (st failure : string) (id : string) (d : db) : reply * db :=
  match find_review d id with
  | None => (message_reply 404 "Review not found", d)
  | Some review =>
      (Reply 200 {[ "review" := VObj (review_object (set_review_status st (now d) review)) ]},
       update_review_status id st d)
  end.

Definition approve_review : string -> db -> reply * db :=
  moderate "APPROVED" "Server error occurred while approving review.".

Definition reject_review : string -> db -> reply * db :=
  moderate "REJECTED" "Server error occurred while rejecting review.".

(** The admin router updates at once: [update] throws on a missing id and
    the [catch] answers 500. *)
Definition admin_moderate (st failure : string) (id : string) (d : db) : reply * db :=
  match find_review d id with
  | None => (server_error failure, d)
  | Some review =>
      (Reply 200 {[ "review" := VObj (review_object (set_review_status st (now d) review)) ]},
       update_review_status id st d)
  end.

Definition admin_approve_review : string -> db -> reply * db :=
  admin_moderate "APPROVED" "Server error occurred while approving review.".

Definition admin_reject_review : string -> db -> reply * db :=
  admin_moderate "REJECTED" "Server error occurred while rejecting review.".

End ReviewModeration.

(** ** Agent moderation: [POST /admin/agents/:id/approve] and [.../reject] *)

Module AgentModeration.

Definition set_verificationStatus (st : string) (t : Z) (a : agent) : agent :=
  Agent (a_id a) (a_userId a) (a_registrationNumber a) (a_isVerified a) st
        (a_subscriptionPlan a) (a_businessName a) (a_phone a) (a_bio a)
        (a_profileImage a) (a_specialties a) (a_listingLimits a) (a_createdAt a) t.

(** [prisma.agent.update({ where: { id }, data: { verificationStatus } })];
    the write refreshes [updatedAt]. *)
Definition update_agent_status (id st : string) (d : db) : db :=
  Db (users d)
     (map (fun a => if String.eqb (a_id a) id then set_verificationStatus st (now d) a else a)
          (agents d))
     (properties d) (reviews d) (favorites d) (tick d).

(** The agent with the selected fields of its user, as the replies show it. *)
Definition agent_with_user (d : db) (a : agent) : gmap string jsval :=
  <[ "user" := match find_user d (a_userId a) with
               | Some u => VObj (Auth.select_keys ["firstName"; "lastName"; "email"]
                                   (user_object u))
               | None => VNull
               end ]> (agent_object a).

(** Approval checks that the agent exists and answers 404 otherwise. *)
Definition approve_agent (agentId : string) (d : db) : reply * db :=
  match find_agent d agentId with
  | None => (message_reply 404 "Agent not found.", d)
  | Some existingAgent =>
      (Reply 200 {[ "agent" := VObj (agent_with_user d
                                       (set_verificationStatus "APPROVED" (now d) existingAgent)) ]},
       update_agent_status agentId "APPROVED" d)
  end.

(** Rejection updates at once: a missing id makes [update] throw. *)
Definition reject_agent (agentId : string) (d : db) : reply * db :=
  match find_agent d agentId with
  | None => (server_error "Server error occurred while rejecting agent.", d)
  | Some a =>
      (Reply 200 {[ "agent" := VObj (agent_with_user d
                                       (set_verificationStatus "REJECTED" (now d) a)) ]},
       update_agent_status agentId "REJECTED" d)
  end.

End AgentModeration.

(** ** Single properties: [GET /properties/:id], [PUT /properties/:id],
    [DELETE /properties/:id]

    [PUT] and [DELETE] sit behind [authenticate] and [requireAgent];
    [userId] is [req.user.id].  The body of [PUT] reaches the client whole:
    beside the ten fields its validators name it may carry the three other
    columns a client can write, and [up_refused] tells that it carries a key
    that is no column, or a value of another type than its column. *)

Module PropertyAccess.
Import PropertyWrites.

Record property_update := PropertyUpdate {
  up_title : option string;
  up_description : option string;
  up_price : option Z;
  up_address : option string;
  up_city : option string;
  up_state : option string;
  up_zipCode : option string;
  up_bedrooms : option Z;
  up_bathrooms : option Q;
  up_squareFootage : option Z;
  up_propertyType : option string;
  up_status : option string;
  up_agentId : option string;
  up_refused : bool
}.

(** The validator chain of [PUT /properties/:id]: every check is
    [optional()]. *)
Definition validate_update (b : property_update) : list string :=
  failed [
    ("title", opt_holds (up_title b) (fun s => min_length 3 (trim s)));
    ("description", opt_holds (up_description b) (fun s => min_length 10 (trim s)));
    ("price", opt_holds (up_price b) (fun z => (0 <=? z)%Z));
    ("address", opt_holds (up_address b) (fun s => min_length 5 (trim s)));
    ("city", opt_holds (up_city b) (fun s => min_length 2 (trim s)));
    ("state", opt_holds (up_state b) (fun s => min_length 2 (trim s)));
    ("zipCode", opt_holds (up_zipCode b) (fun s => min_length 5 (trim s)));
    ("bedrooms", opt_holds (up_bedrooms b) (fun z => (0 <=? z)%Z));
    ("bathrooms", opt_holds (up_bathrooms b) (Qle_bool 0));
    ("squareFootage", opt_holds (up_squareFootage b) (fun z => (0 <=? z)%Z))
  ].

(** [prisma.property.update({ where: { id }, data: req.body })]: the keys
    of the body overwrite the columns, the others keep their values. *)
Definition apply_update (b : property_update) (p : property) : property :=
  Property (p_id p)
    (default (p_title p) (trim <$> up_title b))
    (default (p_description p) (trim <$> up_description b))
    (default (p_price p) (up_price b))
    (default (p_address p) (trim <$> up_address b))
    (default (p_city p) (trim <$> up_city b))
    (default (p_state p) (trim <$> up_state b))
    (default (p_zipCode p) (trim <$> up_zipCode b))
    (default (p_bedrooms p) (up_bedrooms b))
    (default (p_bathrooms p) (up_bathrooms b))
    (default (p_squareFootage p) (up_squareFootage b))
    (default (p_propertyType p) (up_propertyType b))
    (default (p_status p) (up_status b))
    (default (p_agentId p) (up_agentId b))
    (p_createdAt p).

(** The bodies the client and the store accept: no foreign key, enumerated
    columns within their enumeration, [Int] columns within 32 bits, and an
    [agentId] that names an agent. *)
Definition accepted_update (d : db) (b : property_update) : bool :=
  negb (up_refused b) &&
  opt_holds (up_price b) (fun z => (z <? 2 ^ 31)%Z) &&
  opt_holds (up_bedrooms b) (fun z => (z <? 2 ^ 31)%Z) &&
  opt_holds (up_squareFootage b) (fun z => (z <? 2 ^ 31)%Z) &&
  opt_holds (up_propertyType b) (member PropertyType) &&
  opt_holds (up_status b) (member PropertyStatus) &&
  opt_holds (up_agentId b) (fun a => bool_decide (is_Some (find_agent d a))).

(** [!agent || property.agentId !== agent.id] *)
Definition not_owner (d : db) (userId : string) (p : property) : bool :=
  match find_agent_of_user d userId with
  | None => true
  | Some agent => negb (String.eqb (p_agentId p) (a_id agent))
  end.

(** [GET /properties/:id] *)
Definition get_property (id : string) (d : db) : reply :=
  match find_property d id with
  | None => message_reply 404 "Property not found"
  | Some property =>
      Reply 200 {[ "property" :=
        VObj (<[ "agent" := match find_agent d (p_agentId property) with
                            | Some a => VObj (AgentModeration.agent_with_user d a)
                            | None => VNull
                            end ]>
              (<[ "reviews" :=
                    VArr (map (fun r => VObj (review_object r))
                            (List.filter (fun r => Reviews.opt_is (r_propertyId r) id)
                                         (reviews d))) ]>
               (property_object property))) ]}
  end.

(** [PUT /properties/:id] *)
Definition put_property (userId id : string) (b : property_update) (d : db)
    : reply * db :=
  match validate_update b with
  | _ :: _ as errors => (validation_reply errors, d)
  | [] =>
      match find_property d id with
      | None => (message_reply 404 "Property not found", d)
      | Some property =>
          if not_owner d userId property then
            (message_reply 403 "Not authorized to update this property", d)
          else if accepted_update d b then
            (Reply 200 {[ "property" := VObj (property_object (apply_update b property)) ]},
             Db (users d) (agents d)
                (map (fun p => if String.eqb (p_id p) id then apply_update b p else p)
                     (properties d))
                (reviews d) (favorites d) (tick d))
          else (server_error "Server error occurred while updating the property.", d)
      end
  end.

(** What the schema does to the favorites of a deleted property; the
    migration that declares this foreign key is not among the sources. *)
Inductive on_delete := Cascade | Restrict.

(** The reviews of a deleted property keep their row and lose the reference
    ([ON DELETE SET NULL]). *)
Definition detach_review (id : string) (r : review) : review :=
  if Reviews.opt_is (r_propertyId r) id
  then Review (r_id r) (r_rating r) (r_comment r) None (r_agentId r) (r_userId r)
              (r_status r) (r_createdAt r) (r_updatedAt r)
  else r.

(** [prisma.property.delete({ where: { id } })]; [None] when the store
    refuses the deletion. *)
Definition remove_property (rule : on_delete) (id : string) (d : db) : option db :=
  let referenced := existsb (fun f => String.eqb (f_propertyId f) id) (favorites d) in
  match rule with
  | Restrict =>
      if referenced then None
      else Some (Db (users d) (agents d)
                    (List.filter (fun p => negb (String.eqb (p_id p) id)) (properties d))
                    (map (detach_review id) (reviews d)) (favorites d) (tick d))
  | Cascade =>
      Some (Db (users d) (agents d)
               (List.filter (fun p => negb (String.eqb (p_id p) id)) (properties d))
               (map (detach_review id) (reviews d))
               (List.filter (fun f => negb (String.eqb (f_propertyId f) id)) (favorites d))
               (tick d))
  end.

(** [DELETE /properties/:id] *)
Definition delete_property (rule : on_delete) (userId id : string) (d : db)
    : reply * db :=
  match find_property d id with
  | None => (message_reply 404 "Property not found", d)
  | Some property =>
      if not_owner d userId property then
        (message_reply 403 "Not authorized to delete this property", d)
      else
        match remove_property rule id d with
        | Some d' => (message_reply 200 "Property deleted successfully", d')
        | None => (server_error "Server error occurred while deleting the property.", d)
        end
  end.

End PropertyAccess.

(** ** Admin dashboard: [GET /admin/dashboard/stats] *)

Module Dashboard.

Record stats := Stats {
  totalAgents : Z;
  totalProperties : Z;
  activeListings : Z;
  pendingReviews : Z;
  totalRevenue : Z
}.

(** [prisma.property.aggregate({ _sum: { price: true }, where })]: [null]
    over no row. *)
Definition sum_price (ps : list property) : option Z :=
  match ps with
  | [] => None
  | _ => Some (fold_left (fun acc p => acc + p_price p)%Z ps 0%Z)
  end.

Definition dashboard_stats (d : db) : stats :=
  Stats (Prisma.count (agents d) (fun _ => true))
        (Prisma.count (properties d) (fun _ => true))
        (Prisma.count (properties d) (fun p => String.eqb (p_status p) "ACTIVE"))
        (Prisma.count (reviews d) (fun r => String.eqb (r_status r) "PENDING"))
        (match sum_price (List.filter (fun p => String.eqb (p_status p) "SOLD") (properties d)) with
         | Some 0%Z | None => 0%Z     (* totalRevenue._sum.price || 0 *)
         | Some z => z
         end).

End Dashboard.

(** ** Properties in the admin router: [POST /admin/properties/:id/reject],
    [POST /admin/properties] *)

Module AdminProperties.
Import PropertyWrites.

(** [POST /admin/properties/:id/reject]: [update] throws on a missing id. *)
Definition reject_property (id : string) (d : db) : reply * db :=
  match find_property d id with
  | Some p =>
      (Reply 200 {[ "property" := VObj (property_object (set_property_status "REJECTED" p)) ]},
       update_property_status id "REJECTED" d)
  | None => (server_error "Server error occurred while rejecting property.", d)
  end.

(** [prisma.agent.findFirst({ where: { user: { role: 'ADMIN' } } })] *)
Definition find_system_agent (d : db) : option agent :=
  Prisma.findFirst (agents d)
    (fun a => match find_user d (a_userId a) with
              | Some u => String.eqb (u_role u) "ADMIN"
              | None => false
              end).

(** [prisma.user.findFirst({ where: { role: 'ADMIN' } })] *)
Definition find_admin_user (d : db) : option user :=
  Prisma.findFirst (users d) (fun u => String.eqb (u_role u) "ADMIN").

(** The agent record created for the administrator; the columns the call
    leaves out take the defaults the registration route relies on. *)
Definition system_agent (userId : string) (d : db) : agent :=
  Agent (fresh_id "a" d) userId "SYSTEM-ADMIN" true "APPROVED" "BASIC"
        (Some "System Admin") None None None [] 25 (now d) (now d).

(** [POST /admin/properties]: the property is created [ACTIVE] under the
    system agent, which is created on first use.  The registration number
    is unique: creating a second agent under ["SYSTEM-ADMIN"] throws. *)
Definition admin_post_property (b : property_input) (d : db) : reply * db :=
  match validate b with
  | _ :: _ as errors => (validation_reply errors, d)
  | [] =>
      match find_system_agent d with
      | Some systemAgent =>
          let p := create_property b "ACTIVE" (a_id systemAgent) d in
          (Reply 201 {[ "property" := VObj (property_object p) ]}, add_property p d)
      | None =>
          match find_admin_user d with
          | None => (message_reply 400 "No admin user found", d)
          | Some adminUser =>
              match Auth.find_agent_by_registration d "SYSTEM-ADMIN" with
              | Some _ =>
                  (server_error "Server error occurred while creating the property.", d)
              | None =>
                  let systemAgent := system_agent (u_id adminUser) d in
                  let d1 := Auth.add_agent systemAgent d in
                  let p := create_property b "ACTIVE" (a_id systemAgent) d1 in
                  (Reply 201 {[ "property" := VObj (property_object p) ]}, add_property p d1)
              end
          end
      end
  end.

End AdminProperties.

(** ** Public views of one agent: [GET /agents/:agentId/properties],
    [GET /agents/:agentId/stats] *)

Module AgentPublic.

(** [prisma.property.findMany({ where: { agentId }, orderBy: { createdAt: 'desc' } })] *)
Definition get_agent_properties (agentId : string) (d : db) : list property :=
  Prisma.sort_rows (Some (Prisma.OrderBy p_createdAt Prisma.Desc))
    (List.filter (fun p => String.eqb (p_agentId p) agentId) (properties d)).

Record agent_stats := AgentStats {
  st_totalProperties : Z;          (* stats._count.id *)
  st_totalValue : option Z;        (* stats._sum.price, null over no row *)
  st_averagePrice : option Q       (* stats._avg.price, null over no row *)
}.

(** [prisma.property.aggregate({ where: { agentId }, _count, _sum, _avg })] *)
Definition get_agent_stats (agentId : string) (d : db) : agent_stats :=
  let ps := List.filter (fun p => String.eqb (p_agentId p) agentId) (properties d) in
  AgentStats (Z.of_nat (length ps))
             (Dashboard.sum_price ps)
             (match Dashboard.sum_price ps with
              | Some total => Some (inject_Z total / inject_Z (Z.of_nat (length ps)))%Q
              | None => None
              end).

End AgentPublic.

(** * Vocabulary of the statements *)

(** The ceiling of a quotient of integers, in integer arithmetic. *)
Definition ceiling_quotient (a b : Z) : Z := (- ((- a) / b))%Z.

(** The query string gives [k] as the decimal literal of [z], or leaves it
    out and [z] is the default. *)
Definition numeric_param (query : gmap string string) (k : string) (dflt z : Z) : Prop :=
  match query !! k with
  | Some s => int_literal s = Some z
  | None => z = dflt
  end.

(** Every handler of the routers that follows the paginated pattern. *)
Definition paginated_endpoints : list endpoint :=
  [ Properties.list_endpoint; Properties.search_endpoint; Properties.admin_endpoint;
    Reviews.all_endpoint;
    Reviews.property_endpoint_v1; Reviews.agent_endpoint_v1; Reviews.user_endpoint_v1;
    Reviews.property_endpoint; Reviews.agent_endpoint; Reviews.user_endpoint;
    Reviews.admin_all_endpoint; Reviews.admin_pending_endpoint;
    Agents.admin_endpoint_v1; Agents.admin_endpoint;
    Contacts.submissions_endpoint ].

(** The builder sets the key of the [where] object to the operand. *)
Definition builds {W A : Type} (where_of : gmap string string -> option W)
    (key : W -> option A) (query : gmap string string) (operand : A) : Prop :=
  exists w, where_of query = Some w /\ key w = Some operand.

(** Two query strings that differ at most in [page] and [limit]. *)
Definition same_filters (q q' : gmap string string) : Prop :=
  forall k, k <> "page" -> k <> "limit" -> q !! k = q' !! k.


(** A spread that leaves the [status] key alone. *)
Definition keeps_status (f : string -> Properties.prop_where -> option Properties.prop_where) : Prop :=
  forall s w w', f s w = Some w' -> Properties.pw_status w' = Properties.pw_status w.



(** A body value the handlers treat as missing: [!v] holds. *)
Definition missing (v : jsval) : Prop := truthy v = false.

(** Every key of the contract is present with a defined value in the
    serialised object. *)
Definition promised (contract : list string) (o : gmap string jsval) : Prop :=
  forall k, In k contract ->
    exists v, json_object o !! k = Some v /\ is_undefined v = false.

(** The reply carries a user object, and that object has no [password] key. *)
Definition user_without_password (r : reply) : Prop :=
  exists user, body r !! "user" = Some (VObj user) /\ user !! "password" = None.

(** ** Vocabulary of the further properties *)

(** A list is in the order [o]: every element comes first with respect to
    every later one. *)
Definition in_order {R : Type} (o : Prisma.ordering R) (l : list R) : Prop :=
  StronglySorted (fun x y => Prisma.comes_first o x y = true) l.

(** The items of a 200 response. *)
Definition items_of {A : Type} (r : option (listing A)) : option (list A) :=
  match r with
  | Some (Ok200 items _ _ _) => Some items
  | _ => None
  end.

(** A string of ASCII characters: on these [toUpperCase] of the embedding
    is the one of the language. *)
Definition ascii_only (s : string) : bool :=
  all_chars (fun c => (nat_of_ascii c <? 128)%nat) s.

(** A review apart from the time of its last write. *)
Definition without_updatedAt (r : review) : review :=
  Review (r_id r) (r_rating r) (r_comment r) (r_propertyId r) (r_agentId r)
         (r_userId r) (r_status r) (r_createdAt r) 0.

(** The unique constraint of the favorites table. *)
Definition one_favorite_per_pair (d : db) : Prop :=
  NoDup (map (fun f => (f_userId f, f_propertyId f)) (favorites d)).

(** Every agent record points to a stored user. *)
Definition agents_have_users (d : db) : Prop :=
  forall a, In a (agents d) -> exists u, find_user d (a_userId a) = Some u.

(** Every token that verifies names a stored user. *)
Definition tokens_name_users (jwt_verify : string -> option string) (d : db) : Prop :=
  forall token userId, jwt_verify token = Some userId ->
    exists u, find_user d userId = Some u.

(** The user row [register] inserts for a body. *)
Definition new_user_row (bcrypt_hash normalizeEmail : string -> string)
    (b : gmap string jsval) (d : db) : user :=
  User (fresh_id "u" d) (normalizeEmail (to_text (get b "email")))
       (bcrypt_hash (to_text (get b "password")))
       (trim (to_text (get b "firstName"))) (trim (to_text (get b "lastName")))
       (to_text (get b "role")) None (now d).

(** ** Sample data *)

Module Sample.

Definition ann : user := User "u1" "ann@example.com" "$2a$12$hash" "Ann" "Lee" "AGENT" None 1.
Definition bob : user := User "u2" "bob@example.com" "$2a$12$other" "Bob" "Ray" "USER" None 2.

Definition ann_agent : agent :=
  Agent "a1" "u1" "REG-001" true "APPROVED" "BASIC" None None None None ["Lekki"] 25 3 3.

Definition house (id : string) (price : Z) (st : string) (t : Z) : property :=
  Property id "Family house" "A bright family house" price "1 Main Street" "Lagos" "LA"
           "100001" 3 2 1200 "HOUSE" st "a1" t.

Definition review_of (id : string) (st : string) (t : Z) : review :=
  Review id 4 "A very pleasant visit" (Some "p1") None "u2" st t t.

(** One agent, four properties (one of them pending), two reviews of the
    first property (one of them pending), one favorite. *)
Definition store : db :=
  Db [ann; bob] [ann_agent]
     [house "p1" 100 "ACTIVE" 4; house "p2" 200 "ACTIVE" 5;
      house "p3" 300 "PENDING" 6; house "p4" 400 "ACTIVE" 7]
     [review_of "r1" "APPROVED" 8; review_of "r2" "PENDING" 9]
     [Favorite "f1" "u2" "p1" 10]
     11.

(** A store with three approved reviews of different ratings. *)
Definition rated (id : string) (rating t : Z) : review :=
  Review id rating "A very pleasant visit" (Some "p1") None "u2" "APPROVED" t t.

Definition rated_store : db :=
  Db [ann; bob] [ann_agent] [house "p1" 100 "ACTIVE" 4]
     [rated "r1" 3 5; rated "r2" 5 6; rated "r3" 4 7] [] 8.


Definition input (price : Z) : PropertyWrites.property_input :=
  PropertyWrites.PropertyInput "Family house" "A bright family house" price
    "1 Main Street" "Lagos" "LA" "100001" 3 2 1200 "HOUSE".

End Sample.

(** ** Scenario: three properties and a price filter *)

Module Scenario.
Import PropertyWrites.



End Scenario.

(** ** Sample requests *)

Module Requests.

(** Every token is Bob's. *)
Definition bobs_token (_ : string) : option string := Some "u2".

(** Bob reviews the second property. *)
Definition review_of_p2 : ReviewWrites.request :=
  ReviewWrites.Request (Some "Bearer token")
    {[ "rating" := VNum (jint 5);
       "comment" := VStr "A very pleasant visit";
       "propertyId" := VStr "p2" ]}.

(** Cleo registers as a user; Dan registers as an agent under Ann's
    registration number. *)
Definition cleo : gmap string jsval :=
  {[ "email" := VStr "cleo@example.com"; "password" := VStr "secret1";
     "firstName" := VStr "Cleo"; "lastName" := VStr "Day"; "role" := VStr "USER" ]}.

Definition dan : gmap string jsval :=
  {[ "email" := VStr "dan@example.com"; "password" := VStr "secret2";
     "firstName" := VStr "Dan"; "lastName" := VStr "Fox"; "role" := VStr "AGENT";
     "registrationNumber" := VStr "REG-001" ]}.

(** Stand-ins for the libraries. *)
Definition hash (p : string) : string := "$" ++ p.
Definition compare (p h : string) : bool := String.eqb h ("$" ++ p).
Definition sign (userId email role : string) : string := userId ++ "." ++ role.
Definition any_email (_ : string) : bool := true.
Definition as_given (e : string) : string := e.

(** A store with an administrator, an agent and no property. *)
Definition eve : user := User "u9" "eve@example.com" "$2a$12$admin" "Eve" "Hill" "ADMIN" None 0.
Definition office : db := Db [Sample.ann; Sample.bob; eve] [Sample.ann_agent] [] [] [] 12.

End Requests.

(** * Properties of the embedding *)

(** ** The ORM queries *)

Section PrismaFacts.
Context {R : Type}.
Implicit Types (l rows items : list R) (o : Prisma.ordering R).

Lemma firstn_In_incl (n : nat) l (x : R) : In x (firstn n l) -> In x l.
Proof.
  intros H. rewrite <- (firstn_skipn n l). apply in_or_app. now left.
Qed.

Lemma skipn_In_incl (n : nat) l (x : R) : In x (skipn n l) -> In x l.
Proof.
  intros H. rewrite <- (firstn_skipn n l). apply in_or_app. now right.
Qed.

Lemma insert_sorted_In o (x y : R) l :
  In y (Prisma.insert_sorted o x l) <-> y = x \/ In y l.
Proof.
  induction l as [|z l IH]; simpl.
  - intuition.
  - destruct (Prisma.comes_first o x z); simpl; [intuition | rewrite IH; intuition].
Qed.

Lemma insert_sorted_length o (x : R) l :
  length (Prisma.insert_sorted o x l) = S (length l).
Proof.
  induction l as [|z l IH]; simpl; [reflexivity|].
  destruct (Prisma.comes_first o x z); simpl; [reflexivity | now rewrite IH].
Qed.

Lemma sort_rows_In (ord : option (Prisma.ordering R)) l (y : R) :
  In y (Prisma.sort_rows ord l) <-> In y l.
Proof.
  destruct ord as [o|]; simpl; [|reflexivity].
  induction l as [|x l IH]; simpl; [reflexivity|].
  rewrite insert_sorted_In, IH. intuition.
Qed.

Lemma sort_rows_length (ord : option (Prisma.ordering R)) l :
  length (Prisma.sort_rows ord l) = length l.
Proof.
  destruct ord as [o|]; simpl; [|reflexivity].
  induction l as [|x l IH]; simpl; [reflexivity|].
  now rewrite insert_sorted_length, IH.
Qed.

(** What [window] returns comes from the list it is given. *)
Lemma window_incl (skip tk : option jsnum) l items (x : R) :
  Prisma.window skip tk l = Some items -> In x items -> In x l.
Proof.
  unfold Prisma.window. intros H Hx.
  apply bind_Some in H as (s & _ & H).
  destruct tk as [n|]; [|now inversion H; subst].
  destruct (as_int n) as [t|]; [|discriminate].
  destruct (0 <=? t)%Z; inversion H; subst; clear H.
  - eapply skipn_In_incl, firstn_In_incl, Hx.
  - apply in_rev in Hx. apply firstn_In_incl, skipn_In_incl in Hx.
    now apply in_rev.
Qed.

(** Every row [findMany] returns is a stored row that satisfies [where]. *)
Lemma findMany_sound rows (m : R -> bool) skip tk ord items (x : R) :
  Prisma.findMany rows m skip tk ord = Some items ->
  In x items -> In x rows /\ m x = true.
Proof.
  unfold Prisma.findMany. intros H Hx.
  eapply window_incl in H; [|exact Hx].
  apply sort_rows_In in H. now apply filter_In in H.
Qed.

(** A window that starts at or after the end is empty. *)
Lemma window_beyond (s t : Z) l :
  (0 <= s)%Z -> (0 <= t)%Z -> (Z.of_nat (length l) <= s)%Z ->
  Prisma.window (Some (jint s)) (Some (jint t)) l = Some [].
Proof.
  intros Hs Ht Hl. unfold Prisma.window, jint, as_int.
  rewrite !Qfloor_Z, !Qeq_bool_refl. simpl.
  destruct (Z.leb_spec 0 s); [|lia]. simpl.
  destruct (Z.leb_spec 0 t); [|lia].
  rewrite skipn_all2 by lia. now rewrite firstn_nil.
Qed.

(** With integer bounds in range the window exists. *)
Lemma window_defined (s t : Z) l :
  (0 <= s)%Z -> (0 <= t)%Z ->
  Prisma.window (Some (jint s)) (Some (jint t)) l
  = Some (firstn (Z.to_nat t) (skipn (Z.to_nat s) l)).
Proof.
  intros Hs Ht. unfold Prisma.window, jint, as_int.
  rewrite !Qfloor_Z, !Qeq_bool_refl. simpl.
  destruct (Z.leb_spec 0 s); [|lia]. simpl.
  destruct (Z.leb_spec 0 t); [|lia]. reflexivity.
Qed.

End PrismaFacts.

(** ** Arithmetic of the Paginator on integers *)

Arguments jint : simpl never.
Arguments as_int : simpl never.
Arguments js_sub : simpl never.
Arguments js_mul : simpl never.
Arguments js_div : simpl never.

Section NumberFacts.
Local Open Scope Z_scope.

Lemma as_int_jint (z : Z) : as_int (jint z) = Some z.
Proof. unfold as_int, jint. now rewrite Qfloor_Z, Qeq_bool_refl. Qed.

Lemma js_sub_int (a b : Z) : js_sub (jint a) (jint b) = jint (a - b).
Proof.
  unfold js_sub, jint. f_equal.
  rewrite <- (inject_Z_Qred (a - b)). apply Qred_complete.
  unfold Qeq, Qminus, Qplus, Qopp, inject_Z; simpl. lia.
Qed.

Lemma js_mul_int (a b : Z) : js_mul (jint a) (jint b) = jint (a * b).
Proof.
  unfold js_mul, jint. f_equal.
  rewrite <- (inject_Z_Qred (a * b)). apply Qred_complete.
  unfold Qeq, Qmult, inject_Z; simpl. lia.
Qed.

Lemma ceiling_quotient_spec (a b : Z) :
  0 < b ->
  (ceiling_quotient a b - 1) * b < a <= ceiling_quotient a b * b.
Proof.
  intros Hb. unfold ceiling_quotient.
  pose proof (Z.div_mod (- a) b ltac:(lia)) as E.
  pose proof (Z.mod_pos_bound (- a) b Hb) as B.
  nia.
Qed.

Lemma ceiling_quotient_unique (a b k : Z) :
  0 < b -> (k - 1) * b < a <= k * b -> k = ceiling_quotient a b.
Proof.
  intros Hb Hk. pose proof (ceiling_quotient_spec a b Hb). nia.
Qed.

(** [Math.ceil(total / limit)] for a positive integer limit. *)
Lemma pages_of_int (total l : Z) :
  0 < l -> pages_of total (jint l) = jint (ceiling_quotient total l).
Proof.
  intros Hl. unfold pages_of, js_div, jint, Qsign. simpl.
  destruct (Z.compare_spec l 0) as [?|?|_]; try lia.
  unfold js_ceil, jint. do 2 f_equal.
  rewrite (Qceiling_comp _ _ (Qred_correct _)).
  unfold ceiling_quotient, Qceiling. f_equal.
  rewrite Zdiv_Qdiv. apply Qfloor_comp.
  unfold Qeq, Qdiv, Qmult, Qinv, Qopp, inject_Z; simpl.
  destruct l; simpl; lia.
Qed.

End NumberFacts.

(** ** Integer parameters of a request *)

Lemma to_number_literal (s : string) (z : Z) :
  int_literal s = Some z -> to_number_str s = jint z.
Proof. intros H. unfold to_number_str. now rewrite H. Qed.

Lemma parse_int_literal (s : string) (z : Z) :
  int_literal s = Some z -> parse_int_str s = jint z.
Proof. intros H. unfold parse_int_str. now rewrite H. Qed.

(** The Paginator on integer input: no normalisation takes place. *)
Lemma paginate_int (D : Z) (query : gmap string string) (p l : Z) :
  numeric_param query "page" 1 p ->
  numeric_param query "limit" D l ->
  paginate D query = Some (PageArgs (jint ((p - 1) * l)) (jint l) (jint p) (jint l)).
Proof.
  unfold numeric_param, paginate, param_or. intros Hp Hl.
  destruct (query !! "page") as [sp|]; destruct (query !! "limit") as [sl|]; subst; simpl;
    rewrite ?(to_number_literal _ _ Hp), ?(to_number_literal _ _ Hl),
            ?(parse_int_literal _ _ Hp), ?(parse_int_literal _ _ Hl); simpl;
    rewrite ?as_int_jint; simpl;
    now rewrite js_sub_int, js_mul_int.
Qed.

(** ** The listing pattern *)

Lemma handle_Ok200 (e : endpoint) rows params query items total page pages :
  handle e rows params query = Some (Ok200 items total page pages) ->
  exists pa fw cw,
    paginate (ep_limit e) query = Some pa /\
    ep_fetch_where e params query = Some fw /\
    ep_count_where e params query = Some cw /\
    ep_valid e fw = true /\ ep_valid e cw = true /\
    Prisma.findMany rows (ep_matches e fw) (Some (pa_skip pa)) (Some (pa_take pa))
      (ep_order e query) = Some items /\
    total = Prisma.count rows (ep_matches e cw) /\
    page = pa_page pa /\
    pages = pages_of total (pa_limit pa).
Proof.
  unfold handle. intros H.
  apply bind_Some in H as (pa & Hpa & H).
  apply bind_Some in H as (fw & Hfw & H).
  apply bind_Some in H as (cw & Hcw & H).
  exists pa, fw, cw. unfold respond in H.
  destruct (ep_valid e fw) eqn:Vf; [|discriminate].
  destruct (ep_valid e cw) eqn:Vc; [|discriminate].
  simpl in H.
  destruct (Prisma.findMany _ _ _ _ _) as [its|] eqn:F; [|discriminate].
  inversion H; subst. repeat split; auto.
Qed.

(** In each handler the fetch and the count are given the same [where]. *)
Lemma same_where (e : endpoint) :
  In e paginated_endpoints ->
  forall params query, ep_fetch_where e params query = ep_count_where e params query.
Proof.
  unfold paginated_endpoints. intros H params query.
  repeat (destruct H as [<-|H]; [reflexivity|]). destruct H.
Qed.

Ltac use_same_filters Hq :=
  repeat match goal with
         | |- context [ ?q !! ?k ] =>
             lazymatch type of Hq with
             | same_filters q _ => rewrite (Hq k) by discriminate
             end
         end.

(** No handler reads [page] or [limit] when it builds [where] or [orderBy]. *)
Lemma filters_ignore_paging (e : endpoint) :
  In e paginated_endpoints ->
  forall params q q', same_filters q q' ->
    ep_fetch_where e params q = ep_fetch_where e params q' /\
    ep_count_where e params q = ep_count_where e params q' /\
    ep_order e q = ep_order e q'.
Proof.
  unfold paginated_endpoints. intros H params q q' Hq.
  repeat (destruct H as [<-|H];
          [ cbn [ep_fetch_where ep_count_where ep_order
                 Properties.list_endpoint Properties.search_endpoint Properties.admin_endpoint
                 Reviews.all_endpoint Reviews.property_endpoint_v1 Reviews.agent_endpoint_v1
                 Reviews.user_endpoint_v1 Reviews.property_endpoint Reviews.agent_endpoint
                 Reviews.user_endpoint Reviews.admin_all_endpoint Reviews.admin_pending_endpoint
                 Agents.admin_endpoint_v1 Agents.admin_endpoint
                 Contacts.submissions_endpoint];
            unfold Properties.list_where, Properties.search_where, Properties.admin_where,
                   Reviews.orderBy, Reviews.newest,
                   Agents.admin_where_v1, Agents.admin_where, Agents.given_not_all,
                   Contacts.submissions_where, given;
            use_same_filters Hq; auto
          |]).
  destruct H.
Qed.

Lemma bind_total {A B : Type} (m : option A) (k : A -> option B) :
  is_Some m -> (forall a, is_Some (k a)) -> is_Some (m ≫= k).
Proof. intros [a ->] Hk. exact (Hk a). Qed.

Lemma spread_total {W : Type} (x : option string) (f : string -> W -> option W) (w : W) :
  (forall s w, is_Some (f s w)) -> is_Some (spread x f w).
Proof. intros Hf. destruct x as [s|]; simpl; [apply Hf|eauto]. Qed.

Ltac total_chain :=
  repeat first
    [ apply bind_total; [|intros ?]
    | apply spread_total; intros ? ?
    | eexists; reflexivity ].

(** The Paginator reads every query string: no [page] and no [limit]
    is outside it. *)
Lemma paginate_total (D : Z) (query : gmap string string) : is_Some (paginate D query).
Proof.
  unfold paginate, param_or.
  destruct (query !! "page"), (query !! "limit"); simpl;
    rewrite ?as_int_jint; simpl; eauto.
Qed.

(** Every handler builds a [where] object from every query string. *)
Lemma where_total (e : endpoint) :
  In e paginated_endpoints ->
  forall params query, is_Some (ep_fetch_where e params query).
Proof.
  unfold paginated_endpoints. intros H params query.
  repeat (destruct H as [<-|H];
          [ cbn [ep_fetch_where
                 Properties.list_endpoint Properties.search_endpoint Properties.admin_endpoint
                 Reviews.all_endpoint Reviews.property_endpoint_v1 Reviews.agent_endpoint_v1
                 Reviews.user_endpoint_v1 Reviews.property_endpoint Reviews.agent_endpoint
                 Reviews.user_endpoint Reviews.admin_all_endpoint Reviews.admin_pending_endpoint
                 Agents.admin_endpoint_v1 Agents.admin_endpoint
                 Contacts.submissions_endpoint];
            unfold Properties.list_where, Properties.search_where, Properties.admin_where,
                   Agents.admin_where_v1, Agents.admin_where, Contacts.submissions_where;
            total_chain
          |]).
  destruct H.
Qed.

(** Every request to a paginated handler is answered, with the listing or
    with the 500 of the [catch] block. *)
Lemma handle_total (e : endpoint) (rows : list (ep_row e))
    (params query : gmap string string) :
  In e paginated_endpoints ->
  exists pa w,
    paginate (ep_limit e) query = Some pa /\
    ep_fetch_where e params query = Some w /\
    ep_count_where e params query = Some w /\
    handle e rows params query = Some (respond e rows query w w pa).
Proof.
  intros He.
  destruct (paginate_total (ep_limit e) query) as [pa Hpa].
  destruct (where_total e He params query) as [w Hw].
  exists pa, w. pose proof (same_where e He params query) as Hs.
  rewrite Hw in Hs. repeat split; auto.
  unfold handle. rewrite Hpa, Hw, <- Hs. reflexivity.
Qed.


(** A request with a decimal filter, a padded limit and a page in exponent
    notation is read as the language reads it. *)
Example decimal_parameters_are_read :
  handle Properties.list_endpoint (property_rows Sample.store) ∅
    {[ "bathrooms" := "1.5"; "priceMin" := "150.5"; "limit" := " 1 "; "page" := "2e0" ]}
  = Some (Ok200 [PropertyRow (Sample.house "p2" 200 "ACTIVE" 5) (Some Sample.ann)]
            2 (jint 2) (jint 2)).
Proof. vm_compute. reflexivity. Qed.


(** ** The public property listings *)

Section StatusKey.
Import Properties.

Lemma spread_keeps_status x f w w' :
  keeps_status f -> spread x f w = Some w' -> pw_status w' = pw_status w.
Proof.
  intros Hf. destruct x as [s|]; simpl.
  - apply Hf.
  - now intros [= <-].
Qed.

Ltac keeps_status_tac :=
  intros ? ? ? Hf; simpl in Hf;
  repeat match type of Hf with
         | (?m ≫= _) = Some _ => destruct m; simpl in Hf
         end;
  try discriminate; injection Hf as <-; reflexivity.

Ltac chain_status H :=
  repeat match type of H with
         | (_ ≫= _) = Some _ =>
             let w := fresh "w" in
             let E := fresh "E" in
             apply bind_Some in H as (w & E & H);
             first [ injection E as <-
                   | apply spread_keeps_status in E; [|keeps_status_tac] ]
         end;
  apply spread_keeps_status in H; [|keeps_status_tac].

Lemma list_where_status q w :
  list_where q = Some w -> pw_status w = Some "ACTIVE".
Proof.
  unfold list_where. intros H. chain_status H. simpl in *. congruence.
Qed.

Lemma search_where_status q w :
  search_where q = Some w -> pw_status w = Some "ACTIVE".
Proof.
  unfold search_where. intros H. chain_status H. simpl in *. congruence.
Qed.

Lemma matches_status w (r : property_row) st :
  pw_status w = Some st -> matches w r = true -> p_status r = st.
Proof.
  unfold matches. intros Hs Hm. rewrite Hs in Hm. simpl in Hm.
  repeat (apply andb_prop in Hm as [Hm _]).
  now apply String.eqb_eq in Hm.
Qed.

End StatusKey.

(** The items of a listing satisfy the [where] object of the fetch. *)
Lemma respond_items (e : endpoint) (rows : list (ep_row e)) (query : gmap string string)
    (w : ep_where e) (pa : page_args) :
  respond e rows query w w pa = Err500 \/
  exists items total page pages,
    respond e rows query w w pa = Ok200 items total page pages /\
    forall x, In x items -> In x rows /\ ep_matches e w x = true.
Proof.
  unfold respond. destruct (ep_valid e w); simpl; [|now left].
  destruct (Prisma.findMany _ _ _ _ _) as [items|] eqn:F; [|now left].
  right. eexists _, _, _, _. split; [reflexivity|].
  intros x Hx. exact (findMany_sound _ _ _ _ _ _ x F Hx).
Qed.

(** The two public listings answer every request, and what they list is
    stored and ACTIVE. *)
Lemma get_properties_outcome (d : db) (query : gmap string string) :
  Properties.get_properties d query = Some Err500 \/
  exists items total page pages,
    Properties.get_properties d query = Some (Ok200 items total page pages) /\
    forall r : property_row, In r items -> In r (property_rows d) /\ p_status r = "ACTIVE".
Proof.
  destruct (handle_total Properties.list_endpoint (property_rows d) ∅ query)
    as (pa & w & _ & Hw & _ & Hh); [unfold paginated_endpoints; simpl; tauto|].
  unfold Properties.get_properties. rewrite Hh.
  destruct (respond_items Properties.list_endpoint (property_rows d) query w pa)
    as [->|(items & total & page & pages & -> & Hi)]; [now left|right].
  exists items, total, page, pages. split; [reflexivity|].
  intros r Hr. destruct (Hi r Hr) as [Hrow Hm]. split; [exact Hrow|].
  apply (matches_status w r "ACTIVE"); [|exact Hm].
  now apply list_where_status with (q := query).
Qed.

Lemma get_properties_search_outcome (d : db) (query : gmap string string) :
  Properties.get_properties_search d query = Some Err500 \/
  exists items total page pages,
    Properties.get_properties_search d query = Some (Ok200 items total page pages) /\
    forall r : property_row, In r items -> In r (property_rows d) /\ p_status r = "ACTIVE".
Proof.
  destruct (handle_total Properties.search_endpoint (property_rows d) ∅ query)
    as (pa & w & _ & Hw & _ & Hh); [unfold paginated_endpoints; simpl; tauto|].
  unfold Properties.get_properties_search. rewrite Hh.
  destruct (respond_items Properties.search_endpoint (property_rows d) query w pa)
    as [->|(items & total & page & pages & -> & Hi)]; [now left|right].
  exists items, total, page, pages. split; [reflexivity|].
  intros r Hr. destruct (Hi r Hr) as [Hrow Hm]. split; [exact Hrow|].
  apply (matches_status w r "ACTIVE"); [|exact Hm].
  now apply search_where_status with (q := query).
Qed.

(** C9. Every request to [GET /properties] and to [GET /properties/search]
    is answered, whatever its query string: with a 500, or with a 200 in
    which every property has status ACTIVE. *)
Theorem public_listings_only_active (d : db) (query : gmap string string) :
  (Properties.get_properties d query = Some Err500 \/
   exists items total page pages,
     Properties.get_properties d query = Some (Ok200 items total page pages) /\
     Forall (fun r : property_row => p_status r = "ACTIVE") items) /\
  (Properties.get_properties_search d query = Some Err500 \/
   exists items total page pages,
     Properties.get_properties_search d query = Some (Ok200 items total page pages) /\
     Forall (fun r : property_row => p_status r = "ACTIVE") items).
Proof.
  split.
  - destruct (get_properties_outcome d query)
      as [E|(items & total & page & pages & E & Hi)]; [now left|right].
    exists items, total, page, pages. split; [exact E|].
    apply List.Forall_forall. intros r Hr. now apply Hi.
  - destruct (get_properties_search_outcome d query)
      as [E|(items & total & page & pages & E & Hi)]; [now left|right].
    exists items, total, page, pages. split; [exact E|].
    apply List.Forall_forall. intros r Hr. now apply Hi.
Qed.

(** No parameter widens the listing: a decimal [bathrooms] and a [status]
    in the query string of the sample store. *)
Example status_parameter_is_ignored :
  Properties.get_properties Sample.store
    {[ "bathrooms" := "1.5"; "priceMin" := "150"; "status" := "PENDING" ]}
  = Some (Ok200 [PropertyRow (Sample.house "p4" 400 "ACTIVE" 7) (Some Sample.ann);
                 PropertyRow (Sample.house "p2" 200 "ACTIVE" 5) (Some Sample.ann)]
            2 (jint 1) (jint 1)).
Proof. vm_compute. reflexivity. Qed.

(** ** Pages *)

(** The response of a paginated handler to integer [page >= 1] and
    [limit >= 1], in closed form. *)
Lemma handle_int (e : endpoint) (rows : list (ep_row e))
    (params query : gmap string string) (p l : Z) (w : ep_where e) :
  In e paginated_endpoints ->
  numeric_param query "page" 1 p ->
  numeric_param query "limit" (ep_limit e) l ->
  (1 <= p)%Z -> (1 <= l)%Z ->
  ep_fetch_where e params query = Some w ->
  ep_valid e w = true ->
  handle e rows params query =
  Some (Ok200
          (firstn (Z.to_nat l)
             (skipn (Z.to_nat ((p - 1) * l))
                (Prisma.sort_rows (ep_order e query) (List.filter (ep_matches e w) rows))))
          (Prisma.count rows (ep_matches e w))
          (jint p)
          (jint (ceiling_quotient (Prisma.count rows (ep_matches e w)) l))).
Proof.
  intros He Hp Hl Hp1 Hl1 Hw Hv.
  unfold handle. rewrite (paginate_int _ _ p l Hp Hl). simpl.
  rewrite <- (same_where e He params query), Hw. simpl.
  unfold respond. rewrite Hv. simpl.
  unfold Prisma.findMany. rewrite window_defined by nia.
  now rewrite pages_of_int by lia.
Qed.

(** C2, amended.  For a paginated listing with integer [limit >= 1] and
    integer [page >= 1] (given as decimal literals or left to their
    defaults), with [limit] and the offset [(page - 1) * limit] below [2^31]
    and fewer than [2^53] stored rows, and with a [where] object the client
    accepts: the handler answers 200, [pages] is the ceiling of
    [total / limit], and when [page] exceeds [pages] the item list is empty
    while [total] and [pages] are those of the same request with
    [page = 1]. *)
Theorem pages_is_ceiling_and_overflow_is_empty
    (e : endpoint) (rows : list (ep_row e)) (params query : gmap string string)
    (p l : Z) (w : ep_where e) :
  In e paginated_endpoints ->
  numeric_param query "page" 1 p ->
  numeric_param query "limit" (ep_limit e) l ->
  (1 <= p)%Z -> (1 <= l < 2 ^ 31)%Z -> ((p - 1) * l < 2 ^ 31)%Z ->
  (Z.of_nat (length rows) < 2 ^ 53)%Z ->
  ep_fetch_where e params query = Some w ->
  ep_valid e w = true ->
  exists items total pages,
    handle e rows params query = Some (Ok200 items total (jint p) (jint pages)) /\
    pages = ceiling_quotient total l /\
    ((pages - 1) * l < total <= pages * l)%Z /\
    ((pages < p)%Z ->
       items = [] /\
       exists items1,
         handle e rows params (<[ "page" := "1" ]> query)
         = Some (Ok200 items1 total (jint 1) (jint pages))).
Proof.
  intros He Hp Hl Hp1 [Hl1 _] _ _ Hw Hv.
  eexists _, _, _. split; [|split; [reflexivity|split]].
  - apply (handle_int e rows params query p l w); assumption.
  - apply ceiling_quotient_spec. lia.
  - intros Hover.
    pose proof (ceiling_quotient_spec (Prisma.count rows (ep_matches e w)) l ltac:(lia)) as Hc.
    split.
    + rewrite skipn_all2; [now rewrite firstn_nil|].
      rewrite sort_rows_length. unfold Prisma.count in *. nia.
    + assert (Hq : same_filters query (<[ "page" := "1" ]> query)).
      { intros k Hk _. now rewrite lookup_insert_ne. }
      destruct (filters_ignore_paging e He params _ _ Hq) as (Hf & _ & Ho).
      eexists. rewrite (handle_int e rows params _ 1 l w); try assumption; try lia.
      * reflexivity.
      * unfold numeric_param. now rewrite lookup_insert_eq.
      * unfold numeric_param in *. now rewrite lookup_insert_ne.
      * now rewrite <- Hf.
Qed.

Lemma pages_is_ceiling_and_overflow_is_empty_witness :
  exists items total pages,
    handle Agents.admin_endpoint_v1 (agent_rows Sample.store) ∅
      {[ "page" := "3"; "limit" := "2"; "status" := "APPROVED" ]}
    = Some (Ok200 items total (jint 3) (jint pages)) /\
    pages = ceiling_quotient total 2 /\
    ((pages - 1) * 2 < total <= pages * 2)%Z /\
    ((pages < 3)%Z ->
       items = [] /\
       exists items1,
         handle Agents.admin_endpoint_v1 (agent_rows Sample.store) ∅
           (<[ "page" := "1" ]> {[ "page" := "3"; "limit" := "2"; "status" := "APPROVED" ]})
         = Some (Ok200 items1 total (jint 1) (jint pages))).
Proof.
  apply (pages_is_ceiling_and_overflow_is_empty Agents.admin_endpoint_v1
           (agent_rows Sample.store) ∅
           {[ "page" := "3"; "limit" := "2"; "status" := "APPROVED" ]} 3 2
           (Agents.set_verificationStatus "APPROVED" Agents.no_filter)).
  - unfold paginated_endpoints. simpl. tauto.
  - vm_compute. reflexivity.
  - vm_compute. reflexivity.
  - lia.
  - lia.
  - lia.
  - vm_compute. reflexivity.
  - vm_compute. reflexivity.
  - vm_compute. reflexivity.
Defined.

(** A [status] outside the enumeration is refused by the client: the first
    admin listing of agents hands it over as it is given. *)
Example status_outside_the_enumeration :
  handle Agents.admin_endpoint_v1 (agent_rows Sample.store) ∅ {[ "status" := "bogus" ]}
  = Some Err500 /\
  handle Agents.admin_endpoint_v1 (agent_rows Sample.store) ∅ {[ "status" := "approved" ]}
  = Some Err500 /\
  item_count (handle Agents.admin_endpoint (agent_rows Sample.store) ∅
                {[ "status" := "approved" ]}) = Some 1%nat.
Proof. repeat split; vm_compute; reflexivity. Qed.

(** ** The Paginator's treatment of [page] *)



Lemma window_refuses_NaN {R : Type} (tk : option jsnum) (l : list R) :
  Prisma.window (Some JNaN) tk l = None.
Proof. reflexivity. Qed.




(** ** Placeholder values of the optional filters *)

(** C3, as stated, fails: in the admin agents listing [search=all] is a
    search term, not the absence of a filter.  The sample store holds one
    agent, Ann Lee, REG-001: without [search] she is listed, with
    [search=all] nobody is. *)
Lemma search_all_is_a_search_term :
  item_count (AgentViews.get_admin_agents Sample.store ∅) = Some 1%nat /\
  total_of (AgentViews.get_admin_agents Sample.store ∅) = Some 1%Z /\
  AgentViews.get_admin_agents Sample.store {[ "search" := "all" ]}
  = Some (Ok200 [] 0 (jint 1) (jint 0)) /\
  AgentViews.get_admin_agents Sample.store ∅
  <> AgentViews.get_admin_agents Sample.store {[ "search" := "all" ]}.
Proof.
  assert (E1 : total_of (AgentViews.get_admin_agents Sample.store ∅) = Some 1%Z)
    by (vm_compute; reflexivity).
  assert (E2 : AgentViews.get_admin_agents Sample.store {[ "search" := "all" ]}
               = Some (Ok200 [] 0 (jint 1) (jint 0)))
    by (vm_compute; reflexivity).
  split; [vm_compute; reflexivity|]. split; [exact E1|]. split; [exact E2|].
  intros H. rewrite H, E2 in E1. discriminate E1.
Qed.

Section Sentinels.

Lemma paginate_ignores (D : Z) (k v : string) (q : gmap string string) :
  k <> "page" -> k <> "limit" ->
  paginate D (<[ k := v ]> q) = paginate D (delete k q).
Proof.
  intros Hp Hl. unfold paginate, param_or.
  now rewrite !lookup_insert_ne, !lookup_delete_ne.
Qed.

Lemma handle_congr (e : endpoint) rows params q q' :
  paginate (ep_limit e) q = paginate (ep_limit e) q' ->
  ep_fetch_where e params q = ep_fetch_where e params q' ->
  ep_count_where e params q = ep_count_where e params q' ->
  ep_order e q = ep_order e q' ->
  handle e rows params q = handle e rows params q'.
Proof.
  intros H1 H2 H3 H4. unfold handle, respond. now rewrite H1, H2, H3, H4.
Qed.

(** Decide every lookup of the modified query strings. *)
Ltac settle_lookups :=
  rewrite ?lookup_insert, ?lookup_delete;
  repeat (case_decide; simplify_eq; simpl);
  try reflexivity.

Ltac unfold_builders :=
  cbn [ep_fetch_where ep_count_where ep_order ep_limit
       Properties.list_endpoint Properties.search_endpoint Properties.admin_endpoint
       Reviews.all_endpoint Reviews.property_endpoint_v1 Reviews.agent_endpoint_v1
       Reviews.user_endpoint_v1 Reviews.property_endpoint Reviews.agent_endpoint
       Reviews.user_endpoint Reviews.admin_all_endpoint Reviews.admin_pending_endpoint
       Agents.admin_endpoint_v1 Agents.admin_endpoint Contacts.submissions_endpoint];
  unfold Properties.list_where, Properties.search_where, Properties.admin_where,
         Reviews.orderBy, Reviews.newest,
         Agents.public_where, Agents.public_where_v1, Agents.public_filters,
         Agents.admin_where_v1, Agents.admin_where, Agents.given_not_all,
         Contacts.submissions_where, given.

(** An empty parameter builds the [where] and [orderBy] of an absent one. *)
Lemma blank_is_absent (e : endpoint) (params q : gmap string string) (k : string) :
  In e paginated_endpoints ->
  ep_fetch_where e params (<[ k := "" ]> q) = ep_fetch_where e params (delete k q) /\
  ep_count_where e params (<[ k := "" ]> q) = ep_count_where e params (delete k q) /\
  ep_order e (<[ k := "" ]> q) = ep_order e (delete k q).
Proof.
  unfold paginated_endpoints. intros H.
  repeat (destruct H as [<-|H];
          [ unfold_builders; repeat split; settle_lookups |]).
  destruct H.
Qed.

Lemma public_listing_congr where_of transform (d : db) (q q' : gmap string string) :
  where_of q = where_of q' ->
  AgentViews.public_listing where_of transform d q
  = AgentViews.public_listing where_of transform d q'.
Proof. intros H. unfold AgentViews.public_listing. now rewrite H. Qed.

(** What each builder does with a parameter that passes its guard. *)

Ltac settle_keys :=
  cbn [spread mbind option_bind];
  eexists; split; [reflexivity|];
  repeat split; intros ? E; try discriminate E; injection E as <-; reflexivity.

Lemma list_where_keys (q : gmap string string) :
  exists w, Properties.list_where q = Some w /\
    (forall s, given q "search" = Some s ->
       Properties.pw_OR w
       = Some [Properties.PContains Properties.PTitle s;
               Properties.PContains Properties.PDescription s;
               Properties.PContains Properties.PCity s]) /\
    (forall s, given q "priceMax" = Some s ->
       Properties.pw_price w = Some (Lte (parse_int_str s))) /\
    (forall s, given q "bedrooms" = Some s ->
       Properties.pw_bedrooms w = Some (parse_int_str s)) /\
    (forall s, given q "bathrooms" = Some s ->
       Properties.pw_bathrooms w = Some (Gte (parse_float_str s))) /\
    (forall s, given q "propertyType" = Some s -> Properties.pw_propertyType w = Some s) /\
    (forall s, given q "city" = Some s -> Properties.pw_city w = Some s) /\
    (forall s, given q "state" = Some s -> Properties.pw_state w = Some s).
Proof.
  unfold Properties.list_where.
  destruct (given q "search"), (given q "priceMin"), (given q "priceMax"),
    (given q "bedrooms"), (given q "bathrooms"), (given q "propertyType"),
    (given q "city"), (given q "state"); settle_keys.
Qed.

Lemma search_where_keys (q : gmap string string) :
  exists w, Properties.search_where q = Some w /\
    (forall s, given q "q" = Some s ->
       Properties.pw_OR w
       = Some [Properties.PContains Properties.PTitle s;
               Properties.PContains Properties.PDescription s;
               Properties.PContains Properties.PCity s;
               Properties.PContains Properties.PAddress s]) /\
    (forall s, given q "priceMax" = Some s ->
       Properties.pw_price w = Some (Lte (parse_int_str s))) /\
    (forall s, given q "bedrooms" = Some s ->
       Properties.pw_bedrooms w = Some (parse_int_str s)) /\
    (forall s, given q "bathrooms" = Some s ->
       Properties.pw_bathrooms w = Some (Gte (parse_float_str s))) /\
    (forall s, given q "propertyType" = Some s -> Properties.pw_propertyType w = Some s) /\
    (forall s, given q "city" = Some s -> Properties.pw_city w = Some s) /\
    (forall s, given q "state" = Some s -> Properties.pw_state w = Some s).
Proof.
  unfold Properties.search_where.
  destruct (given q "q"), (given q "priceMin"), (given q "priceMax"),
    (given q "bedrooms"), (given q "bathrooms"), (given q "propertyType"),
    (given q "city"), (given q "state"); settle_keys.
Qed.

Lemma public_filters_keys (q : gmap string string) (w0 : Agents.agent_where) :
  exists w, Agents.public_filters q w0 = Some w /\
    (forall s, given q "search" = Some s ->
       Agents.aw_OR w
       = Some [Agents.AUser (UContains UFirstName s); Agents.AUser (UContains ULastName s);
               Agents.ASpecialtiesHasSome [s]]) /\
    (forall s, Agents.given_not_all q "location" = Some s ->
       Agents.aw_user w = Some [UContains UFirstName s; UContains ULastName s]) /\
    (forall s, Agents.given_not_all q "specialty" = Some s ->
       Agents.aw_specialties w = Some s).
Proof.
  unfold Agents.public_filters.
  destruct (given q "search"), (Agents.given_not_all q "location"),
    (Agents.given_not_all q "specialty"); settle_keys.
Qed.

Lemma given_insert (q : gmap string string) (k v : string) :
  v <> "" -> given (<[ k := v ]> q) k = Some v.
Proof.
  intros Hv. unfold given. rewrite lookup_insert_eq.
  destruct (String.eqb_spec v ""); [contradiction|reflexivity].
Qed.

Lemma given_not_all_insert (q : gmap string string) (k v : string) :
  v <> "" -> v <> "all" -> Agents.given_not_all (<[ k := v ]> q) k = Some v.
Proof.
  intros Hv Ha. unfold Agents.given_not_all. rewrite (given_insert q k v Hv).
  destruct (String.eqb_spec v "all"); [contradiction|reflexivity].
Qed.

(** A [where] object the client refuses is answered 500. *)
Lemma refused_where (e : endpoint) (rows : list (ep_row e))
    (params query : gmap string string) (w : ep_where e) :
  In e paginated_endpoints ->
  ep_fetch_where e params query = Some w ->
  ep_valid e w = false ->
  handle e rows params query = Some Err500.
Proof.
  intros He Hw Hv.
  destruct (handle_total e rows params query He) as (pa & w' & _ & Hw' & _ & ->).
  rewrite Hw in Hw'. apply (inj Some) in Hw'. subst w'.
  unfold respond. now rewrite Hv.
Qed.

(** C3, amended.  In every listing an empty parameter is an absent one.
    [all] is no filter for the [status] of the admin listings of agents and
    properties and of the contact submissions and for the [location] and
    [specialty] of the public agents listing; [undefined] is no filter for
    the [status] and the [search] of the current admin agents listing.
    Elsewhere the two words are operands like any other: [all] and
    [undefined] are the search term of every free-text search but for
    [undefined] in the current admin agents listing, [undefined] is the
    [location] and the [specialty] the public agents listing filters on, and
    as a [status] of the admin properties listing, of the first admin agents
    listing and of the contact submissions it is handed to an enumerated
    column and the request is answered 500; in the public property listings
    the two words are the operand of [propertyType], [city] and [state]. *)
Theorem placeholders_by_dimension (d : db) (query : gmap string string) :
  (forall (e : endpoint) (rows : list (ep_row e)) (params : gmap string string) (k : string),
      In e paginated_endpoints -> k <> "page" -> k <> "limit" ->
      handle e rows params (<[ k := "" ]> query) = handle e rows params (delete k query)) /\
  (forall k : string,
      AgentViews.get_agents d (<[ k := "" ]> query) = AgentViews.get_agents d (delete k query) /\
      AgentViews.get_agents_v1 d (<[ k := "" ]> query)
      = AgentViews.get_agents_v1 d (delete k query)) /\
  (forall k : string, In k ["location"; "specialty"] ->
      AgentViews.get_agents d (<[ k := "all" ]> query) = AgentViews.get_agents d (delete k query) /\
      AgentViews.get_agents_v1 d (<[ k := "all" ]> query)
      = AgentViews.get_agents_v1 d (delete k query)) /\
  Properties.get_admin_properties d (<[ "status" := "all" ]> query)
  = Properties.get_admin_properties d (delete "status" query) /\
  AgentViews.get_admin_agents_v1 d (<[ "status" := "all" ]> query)
  = AgentViews.get_admin_agents_v1 d (delete "status" query) /\
  (forall v : string, In v ["all"; "undefined"] ->
      AgentViews.get_admin_agents d (<[ "status" := v ]> query)
      = AgentViews.get_admin_agents d (delete "status" query)) /\
  AgentViews.get_admin_agents d (<[ "search" := "undefined" ]> query)
  = AgentViews.get_admin_agents d (delete "search" query) /\
  (forall rows : list contact,
      Contacts.get_submissions rows (<[ "status" := "all" ]> query)
      = Contacts.get_submissions rows (delete "status" query)) /\
  (forall v : string, In v ["all"; "undefined"] ->
      builds Properties.list_where Properties.pw_OR (<[ "search" := v ]> query)
        [Properties.PContains Properties.PTitle v;
         Properties.PContains Properties.PDescription v;
         Properties.PContains Properties.PCity v] /\
      builds Properties.search_where Properties.pw_OR (<[ "q" := v ]> query)
        [Properties.PContains Properties.PTitle v;
         Properties.PContains Properties.PDescription v;
         Properties.PContains Properties.PCity v;
         Properties.PContains Properties.PAddress v] /\
      builds Properties.admin_where Properties.pw_OR (<[ "search" := v ]> query)
        [Properties.PContains Properties.PTitle v;
         Properties.PContains Properties.PDescription v;
         Properties.PContains Properties.PAddress v;
         Properties.PAgentUser [UContains UFirstName v; UContains ULastName v;
                                UContains UEmail v]] /\
      builds Agents.public_where Agents.aw_OR (<[ "search" := v ]> query)
        [Agents.AUser (UContains UFirstName v); Agents.AUser (UContains ULastName v);
         Agents.ASpecialtiesHasSome [v]] /\
      builds Agents.public_where_v1 Agents.aw_OR (<[ "search" := v ]> query)
        [Agents.AUser (UContains UFirstName v); Agents.AUser (UContains ULastName v);
         Agents.ASpecialtiesHasSome [v]] /\
      builds Agents.admin_where_v1 Agents.aw_OR (<[ "search" := v ]> query)
        [Agents.AUser (UContains UFirstName v); Agents.AUser (UContains ULastName v);
         Agents.ARegistrationNumber v] /\
      (forall k : string, In k ["propertyType"; "city"; "state"] ->
         forall key, In (k, key) [("propertyType", Properties.pw_propertyType);
                                  ("city", Properties.pw_city);
                                  ("state", Properties.pw_state)] ->
         builds Properties.list_where key (<[ k := v ]> query) v /\
         builds Properties.search_where key (<[ k := v ]> query) v)) /\
  builds Agents.admin_where Agents.aw_OR (<[ "search" := "all" ]> query)
    [Agents.AUser (UContains UFirstName "all"); Agents.AUser (UContains ULastName "all");
     Agents.ARegistrationNumber "all"] /\
  (builds Agents.public_where Agents.aw_user (<[ "location" := "undefined" ]> query)
     [UContains UFirstName "undefined"; UContains ULastName "undefined"] /\
   builds Agents.public_where_v1 Agents.aw_user (<[ "location" := "undefined" ]> query)
     [UContains UFirstName "undefined"; UContains ULastName "undefined"] /\
   builds Agents.public_where Agents.aw_specialties (<[ "specialty" := "undefined" ]> query)
     "undefined" /\
   builds Agents.public_where_v1 Agents.aw_specialties
     (<[ "specialty" := "undefined" ]> query) "undefined") /\
  (Properties.get_admin_properties d (<[ "status" := "undefined" ]> query) = Some Err500 /\
   AgentViews.get_admin_agents_v1 d (<[ "status" := "undefined" ]> query) = Some Err500 /\
   forall rows : list contact,
     Contacts.get_submissions rows (<[ "status" := "undefined" ]> query) = Some Err500).
Proof.
  split; [|split; [|split; [|split; [|split; [|split; [|split; [|split;
    [|split; [|split; [|split]]]]]]]]]].
  - intros e rows params k He Hp Hl.
    destruct (blank_is_absent e params query k He) as (Hf & Hc & Ho).
    apply handle_congr; auto using paginate_ignores.
  - intros k. split; apply public_listing_congr; unfold_builders; settle_lookups.
  - intros k H. split;
      (destruct H as [<-|[<-|[]]]; apply public_listing_congr; unfold_builders; settle_lookups).
  - unfold Properties.get_admin_properties.
    apply (handle_congr Properties.admin_endpoint);
      [now apply paginate_ignores| | |]; unfold_builders; settle_lookups.
  - unfold AgentViews.get_admin_agents_v1. f_equal.
    apply (handle_congr Agents.admin_endpoint_v1);
      [now apply paginate_ignores| | |]; unfold_builders; settle_lookups.
  - intros v Hv. unfold AgentViews.get_admin_agents. f_equal.
    destruct Hv as [<-|[<-|[]]];
      (apply (handle_congr Agents.admin_endpoint);
       [now apply paginate_ignores| | |]; unfold_builders; settle_lookups).
  - unfold AgentViews.get_admin_agents. f_equal.
    apply (handle_congr Agents.admin_endpoint);
      [now apply paginate_ignores| | |]; unfold_builders; settle_lookups.
  - intros rows. unfold Contacts.get_submissions.
    apply (handle_congr Contacts.submissions_endpoint);
      [now apply paginate_ignores| | |]; unfold_builders; settle_lookups.
  - intros v Hv.
    assert (Hne : v <> "") by (destruct Hv as [<-|[<-|[]]]; discriminate).
    split; [|split; [|split; [|split; [|split; [|split]]]]].
    + destruct (list_where_keys (<[ "search" := v ]> query)) as (w & Hw & H & _).
      exists w. split; [exact Hw|]. apply H, given_insert, Hne.
    + destruct (search_where_keys (<[ "q" := v ]> query)) as (w & Hw & H & _).
      exists w. split; [exact Hw|]. apply H, given_insert, Hne.
    + unfold builds, Properties.admin_where. rewrite (given_insert query "search" v Hne).
      cbn [spread mbind option_bind].
      destruct (if _ : bool then None else Some _); cbn [spread mbind option_bind];
        eexists; split; reflexivity.
    + destruct (public_filters_keys (<[ "search" := v ]> query)
                  (Agents.set_verificationStatus "APPROVED" Agents.no_filter))
        as (w & Hw & H & _).
      exists w. split; [exact Hw|]. apply H, given_insert, Hne.
    + destruct (public_filters_keys (<[ "search" := v ]> query)
                  (Agents.set_isVerified true Agents.no_filter))
        as (w & Hw & H & _).
      exists w. split; [exact Hw|]. apply H, given_insert, Hne.
    + unfold builds, Agents.admin_where_v1. rewrite (given_insert query "search" v Hne).
      cbn [spread mbind option_bind].
      destruct (Agents.given_not_all _ "status"); cbn [spread mbind option_bind];
        eexists; split; reflexivity.
    + intros k Hk key Hkey.
      destruct (list_where_keys (<[ k := v ]> query))
        as (w & Hw & _ & _ & _ & _ & Ht & Hc & Hs).
      destruct (search_where_keys (<[ k := v ]> query))
        as (w' & Hw' & _ & _ & _ & _ & Ht' & Hc' & Hs').
      pose proof (given_insert query k v Hne) as G.
      simpl in Hkey.
      destruct Hkey as [E|[E|[E|[]]]]; injection E as <- <-;
        (split; [exists w|exists w']; (split; [assumption|])); auto.
  - unfold builds, Agents.admin_where. rewrite lookup_insert_eq.
    change (trim "all") with "all".
    cbn [String.eqb Ascii.eqb Bool.eqb negb andb].
    rewrite lookup_insert_ne by discriminate.
    eexists. split; [reflexivity|].
    destruct (query !! "status") as [st|]; [|reflexivity].
    repeat match goal with
           | |- context [if ?c then _ else _] => destruct c
           end; reflexivity.
  - split; [|split; [|split]].
    + destruct (public_filters_keys (<[ "location" := "undefined" ]> query)
                  (Agents.set_verificationStatus "APPROVED" Agents.no_filter))
        as (w & Hw & _ & H & _).
      exists w. split; [exact Hw|]. apply H, given_not_all_insert; discriminate.
    + destruct (public_filters_keys (<[ "location" := "undefined" ]> query)
                  (Agents.set_isVerified true Agents.no_filter))
        as (w & Hw & _ & H & _).
      exists w. split; [exact Hw|]. apply H, given_not_all_insert; discriminate.
    + destruct (public_filters_keys (<[ "specialty" := "undefined" ]> query)
                  (Agents.set_verificationStatus "APPROVED" Agents.no_filter))
        as (w & Hw & _ & _ & H).
      exists w. split; [exact Hw|]. apply H, given_not_all_insert; discriminate.
    + destruct (public_filters_keys (<[ "specialty" := "undefined" ]> query)
                  (Agents.set_isVerified true Agents.no_filter))
        as (w & Hw & _ & _ & H).
      exists w. split; [exact Hw|]. apply H, given_not_all_insert; discriminate.
  - split; [|split].
    + unfold Properties.get_admin_properties.
      destruct (where_total Properties.admin_endpoint) with (params := (∅ : gmap string string))
        (query := <[ "status" := "undefined" ]> query) as [w Hw];
        [unfold paginated_endpoints; simpl; tauto|].
      apply (refused_where Properties.admin_endpoint _ _ _ w);
        [unfold paginated_endpoints; simpl; tauto|exact Hw|].
      cbn [ep_fetch_where Properties.admin_endpoint] in Hw.
      unfold Properties.admin_where in Hw. rewrite lookup_insert_eq in Hw.
      cbn [default String.eqb Ascii.eqb Bool.eqb orb spread mbind option_bind] in Hw.
      destruct (given _ "search"); cbn [spread] in Hw; injection Hw as <-; reflexivity.
    + unfold AgentViews.get_admin_agents_v1.
      destruct (where_total Agents.admin_endpoint_v1) with (params := (∅ : gmap string string))
        (query := <[ "status" := "undefined" ]> query) as [w Hw];
        [unfold paginated_endpoints; simpl; tauto|].
      rewrite (refused_where Agents.admin_endpoint_v1 _ _ _ w);
        [reflexivity|unfold paginated_endpoints; simpl; tauto|exact Hw|].
      cbn [ep_fetch_where Agents.admin_endpoint_v1] in Hw.
      unfold Agents.admin_where_v1 in Hw.
      rewrite (given_not_all_insert query "status" "undefined") in Hw by discriminate.
      destruct (given _ "search"); cbn [spread mbind option_bind] in Hw;
        injection Hw as <-; reflexivity.
    + intros rows. unfold Contacts.get_submissions.
      apply (refused_where Contacts.submissions_endpoint _ _ _
               (Contacts.ContactWhere (Some "undefined")));
        [unfold paginated_endpoints; simpl; tauto| |reflexivity].
      cbn [ep_fetch_where Contacts.submissions_endpoint].
      unfold Contacts.submissions_where. now rewrite lookup_insert_eq.
Qed.

End Sentinels.

Lemma placeholders_by_dimension_witness :
  AgentViews.get_admin_agents Sample.store (<[ "status" := "undefined" ]> {[ "limit" := "5" ]})
  = AgentViews.get_admin_agents Sample.store (delete "status" {[ "limit" := "5" ]}).
Proof.
  apply (placeholders_by_dimension Sample.store {[ "limit" := "5" ]}).
  simpl. tauto.
Defined.

(** ** The price scenario *)


Section ScenarioFacts.
Import PropertyWrites Scenario.

Lemma entity_id_property (s : Z) (p : property) :
  entity_id "property" (Reply s {[ "property" := VObj (property_object p) ]}) = Some (p_id p).
Proof.
  unfold entity_id. cbn [body]. rewrite lookup_singleton_eq.
  unfold property_object. cbn [list_to_map foldr fst snd uncurry].
  now rewrite lookup_insert_eq.
Qed.











End ScenarioFacts.

Section PriceScenario.
Import PropertyWrites Scenario Properties.





End PriceScenario.

(** ** Favorites *)

Section FavoriteFacts.
Import Favorites.

Lemma get_Some (o : gmap string jsval) (k : string) (v : jsval) :
  o !! k = Some v -> get o k = v.
Proof. unfold get. now intros ->. Qed.

Lemma get_None (o : gmap string jsval) (k : string) :
  o !! k = None -> get o k = VUndefined.
Proof. unfold get. now intros ->. Qed.

Lemma find_favorite_of (d : db) (f : favorite) :
  In f (favorites d) ->
  exists f', find_favorite d (f_userId f) (f_propertyId f) = Some f'.
Proof.
  intros Hin. unfold find_favorite.
  destruct (List.find _ _) as [f'|] eqn:F; [now exists f'|].
  eapply find_none in F; [|exact Hin]. simpl in F.
  now rewrite !String.eqb_refl in F.
Qed.

(** C6. In a store whose favorites point to stored properties, a favorite
    POST by a user for a property the user has already favorited answers 409
    and returns the store unchanged; in particular the number of favorite
    records of that user is the same before and after. *)
Theorem duplicate_favorite_is_a_conflict
    (d : db) (userId propertyId : string) (body : gmap string jsval) (f : favorite) :
  favorites_ok d ->
  In f (favorites d) -> f_userId f = userId -> f_propertyId f = propertyId ->
  body !! "propertyId" = Some (VStr propertyId) ->
  post_favorite userId body d = (message_reply 409 "Property already in favorites", d) /\
  favorite_count (post_favorite userId body d).2 userId = favorite_count d userId.
Proof.
  intros Hok Hin Hu Hp Hb.
  destruct (Hok f Hin) as (Hne & p & Hfind).
  destruct (find_favorite_of d f Hin) as (f' & Hfav).
  rewrite Hu, Hp in *.
  assert (E : post_favorite userId body d
              = (message_reply 409 "Property already in favorites", d)).
  { unfold post_favorite. rewrite (get_Some _ _ _ Hb). cbn [truthy].
    destruct (String.eqb_spec propertyId ""); [contradiction|]. cbn [negb].
    now rewrite Hfind, Hfav. }
  split; [exact E|]. now rewrite E.
Qed.

(** The integrity of the favorites table is an invariant of the route. *)
Lemma post_favorite_keeps_ok (d : db) (userId : string) (body : gmap string jsval) :
  favorites_ok d -> favorites_ok (post_favorite userId body d).2.
Proof.
  intros Hok. unfold post_favorite.
  destruct (truthy (get body "propertyId")) eqn:T; cbn [negb]; [|exact Hok].
  destruct (get body "propertyId") as [| | | |pid| | |]; try exact Hok.
  destruct (find_property d pid) as [p|] eqn:Fp; [|exact Hok].
  destruct (find_favorite d userId pid); [exact Hok|].
  cbn [snd]. intros f Hin. unfold add_favorite in *. cbn [favorites] in Hin.
  unfold find_property in *. cbn [properties].
  apply in_app_or in Hin as [Hin|[<-|[]]].
  - apply Hok, Hin.
  - cbn [f_propertyId]. split; [|eauto].
    intros ->. discriminate T.
Qed.

Lemma sample_store_favorites_ok : favorites_ok Sample.store.
Proof.
  intros f [<-|[]]. split; [discriminate|]. eexists. vm_compute. reflexivity.
Qed.

Lemma duplicate_favorite_is_a_conflict_witness :
  post_favorite "u2" {[ "propertyId" := VStr "p1" ]} Sample.store
  = (message_reply 409 "Property already in favorites", Sample.store) /\
  favorite_count (post_favorite "u2" {[ "propertyId" := VStr "p1" ]} Sample.store).2 "u2"
  = favorite_count Sample.store "u2".
Proof.
  apply (duplicate_favorite_is_a_conflict Sample.store "u2" "p1"
           {[ "propertyId" := VStr "p1" ]} (Favorite "f1" "u2" "p1" 10)).
  - exact sample_store_favorites_ok.
  - simpl. tauto.
  - reflexivity.
  - reflexivity.
  - vm_compute. reflexivity.
Defined.

End FavoriteFacts.

(** ** Review creation *)

Section ReviewTarget.
Import ReviewWrites.
Variable jwt_verify : string -> option string.
Variable undefined_alternative : bool.

(** A missing value fails [notEmpty()]. *)
Lemma missing_fails_required (v : jsval) :
  missing v -> is_string v = true -> negb (String.eqb (to_text v) "") = false.
Proof.
  unfold missing. destruct v as [| | | |s| | |]; try discriminate.
  simpl. intros H _. now destruct (String.eqb s "").
Qed.

Lemma failed_cons_false (k : string) (rest : list (string * bool)) :
  failed ((k, false) :: rest) = k :: failed rest.
Proof. reflexivity. Qed.

Lemma failed_cons (k : string) (b : bool) (rest : list (string * bool)) :
  failed ((k, b) :: rest) = if b then failed rest else k :: failed rest.
Proof. now destruct b. Qed.

(** Without a target the first route stops at the validators and the
    current one before the write, whoever asks. *)
Lemma review_without_target_keeps_the_store (r : request) (d : db) :
  missing (get (req_body r) "propertyId") ->
  missing (get (req_body r) "agentId") ->
  (exists errors,
      post_review_v1 jwt_verify r d = (validation_reply errors, d) /\
      In "propertyId" errors) /\
  (post_review jwt_verify undefined_alternative r d).2 = d /\
  In (status (post_review jwt_verify undefined_alternative r d).1) [400; 401; 500]%Z.
Proof.
  intros Hp Ha.
  split; [|split].
  - unfold post_review_v1. rewrite !failed_cons.
    pose proof (missing_fails_required _ Hp) as Hm.
    destruct (is_string (get (req_body r) "propertyId")).
    + rewrite (Hm eq_refl).
      destruct (isInt 1 5 _), (isLength 10 1000 _); eexists; split; try reflexivity;
        simpl; tauto.
    + destruct (isInt 1 5 _), (isLength 10 1000 _),
        (negb (String.eqb (to_text (get (req_body r) "propertyId")) ""));
        eexists; split; try reflexivity; simpl; tauto.
  - unfold post_review.
    destruct (failed _); [|reflexivity].
    destruct (token_of r) as [| | | |[|c t]| | |]; try reflexivity.
    destruct (jwt_verify _); [|reflexivity].
    unfold missing in *. now rewrite Hp, Ha.
  - unfold post_review.
    destruct (failed _); [|simpl; tauto].
    destruct (token_of r) as [| | | |[|c t]| | |]; try (simpl; tauto).
    destruct (jwt_verify _); [|simpl; tauto].
    unfold missing in *. rewrite Hp, Ha. simpl. tauto.
Qed.

(** C7. A review POST that carries a bearer token that verifies and whose
    body has neither [propertyId] nor [agentId] is answered 400 and creates
    nothing, in both versions of the route.  The first version answers with
    the validation errors, [propertyId] among them; the current version
    with the validation errors of [rating] and [comment] or, when these two
    are valid, with the message that one of the two identifiers must be
    provided. *)
Theorem review_without_target_creates_nothing
    (r : request) (d : db) (token userId : string) :
  missing (get (req_body r) "propertyId") ->
  missing (get (req_body r) "agentId") ->
  token_of r = VStr token -> token <> "" -> jwt_verify token = Some userId ->
  (exists errors,
      post_review_v1 jwt_verify r d = (validation_reply errors, d) /\
      In "propertyId" errors) /\
  ((exists e errors,
       post_review jwt_verify undefined_alternative r d
       = (validation_reply (e :: errors), d)) \/
   post_review jwt_verify undefined_alternative r d
   = (message_reply 400 "Either propertyId or agentId must be provided for reviews", d)) /\
  status (post_review_v1 jwt_verify r d).1 = 400%Z /\
  status (post_review jwt_verify undefined_alternative r d).1 = 400%Z /\
  (post_review_v1 jwt_verify r d).2 = d /\
  (post_review jwt_verify undefined_alternative r d).2 = d.
Proof.
  intros Hp Ha Ht Hne Hv.
  destruct (review_without_target_keeps_the_store r d Hp Ha) as ((errors & E1 & Hin) & Hd & _).
  assert (E2 : (exists e errors,
                   post_review jwt_verify undefined_alternative r d
                   = (validation_reply (e :: errors), d)) \/
               post_review jwt_verify undefined_alternative r d
               = (message_reply 400 "Either propertyId or agentId must be provided for reviews",
                  d)).
  { unfold post_review.
    destruct (failed _) as [|e errs]; [right|left; eauto].
    rewrite Ht. destruct token as [|c t]; [contradiction|].
    rewrite Hv. unfold missing in *. now rewrite Hp, Ha. }
  split; [eauto|]. split; [exact E2|].
  rewrite E1. cbn [fst snd status validation_reply].
  split; [reflexivity|]. split; [|split; [reflexivity|exact Hd]].
  destruct E2 as [(e & errs & ->)| ->]; reflexivity.
Qed.

End ReviewTarget.

(** Without a token the current route answers 401 before it looks at the
    target. *)
Example review_without_token_is_unauthorized :
  ReviewWrites.post_review (fun _ => Some "u2") true
    (ReviewWrites.Request None
       {[ "rating" := VNum (jint 5); "comment" := VStr "A very pleasant visit" ]})
    Sample.store
  = (message_reply 401 "No token provided", Sample.store).
Proof. vm_compute. reflexivity. Qed.

Lemma review_without_target_creates_nothing_witness :
  ReviewWrites.post_review (fun _ => Some "u2") true
    (ReviewWrites.Request (Some "Bearer abc")
       {[ "rating" := VNum (jint 5); "comment" := VStr "A very pleasant visit" ]})
    Sample.store
  = (message_reply 400 "Either propertyId or agentId must be provided for reviews",
     Sample.store).
Proof.
  set (r := ReviewWrites.Request (Some "Bearer abc")
              {[ "rating" := VNum (jint 5); "comment" := VStr "A very pleasant visit" ]}).
  assert (Hp : missing (get (ReviewWrites.req_body r) "propertyId"))
    by (vm_compute; reflexivity).
  assert (Ha : missing (get (ReviewWrites.req_body r) "agentId"))
    by (vm_compute; reflexivity).
  assert (Ht : ReviewWrites.token_of r = VStr "abc") by (vm_compute; reflexivity).
  destruct (review_without_target_creates_nothing (fun _ => Some "u2") true r Sample.store
              "abc" "u2" Hp Ha Ht ltac:(discriminate) eq_refl)
    as (_ & [(e & errors & E)|E] & _).
  - vm_compute in E. discriminate E.
  - exact E.
Defined.

(** ** The agent projections *)

Section ProjectionFacts.
Import Agents AgentViews.

Lemma js_or_defined (a b : jsval) :
  is_undefined b = false -> is_undefined (js_or a b) = false.
Proof.
  intros Hb. unfold js_or. destruct (truthy a) eqn:T; [|exact Hb].
  now destruct a.
Qed.

Lemma nullable_defined (x : option string) : is_undefined (nullable x) = false.
Proof. now destruct x. Qed.

(** A key of the object survives serialisation when its value is defined. *)
Lemma json_object_lookup (o : gmap string jsval) (k : string) (v : jsval) :
  o !! k = Some v -> is_undefined v = false -> json_object o !! k = Some v.
Proof.
  intros Ho Hv. unfold json_object. apply map_lookup_filter_Some. now split.
Qed.

Ltac promised_key :=
  eexists; split;
  [ apply json_object_lookup; [reflexivity|]
  | ];
  first [ reflexivity | apply js_or_defined; reflexivity | apply nullable_defined
        | apply js_or_defined, nullable_defined ].

Ltac promised_tac :=
  intros k Hk; cbn [In] in Hk;
  repeat (destruct Hk as [<-|Hk]; [promised_key|]); destruct Hk.

(** C8. For every agent row (with its user), each projection of the agents
    listings, public and admin, first and current version, yields an object
    in which every key of its contract is present once serialised and holds
    a defined value; [rating] is the constant 4.5 (public) or 4.8 (admin) and
    [yearsExperience] the constant 5, whatever the row. *)
Theorem agent_projections_fill_every_key (r : agent_row) (u : user) :
  ar_user r = Some u ->
  (exists o, transform_public_v1 r = Some o /\ promised public_contract_v1 o /\
     json_object o !! "rating" = Some (VNum (JNum 4.5)) /\
     json_object o !! "yearsExperience" = Some (VNum (jint 5))) /\
  (exists o, transform_admin_v1 r = Some o /\ promised admin_contract_v1 o /\
     json_object o !! "rating" = Some (VNum (JNum 4.8))) /\
  (exists o, transform_public r = Some o /\ promised public_contract o /\
     json_object o !! "rating" = Some (VNum (JNum 4.5)) /\
     json_object o !! "yearsExperience" = Some (VNum (jint 5))) /\
  (exists o, transform_admin r = Some o /\ promised admin_contract o /\
     json_object o !! "rating" = Some (VNum (JNum 4.8))).
Proof.
  intros Hu. split; [|split; [|split]].
  - unfold transform_public_v1. rewrite Hu. cbn [mbind option_bind].
    eexists. split; [reflexivity|]. split; [|split].
    + unfold public_contract_v1. promised_tac.
    + apply json_object_lookup; reflexivity.
    + apply json_object_lookup; reflexivity.
  - unfold transform_admin_v1. rewrite Hu. cbn [mbind option_bind].
    eexists. split; [reflexivity|]. split.
    + unfold admin_contract_v1. promised_tac.
    + apply json_object_lookup; reflexivity.
  - unfold transform_public. rewrite Hu. cbn [mbind option_bind].
    eexists. split; [reflexivity|]. split; [|split].
    + unfold public_contract. promised_tac.
    + apply json_object_lookup; reflexivity.
    + apply json_object_lookup; reflexivity.
  - unfold transform_admin. rewrite Hu. cbn [mbind option_bind].
    eexists. split; [reflexivity|]. split.
    + unfold admin_contract, string_or_empty. promised_tac.
    + apply json_object_lookup; reflexivity.
Qed.

Lemma agent_projections_fill_every_key_witness :
  exists o,
    transform_public_v1 (AgentRow Sample.ann_agent (Some Sample.ann) []) = Some o /\
    promised public_contract_v1 o /\
    json_object o !! "rating" = Some (VNum (JNum 4.5)) /\
    json_object o !! "yearsExperience" = Some (VNum (jint 5)).
Proof.
  apply (agent_projections_fill_every_key
           (AgentRow Sample.ann_agent (Some Sample.ann) []) Sample.ann).
  reflexivity.
Defined.

End ProjectionFacts.

(** ** Passwords in replies *)

Section Passwords.
Import Auth.
Variable JWT_SECRET : option string.
Variable bcrypt_hash : string -> string.
Variable bcrypt_compare : string -> string -> bool.
Variable jwt_sign : string -> string -> string -> string.
Variable isEmail : string -> bool.
Variable normalizeEmail : string -> string.
Variable isMobilePhone : string -> bool.

Lemma selected_has_no_password (o : gmap string jsval) :
  select_keys ["id"; "email"; "firstName"; "lastName"; "role"; "createdAt"] o
  !! "password" = None.
Proof.
  unfold select_keys. apply map_lookup_filter_None. right. intros x _ Hin.
  cbn [fst] in Hin.
  repeat (apply elem_of_cons in Hin as [Hin|Hin]; [discriminate Hin|]).
  now apply elem_of_nil in Hin.
Qed.

Lemma without_password_lookup (o : gmap string jsval) :
  without_password o !! "password" = None.
Proof. apply lookup_delete_eq. Qed.

Lemma without_password_keeps (o : gmap string jsval) (k : string) :
  k <> "password" -> without_password o !! k = o !! k.
Proof. intros Hk. unfold without_password. now rewrite lookup_delete_ne. Qed.

(** C10. Whatever the body, the caller and the store: a 201 reply of
    [register] and a 200 reply of [login], [profile] or [me] carries a [user]
    object without a [password] key. *)
Theorem success_replies_carry_no_password (b : gmap string jsval) (userId : string) (d : db) :
  (status (register JWT_SECRET bcrypt_hash jwt_sign isEmail normalizeEmail isMobilePhone b d).1
   = 201%Z ->
   user_without_password
     (register JWT_SECRET bcrypt_hash jwt_sign isEmail normalizeEmail isMobilePhone b d).1) /\
  (status (login JWT_SECRET bcrypt_compare jwt_sign isEmail normalizeEmail b d) = 200%Z ->
   user_without_password (login JWT_SECRET bcrypt_compare jwt_sign isEmail normalizeEmail b d)) /\
  (status (profile userId d) = 200%Z -> user_without_password (profile userId d)) /\
  (status (me userId d) = 200%Z -> user_without_password (me userId d)).
Proof.
  split; [|split; [|split]].
  - unfold register. cbv zeta.
    destruct (secret_missing JWT_SECRET); [discriminate|].
    destruct (failed _); [|discriminate].
    destruct (find_user_by_email _ _); [discriminate|].
    destruct (String.eqb (to_text (get b "role")) "AGENT");
      [destruct (find_agent_by_registration _ _); [discriminate|]|];
      intros _; eexists; (split; [reflexivity|apply selected_has_no_password]).
  - unfold login.
    destruct (secret_missing JWT_SECRET); [discriminate|].
    destruct (failed _); [|discriminate].
    destruct (find_user_by_email _ _); [|discriminate].
    destruct (bcrypt_compare _ _); [|discriminate].
    intros _. eexists. split; [reflexivity|apply without_password_lookup].
  - unfold profile. destruct (find_user d userId); [|discriminate].
    intros _. eexists. split; [reflexivity|apply without_password_lookup].
  - unfold me. destruct (find_user d userId); [|discriminate].
    intros _. eexists. split; [reflexivity|apply without_password_lookup].
Qed.

End Passwords.

Lemma success_replies_carry_no_password_witness :
  user_without_password (Auth.profile "u1" Sample.store).
Proof.
  apply (success_replies_carry_no_password (Some "secret") (fun p => p)
           (fun _ _ => true) (fun _ _ _ => "token") (fun _ => true) (fun e => e)
           (fun _ => true) ∅ "u1" Sample.store).
  vm_compute. reflexivity.
Defined.

(** C2, as stated, fails for a negative [limit]: with [limit=-5] the ORM
    takes from the end of the list, [pages] is [ceil(3 / -5) = 0], and the
    requested page 1, although greater than [pages], lists three items. *)
Lemma negative_limit_lists_beyond_pages :
  item_count (Properties.get_properties Sample.store {[ "limit" := "-5" ]}) = Some 3%nat /\
  exists items,
    Properties.get_properties Sample.store {[ "limit" := "-5" ]}
    = Some (Ok200 items 3 (jint 1) (jint 0)).
Proof.
  split; [vm_compute; reflexivity|]. eexists. vm_compute. reflexivity.
Qed.

(** * Further properties of the handlers *)

(** ** Order of the items *)

Section OrderFacts.
Context {R : Type}.
Implicit Types (o : Prisma.ordering R) (l : list R).

Lemma comes_first_total o (x y : R) :
  Prisma.comes_first o x y = false -> Prisma.comes_first o y x = true.
Proof. unfold Prisma.comes_first. destruct (Prisma.ord_dir o); lia. Qed.

Lemma comes_first_trans o (x y z : R) :
  Prisma.comes_first o x y = true -> Prisma.comes_first o y z = true ->
  Prisma.comes_first o x z = true.
Proof. unfold Prisma.comes_first. destruct (Prisma.ord_dir o); lia. Qed.

Lemma insert_sorted_in_order o (x : R) l :
  in_order o l -> in_order o (Prisma.insert_sorted o x l).
Proof.
  unfold in_order. induction 1 as [|y r Hs IH Hall]; simpl.
  - constructor; constructor.
  - destruct (Prisma.comes_first o x y) eqn:E.
    + constructor; [constructor; assumption|].
      constructor; [assumption|].
      eapply List.Forall_impl; [|exact Hall].
      intros z Hz. eapply comes_first_trans; eassumption.
    + constructor; [assumption|].
      apply List.Forall_forall. intros z Hz.
      apply insert_sorted_In in Hz as [->|Hz].
      * now apply comes_first_total.
      * rewrite List.Forall_forall in Hall. now apply Hall.
Qed.

Lemma sort_rows_in_order o l : in_order o (Prisma.sort_rows (Some o) l).
Proof.
  simpl. induction l as [|x l IH]; simpl.
  - constructor.
  - now apply insert_sorted_in_order.
Qed.

Lemma StronglySorted_firstn (P : R -> R -> Prop) (n : nat) l :
  StronglySorted P l -> StronglySorted P (firstn n l).
Proof.
  intros H. revert n. induction H as [|x l Hs IH Hall]; intros [|n]; simpl; try constructor.
  - apply IH.
  - apply List.Forall_forall. intros y Hy. apply firstn_In_incl in Hy.
    rewrite List.Forall_forall in Hall. now apply Hall.
Qed.

Lemma StronglySorted_skipn (P : R -> R -> Prop) (n : nat) l :
  StronglySorted P l -> StronglySorted P (skipn n l).
Proof.
  intros H. revert n. induction H as [|x l Hs IH Hall]; intros [|n]; simpl;
    try constructor; try assumption.
  apply IH.
Qed.

Lemma StronglySorted_snoc (P : R -> R -> Prop) l (x : R) :
  StronglySorted P l -> List.Forall (fun y => P y x) l -> StronglySorted P (l ++ [x]).
Proof.
  induction 1 as [|y l Hs IH Hall]; intros Hx; simpl.
  - constructor; constructor.
  - inversion Hx; subst. constructor.
    + now apply IH.
    + apply List.Forall_app. split; [assumption|]. constructor; [assumption|constructor].
Qed.

Lemma StronglySorted_rev (P : R -> R -> Prop) l :
  StronglySorted P l -> StronglySorted (fun x y => P y x) (rev l).
Proof.
  induction 1 as [|x l Hs IH Hall]; simpl.
  - constructor.
  - apply StronglySorted_snoc; [assumption|].
    apply List.Forall_forall. intros y Hy. apply in_rev in Hy.
    rewrite List.Forall_forall in Hall. now apply Hall.
Qed.

Lemma window_in_order o skip tk l items :
  in_order o l -> Prisma.window skip tk l = Some items -> in_order o items.
Proof.
  unfold in_order, Prisma.window. intros Hs H.
  apply bind_Some in H as (s & _ & H).
  destruct tk as [n|]; [|injection H as <-; assumption].
  destruct (as_int n) as [t|]; [|discriminate].
  destruct (0 <=? t)%Z; injection H as <-.
  - now apply StronglySorted_firstn, StronglySorted_skipn.
  - apply StronglySorted_rev in Hs.
    apply (StronglySorted_skipn _ (Z.to_nat s)) in Hs.
    apply (StronglySorted_firstn _ (Z.to_nat (- t))) in Hs.
    apply StronglySorted_rev in Hs. exact Hs.
Qed.

Lemma findMany_in_order rows (m : R -> bool) skip tk o items :
  Prisma.findMany rows m skip tk (Some o) = Some items -> in_order o items.
Proof.
  unfold Prisma.findMany. apply window_in_order, sort_rows_in_order.
Qed.

End OrderFacts.

Lemma StronglySorted_impl {R : Type} (P Q : R -> R -> Prop) (l : list R) :
  (forall x y, P x y -> Q x y) -> StronglySorted P l -> StronglySorted Q l.
Proof.
  intros HPQ. induction 1 as [|x l Hs IH Hall]; constructor; [assumption|].
  eapply List.Forall_impl; [|exact Hall]. intros y. apply HPQ.
Qed.

Lemma ordered_items
    (e : endpoint) (rows : list (ep_row e)) (params query : gmap string string)
    (items : list (ep_row e)) (total : Z) (page pages : jsnum)
    (o : Prisma.ordering (ep_row e)) :
  handle e rows params query = Some (Ok200 items total page pages) ->
  ep_order e query = Some o ->
  in_order o items.
Proof.
  intros H Ho.
  apply handle_Ok200 in H as (pa & fw & cw & _ & _ & _ & _ & _ & Hf & _).
  rewrite Ho in Hf. now apply findMany_in_order in Hf.
Qed.

(** Every paginated handler hands an order to [findMany]. *)
Lemma order_total (e : endpoint) (query : gmap string string) :
  In e paginated_endpoints -> is_Some (ep_order e query).
Proof.
  unfold paginated_endpoints. intros H.
  repeat (destruct H as [<-|H];
          [ cbn [ep_order
                 Properties.list_endpoint Properties.search_endpoint Properties.admin_endpoint
                 Reviews.all_endpoint Reviews.property_endpoint_v1 Reviews.agent_endpoint_v1
                 Reviews.user_endpoint_v1 Reviews.property_endpoint Reviews.agent_endpoint
                 Reviews.user_endpoint Reviews.admin_all_endpoint Reviews.admin_pending_endpoint
                 Agents.admin_endpoint_v1 Agents.admin_endpoint
                 Contacts.submissions_endpoint];
            unfold Reviews.orderBy, Reviews.newest, Reviews.by_createdAt, Reviews.by_rating,
                   Properties.newest, Agents.newest, Contacts.newest;
            repeat match goal with
                   | |- context [if ?c then _ else _] => destruct c
                   end; eauto
          |]).
  destruct H.
Qed.

(** X1. Every paginated handler hands an order to [findMany], whatever
    the query string, and when it answers 200 the items come in that order:
    each item comes first with respect to every later one, whatever the
    filters, the page and the limit. *)
Theorem listing_follows_the_order
    (e : endpoint) (rows : list (ep_row e)) (params query : gmap string string) :
  In e paginated_endpoints ->
  exists o,
    ep_order e query = Some o /\
    (handle e rows params query = Some Err500 \/
     exists items total page pages,
       handle e rows params query = Some (Ok200 items total page pages) /\
       in_order o items).
Proof.
  intros He. destruct (order_total e query He) as [o Ho].
  exists o. split; [exact Ho|].
  destruct (handle_total e rows params query He) as (pa & w & _ & _ & _ & Hh).
  destruct (respond e rows query w w pa) as [items total page pages|] eqn:E;
    [right|left; exact Hh].
  exists items, total, page, pages. split; [exact Hh|].
  exact (ordered_items e rows params query _ _ _ _ o Hh Ho).
Qed.

Lemma listing_follows_the_order_witness :
  in_order (Prisma.OrderBy (fun r : property_row => p_createdAt r) Prisma.Desc)
    [PropertyRow (Sample.house "p4" 400 "ACTIVE" 7) (Some Sample.ann);
     PropertyRow (Sample.house "p2" 200 "ACTIVE" 5) (Some Sample.ann);
     PropertyRow (Sample.house "p1" 100 "ACTIVE" 4) (Some Sample.ann)].
Proof.
  destruct (listing_follows_the_order Properties.list_endpoint (property_rows Sample.store) ∅
              {[ "bathrooms" := "1.5" ]})
    as (o & Ho & [E|(items & total & page & pages & E & S)]).
  - unfold paginated_endpoints. simpl. tauto.
  - vm_compute in E. discriminate E.
  - cbn [ep_order Properties.list_endpoint] in Ho. unfold Properties.newest in Ho.
    injection Ho as <-.
    assert (E' : handle Properties.list_endpoint (property_rows Sample.store) ∅
                   {[ "bathrooms" := "1.5" ]}
                 = Some (Ok200
                           [PropertyRow (Sample.house "p4" 400 "ACTIVE" 7) (Some Sample.ann);
                            PropertyRow (Sample.house "p2" 200 "ACTIVE" 5) (Some Sample.ann);
                            PropertyRow (Sample.house "p1" 100 "ACTIVE" 4) (Some Sample.ann)]
                           3 (jint 1) (jint 1)))
      by (vm_compute; reflexivity).
    rewrite E' in E. injection E as <- _ _ _. exact S.
Defined.

(** X2. [GET /reviews] orders its items by the key [sortBy] names:
    [oldest] by creation time ascending, [highest] and [lowest] by rating;
    every other value, like an absent one, gives the newest first. *)
Theorem reviews_come_in_the_requested_order
    (d : db) (query : gmap string string)
    (items : list review_row) (total : Z) (page pages : jsnum) :
  Reviews.get_reviews d query = Some (Ok200 items total page pages) ->
  (query !! "sortBy" = Some "oldest" ->
     StronglySorted (fun x y : review_row => (r_createdAt x <= r_createdAt y)%Z) items) /\
  (query !! "sortBy" = Some "highest" ->
     StronglySorted (fun x y : review_row => (r_rating y <= r_rating x)%Z) items) /\
  (query !! "sortBy" = Some "lowest" ->
     StronglySorted (fun x y : review_row => (r_rating x <= r_rating y)%Z) items) /\
  ((forall s, query !! "sortBy" = Some s -> ~ In s ["oldest"; "highest"; "lowest"]) ->
     StronglySorted (fun x y : review_row => (r_createdAt y <= r_createdAt x)%Z) items).
Proof.
  intros H. unfold Reviews.get_reviews in H.
  apply handle_Ok200 in H as (pa & fw & cw & _ & _ & _ & _ & _ & Hf & _).
  assert (S : forall o, ep_order Reviews.all_endpoint query = Some o -> in_order o items).
  { intros o Ho. rewrite Ho in Hf. now apply findMany_in_order in Hf. }
  cbn [ep_order Reviews.all_endpoint] in S. unfold Reviews.orderBy in S.
  assert (L : forall (k : review_row -> Z) (dir : Prisma.direction),
             in_order (Prisma.OrderBy k dir) items ->
             match dir with
             | Prisma.Asc => StronglySorted (fun x y => (k x <= k y)%Z) items
             | Prisma.Desc => StronglySorted (fun x y => (k y <= k x)%Z) items
             end).
  { intros k dir Hs. unfold in_order in Hs.
    destruct dir; (eapply StronglySorted_impl; [|exact Hs]);
      intros x y Hxy; unfold Prisma.comes_first in Hxy; simpl in Hxy; lia. }
  repeat split.
  - intros E. rewrite E in S. exact (L _ _ (S _ eq_refl)).
  - intros E. rewrite E in S. exact (L _ _ (S _ eq_refl)).
  - intros E. rewrite E in S. exact (L _ _ (S _ eq_refl)).
  - intros N. destruct (query !! "sortBy") as [s|] eqn:E; simpl in S.
    + specialize (N s eq_refl). simpl in N.
      destruct (String.eqb s "newest"); [exact (L _ _ (S _ eq_refl))|].
      destruct (String.eqb s "oldest") eqn:E2.
      { apply String.eqb_eq in E2. subst s. exfalso. apply N. auto. }
      destruct (String.eqb s "highest") eqn:E3.
      { apply String.eqb_eq in E3. subst s. exfalso. apply N. auto. }
      destruct (String.eqb s "lowest") eqn:E4.
      { apply String.eqb_eq in E4. subst s. exfalso. apply N. auto. }
      exact (L _ _ (S _ eq_refl)).
    + exact (L _ _ (S _ eq_refl)).
Qed.

Lemma reviews_come_in_the_requested_order_witness :
  StronglySorted (fun x y : review_row => (r_rating y <= r_rating x)%Z)
    [ReviewRow (Sample.rated "r2" 5 6) (Some (Sample.house "p1" 100 "ACTIVE" 4));
     ReviewRow (Sample.rated "r3" 4 7) (Some (Sample.house "p1" 100 "ACTIVE" 4));
     ReviewRow (Sample.rated "r1" 3 5) (Some (Sample.house "p1" 100 "ACTIVE" 4))].
Proof.
  destruct (reviews_come_in_the_requested_order Sample.rated_store
              {[ "sortBy" := "highest" ]}
              [ReviewRow (Sample.rated "r2" 5 6) (Some (Sample.house "p1" 100 "ACTIVE" 4));
               ReviewRow (Sample.rated "r3" 4 7) (Some (Sample.house "p1" 100 "ACTIVE" 4));
               ReviewRow (Sample.rated "r1" 3 5) (Some (Sample.house "p1" 100 "ACTIVE" 4))]
              3 (jint 1) (jint 1))
    as (_ & H & _).
  - vm_compute. reflexivity.
  - apply H. vm_compute. reflexivity.
Defined.

(** ** Pages of a listing *)

Section Pages.
Local Open Scope Z_scope.

Lemma chunks_concat {A : Type} (l : nat) (L : list A) (n : nat) :
  concat (map (fun i => firstn l (skipn (i * l) L)) (seq 0 n)) = firstn (n * l) L.
Proof.
  induction n as [|n IH].
  - reflexivity.
  - rewrite seq_S, map_app, concat_app, IH. simpl.
    rewrite app_nil_r. rewrite take_take_drop. f_equal. lia.
Qed.

Lemma handle_page (e : endpoint) (rows : list (ep_row e))
    (params query q : gmap string string) (p l : Z) (w : ep_where e) :
  In e paginated_endpoints ->
  same_filters query q ->
  numeric_param q "page" 1 p ->
  numeric_param q "limit" (ep_limit e) l ->
  1 <= p -> 1 <= l ->
  ep_fetch_where e params query = Some w ->
  ep_valid e w = true ->
  items_of (handle e rows params q) =
  Some (firstn (Z.to_nat l)
          (skipn (Z.to_nat ((p - 1) * l))
             (Prisma.sort_rows (ep_order e query) (List.filter (ep_matches e w) rows)))).
Proof.
  intros He Hq Hp Hl Hp1 Hl1 Hw Hv.
  destruct (filters_ignore_paging e He params query q Hq) as (Ef & _ & Eo).
  rewrite Ef in Hw.
  rewrite (handle_int e rows params q p l w He Hp Hl Hp1 Hl1 Hw Hv).
  simpl. now rewrite Eo.
Qed.

(** X3. Let the limit be a positive integer below [2^31], let the client
    accept the [where] object, let there be fewer than [2^53] rows and let
    no two rows of the result share the ordering key.  The pages 1, 2, ...
    of a listing, as many as keep the offsets below [2^31],
    requested with the same filters and put one after the other, are the
    ordered result: no row is left out and none comes twice, once the pages
    up to [ceil(total / limit)] are there. *)
Theorem pages_cover_the_listing
    (e : endpoint) (rows : list (ep_row e)) (params query : gmap string string)
    (l : Z) (w : ep_where e) (qs : list (gmap string string)) :
  In e paginated_endpoints ->
  1 <= l < 2 ^ 31 ->
  Z.of_nat (length qs) * l < 2 ^ 31 ->
  Z.of_nat (length rows) < 2 ^ 53 ->
  ep_fetch_where e params query = Some w ->
  ep_valid e w = true ->
  (forall o, ep_order e query = Some o ->
     NoDup (map (Prisma.ord_key o) (List.filter (ep_matches e w) rows))) ->
  (forall (i : nat) q, qs !! i = Some q ->
     same_filters query q /\
     numeric_param q "page" 1 (Z.of_nat (S i)) /\
     numeric_param q "limit" (ep_limit e) l) ->
  ceiling_quotient (Prisma.count rows (ep_matches e w)) l <= Z.of_nat (length qs) ->
  exists pgs,
    mapM (fun q => items_of (handle e rows params q)) qs = Some pgs /\
    concat pgs = Prisma.sort_rows (ep_order e query) (List.filter (ep_matches e w) rows).
Proof.
  intros He [Hl _] _ _ Hw Hv _ Hqs Hn.
  set (L := Prisma.sort_rows (ep_order e query) (List.filter (ep_matches e w) rows)).
  exists (map (fun i => firstn (Z.to_nat l) (skipn (i * Z.to_nat l) L)) (seq 0 (length qs))).
  split.
  - apply mapM_Some. apply Forall2_same_length_lookup. split.
    + now rewrite length_map, length_seq.
    + intros i q pg Hq Hpg.
      rewrite list_lookup_fmap in Hpg.
      assert (Hi : (i < length qs)%nat) by (eapply lookup_lt_Some; eassumption).
      rewrite lookup_seq_lt in Hpg by assumption. simpl in Hpg. injection Hpg as <-.
      destruct (Hqs i q Hq) as (Hs & Hp & Hlim).
      rewrite (handle_page e rows params query q (Z.of_nat (S i)) l w He Hs Hp Hlim)
        by (assumption || lia).
      fold L. do 3 f_equal. lia.
  - rewrite chunks_concat. apply firstn_all2.
    unfold L. rewrite sort_rows_length.
    pose proof (ceiling_quotient_spec (Prisma.count rows (ep_matches e w)) l ltac:(lia)) as [_ Hc].
    unfold Prisma.count in *. nia.
Qed.

(** X4. For an integer page of at least 1 and an integer limit of at
    least 1, with the limit and the offset [(page - 1) * limit] below
    [2^31], fewer than [2^53] rows and a [where] object the client accepts,
    the handler answers 200 and the page holds [limit] items, or what the
    earlier pages have left of [total], or nothing:
    [min(limit, max(0, total - (page - 1) * limit))]. *)
Theorem page_holds_what_is_left
    (e : endpoint) (rows : list (ep_row e)) (params query : gmap string string)
    (p l : Z) (w : ep_where e) :
  In e paginated_endpoints ->
  numeric_param query "page" 1 p ->
  numeric_param query "limit" (ep_limit e) l ->
  1 <= p -> 1 <= l < 2 ^ 31 -> (p - 1) * l < 2 ^ 31 ->
  Z.of_nat (length rows) < 2 ^ 53 ->
  ep_fetch_where e params query = Some w ->
  ep_valid e w = true ->
  exists items total pages,
    handle e rows params query = Some (Ok200 items total (jint p) pages) /\
    Z.of_nat (length items) = Z.min l (Z.max 0 (total - (p - 1) * l)).
Proof.
  intros He Hp Hl Hp1 [Hl1 _] _ _ Hw Hv.
  rewrite (handle_int e rows params query p l w He Hp Hl Hp1 Hl1 Hw Hv).
  eexists _, _, _. split; [reflexivity|].
  rewrite length_firstn, length_skipn, sort_rows_length. unfold Prisma.count.
  assert (0 <= (p - 1) * l) by nia.
  lia.
Qed.

(** X5. With [limit=0], an integer page from 1 to below [2^53], fewer
    than [2^53] rows and a [where] object the client accepts, the response
    is a 200 with no item, the true [total], and
    [pages = Math.ceil(total / 0)]: [Infinity], or [NaN] when nothing
    matches. *)
Theorem zero_limit_gives_an_empty_page
    (e : endpoint) (rows : list (ep_row e)) (params query : gmap string string)
    (p : Z) (w : ep_where e) :
  In e paginated_endpoints ->
  numeric_param query "page" 1 p ->
  numeric_param query "limit" (ep_limit e) 0 ->
  1 <= p < 2 ^ 53 ->
  Z.of_nat (length rows) < 2 ^ 53 ->
  ep_fetch_where e params query = Some w ->
  ep_valid e w = true ->
  handle e rows params query =
  Some (Ok200 [] (Prisma.count rows (ep_matches e w)) (jint p)
          (if Prisma.count rows (ep_matches e w) =? 0 then JNaN else JInf false)).
Proof.
  intros He Hp Hl [Hp1 _] _ Hw Hv.
  unfold handle. rewrite (paginate_int _ _ p 0 Hp Hl). simpl.
  rewrite Hw. rewrite <- (same_where e He), Hw. simpl.
  unfold respond. rewrite Hv. simpl.
  unfold Prisma.findMany. cbn [pa_skip pa_take pa_page pa_limit].
  rewrite window_defined by lia. simpl.
  f_equal. f_equal.
  unfold pages_of, Prisma.count. generalize (length (List.filter (ep_matches e w) rows)).
  intros n. unfold js_div, jint, Qsign. simpl.
  destruct n; reflexivity.
Qed.

End Pages.

Lemma pages_cover_the_listing_witness :
  exists pgs,
    mapM (fun q => items_of (handle Properties.list_endpoint (property_rows Sample.store) ∅ q))
      [ {[ "page" := "1"; "limit" := "2" ]}; {[ "page" := "2"; "limit" := "2" ]} ]
    = Some pgs /\
    concat pgs
    = Prisma.sort_rows (ep_order Properties.list_endpoint {[ "limit" := "2" ]})
        (List.filter (ep_matches Properties.list_endpoint
                        (Properties.set_status "ACTIVE" Properties.no_filter))
                     (property_rows Sample.store)).
Proof.
  apply (pages_cover_the_listing Properties.list_endpoint (property_rows Sample.store) ∅
           {[ "limit" := "2" ]} 2 (Properties.set_status "ACTIVE" Properties.no_filter)
           [ {[ "page" := "1"; "limit" := "2" ]}; {[ "page" := "2"; "limit" := "2" ]} ]).
  - unfold paginated_endpoints. simpl. tauto.
  - lia.
  - simpl. lia.
  - vm_compute. reflexivity.
  - vm_compute. reflexivity.
  - vm_compute. reflexivity.
  - intros o Ho. injection Ho as <-. apply (bool_decide_unpack _). vm_compute. reflexivity.
  - intros [|[|i]] q Hq; [| |discriminate Hq]; injection Hq as <-;
      (split; [|split; vm_compute; reflexivity]);
      intros k Hp Hl; rewrite !lookup_insert_ne by congruence; reflexivity.
  - vm_compute. discriminate.
Defined.

Lemma page_holds_what_is_left_witness :
  exists items total pages,
    handle Properties.list_endpoint (property_rows Sample.store) ∅
      {[ "page" := "2"; "limit" := "2" ]}
    = Some (Ok200 items total (jint 2) pages) /\
    Z.of_nat (length items) = Z.min 2 (Z.max 0 (total - (2 - 1) * 2)).
Proof.
  apply (page_holds_what_is_left Properties.list_endpoint (property_rows Sample.store) ∅
           {[ "page" := "2"; "limit" := "2" ]} 2 2
           (Properties.set_status "ACTIVE" Properties.no_filter)).
  - unfold paginated_endpoints. simpl. tauto.
  - vm_compute. reflexivity.
  - vm_compute. reflexivity.
  - lia.
  - lia.
  - lia.
  - vm_compute. reflexivity.
  - vm_compute. reflexivity.
  - vm_compute. reflexivity.
Defined.

Lemma zero_limit_gives_an_empty_page_witness :
  handle Properties.list_endpoint (property_rows Sample.store) ∅ {[ "limit" := "0" ]} =
  Some (Ok200 []
          (Prisma.count (property_rows Sample.store)
             (ep_matches Properties.list_endpoint
                (Properties.set_status "ACTIVE" Properties.no_filter)))
          (jint 1)
          (if (Prisma.count (property_rows Sample.store)
                 (ep_matches Properties.list_endpoint
                    (Properties.set_status "ACTIVE" Properties.no_filter)) =? 0)%Z
           then JNaN else JInf false)).
Proof.
  apply (zero_limit_gives_an_empty_page Properties.list_endpoint (property_rows Sample.store) ∅
           {[ "limit" := "0" ]} 1 (Properties.set_status "ACTIVE" Properties.no_filter)).
  - unfold paginated_endpoints. simpl. tauto.
  - vm_compute. reflexivity.
  - vm_compute. reflexivity.
  - lia.
  - vm_compute. reflexivity.
  - vm_compute. reflexivity.
  - vm_compute. reflexivity.
Defined.

(** ** The review listings *)

Section ReviewListings.
Import Reviews.

Lemma review_matches_status w (r : review_row) st :
  rw_status w = Some st -> Reviews.matches w r = true -> r_status r = st.
Proof.
  intros Hw Hm. unfold Reviews.matches in Hm. rewrite Hw in Hm. simpl in Hm.
  repeat (apply andb_prop in Hm as [Hm _]).
  now apply String.eqb_eq in Hm.
Qed.

(** X6. [GET /reviews] and, in the current router, the listings per
    property, per agent and per user return approved reviews only. *)
Theorem public_reviews_are_approved
    (d : db) (params query : gmap string string)
    (items : list review_row) (total : Z) (page pages : jsnum) :
  handle all_endpoint (review_rows d) params query = Some (Ok200 items total page pages) \/
  handle property_endpoint (review_rows d) params query = Some (Ok200 items total page pages) \/
  handle agent_endpoint (review_rows d) params query = Some (Ok200 items total page pages) \/
  handle user_endpoint (review_rows d) params query = Some (Ok200 items total page pages) ->
  List.Forall (fun r : review_row => r_status r = "APPROVED") items.
Proof.
  intros H. apply List.Forall_forall. intros x Hx.
  destruct H as [H|[H|[H|H]]];
    apply handle_Ok200 in H as (pa & fw & cw & _ & Hw & _ & _ & _ & Hf & _);
    cbn [ep_fetch_where all_endpoint property_endpoint agent_endpoint user_endpoint] in Hw;
    injection Hw as <-;
    destruct (findMany_sound _ _ _ _ _ _ x Hf Hx) as [_ Hm];
    now apply (review_matches_status _ _ "APPROVED") in Hm.
Qed.

Lemma public_reviews_are_approved_witness :
  List.Forall (fun r : review_row => r_status r = "APPROVED")
    [ReviewRow (Sample.review_of "r1" "APPROVED" 8)
       (Some (Sample.house "p1" 100 "ACTIVE" 4))].
Proof.
  apply (public_reviews_are_approved Sample.store {[ "propertyId" := "p1" ]} ∅ _
           1 (jint 1) (jint 1)).
  right. left. vm_compute. reflexivity.
Defined.

Lemma filter_map_commute {A B : Type} (f : A -> B) (p : B -> bool) (l : list A) :
  List.filter p (map f l) = map f (List.filter (fun x => p (f x)) l).
Proof.
  induction l as [|x l IH]; simpl; [reflexivity|].
  destruct (p (f x)); simpl; now rewrite IH.
Qed.



End ReviewListings.

(** ** The agent listings *)

Section AgentFilters.
Import Agents AgentViews.

Lemma upper_char_idem (c : ascii) : upper_char (upper_char c) = upper_char c.
Proof. destruct c as [[] [] [] [] [] [] [] []]; reflexivity. Qed.

Lemma toUpperCase_idem (s : string) : toUpperCase (toUpperCase s) = toUpperCase s.
Proof.
  unfold toUpperCase. induction s as [|c s IH]; simpl; [reflexivity|].
  now rewrite upper_char_idem, IH.
Qed.

Lemma trim_of_visible (c : ascii) (r : string) :
  is_space c = false -> trim (String c r) <> "".
Proof.
  intros Hc. unfold trim. cbn [trim_start]. rewrite Hc. cbn [trim_end]. rewrite Hc.
  now destruct (trim_end r).
Qed.

Lemma upper_letter_is_visible (c u : ascii) :
  upper_char c = u -> is_upper u = true -> is_space c = false.
Proof.
  intros <-. destruct c as [[] [] [] [] [] [] [] []]; (reflexivity || discriminate).
Qed.

(** The guard of the status filter holds of every spelling of a status. *)
Lemma status_guard (s : string) :
  existsb (String.eqb (toUpperCase s)) validStatuses = true ->
  negb (String.eqb s "") && negb (String.eqb s "all")
  && negb (String.eqb s "undefined") && negb (String.eqb (trim s) "") = true.
Proof.
  intros H.
  assert (N1 : String.eqb s "" = false).
  { apply String.eqb_neq. intros ->. discriminate H. }
  assert (N2 : String.eqb s "all" = false).
  { apply String.eqb_neq. intros ->. discriminate H. }
  assert (N3 : String.eqb s "undefined" = false).
  { apply String.eqb_neq. intros ->. discriminate H. }
  rewrite N1, N2, N3. simpl. rewrite andb_true_r || idtac.
  apply negb_true_iff, String.eqb_neq.
  destruct s as [|c r]; [discriminate N1|].
  apply trim_of_visible.
  unfold validStatuses in H. cbn [existsb] in H.
  repeat (apply orb_prop in H as [H|H]);
    try discriminate H;
    apply String.eqb_eq in H; cbn [toUpperCase map_string] in H;
    injection H as Hc _; exact (upper_letter_is_visible _ _ Hc eq_refl).
Qed.

Lemma admin_where_status_case (s : string) (q : gmap string string) :
  admin_where (<[ "status" := s ]> q) = admin_where (<[ "status" := toUpperCase s ]> q).
Proof.
  unfold admin_where.
  rewrite !lookup_insert_eq, !(lookup_insert_ne _ "status" "search") by discriminate.
  rewrite toUpperCase_idem.
  destruct (existsb (String.eqb (toUpperCase s)) validStatuses) eqn:V.
  - rewrite (status_guard s V).
    rewrite (status_guard (toUpperCase s)) by now rewrite toUpperCase_idem.
    reflexivity.
  - now repeat match goal with |- context [if ?b then _ else _] => destruct b end.
Qed.

Lemma admin_where_status_unknown (s : string) (q : gmap string string) :
  existsb (String.eqb (toUpperCase s)) validStatuses = false ->
  admin_where (<[ "status" := s ]> q) = admin_where (delete "status" q).
Proof.
  intros V. unfold admin_where.
  rewrite lookup_insert_eq, lookup_delete_eq, V.
  rewrite (lookup_insert_ne _ "status" "search"), (lookup_delete_ne _ "status" "search")
    by discriminate.
  now repeat match goal with |- context [if ?b then _ else _] => destruct b end.
Qed.

(** X8. The [status] parameter of [GET /admin/agents] (current router),
    for a value of ASCII characters: the value is compared in upper case, so
    that every spelling of a status filters like the status; a value that is
    no status in upper case filters nothing, like an absent parameter. *)
Theorem agent_status_filter_is_lenient (d : db) (query : gmap string string) (s : string) :
  ascii_only s = true ->
  get_admin_agents d (<[ "status" := s ]> query)
  = get_admin_agents d (<[ "status" := toUpperCase s ]> query) /\
  (~ In (toUpperCase s) validStatuses ->
   get_admin_agents d (<[ "status" := s ]> query)
   = get_admin_agents d (delete "status" query)).
Proof.
  intros _. unfold get_admin_agents. split.
  - f_equal. apply (handle_congr admin_endpoint).
    + now rewrite !paginate_ignores by discriminate.
    + apply admin_where_status_case.
    + apply admin_where_status_case.
    + reflexivity.
  - intros N. f_equal. apply (handle_congr admin_endpoint).
    + now rewrite paginate_ignores by discriminate.
    + apply admin_where_status_unknown.
      destruct (existsb _ _) eqn:V; [|reflexivity].
      exfalso. apply N. apply existsb_exists in V as (x & Hx & E).
      apply String.eqb_eq in E. now rewrite E.
    + apply admin_where_status_unknown.
      destruct (existsb _ _) eqn:V; [|reflexivity].
      exfalso. apply N. apply existsb_exists in V as (x & Hx & E).
      apply String.eqb_eq in E. now rewrite E.
    + reflexivity.
Qed.

Lemma agent_status_filter_is_lenient_witness :
  get_admin_agents Sample.store (<[ "status" := "approved" ]> ∅)
  = get_admin_agents Sample.store (<[ "status" := toUpperCase "approved" ]> ∅) /\
  (~ In (toUpperCase "approved") validStatuses ->
   get_admin_agents Sample.store (<[ "status" := "approved" ]> ∅)
   = get_admin_agents Sample.store (delete "status" ∅)).
Proof.
  apply (agent_status_filter_is_lenient Sample.store ∅ "approved"). reflexivity.
Defined.

Lemma public_filters_keep_the_gate (q : gmap string string) (w0 w : agent_where) :
  public_filters q w0 = Some w ->
  aw_verificationStatus w = aw_verificationStatus w0 /\ aw_isVerified w = aw_isVerified w0.
Proof.
  unfold public_filters, spread. intros H.
  destruct (given q "search"); simpl in H;
    destruct (given_not_all q "location"); simpl in H;
      destruct (given_not_all q "specialty"); simpl in H;
        injection H as <-; split; reflexivity.
Qed.

Lemma mapM_In {A B : Type} (f : A -> option B) (l : list A) (k : list B) (y : B) :
  mapM f l = Some k -> In y k -> exists x, In x l /\ f x = Some y.
Proof.
  intros H. apply mapM_Some in H. induction H as [|x z l k Hxz _ IH]; intros Hy.
  - destruct Hy.
  - destruct Hy as [<-|Hy].
    + exists x. split; [now left|assumption].
    + destruct (IH Hy) as (x' & Hx' & E). exists x'. split; [now right|assumption].
Qed.

(** X9. The public agent listing of the current router returns agents
    whose verification status is [APPROVED] only; [total] is the number of
    agents in the response and [hasMore] is [false]. *)
Theorem public_agents_are_approved
    (d : db) (query : gmap string string)
    (listed : list (gmap string jsval)) (total : Z) (hasMore : bool) :
  get_agents d query = Some (AgentsOk listed total hasMore) ->
  total = Z.of_nat (length listed) /\ hasMore = false /\
  List.Forall (fun o => o !! "verificationStatus" = Some (VStr "APPROVED")) listed.
Proof.
  unfold get_agents, public_listing. intros H.
  apply bind_Some in H as (w & Hw & H). apply (inj Some) in H.
  destruct (Prisma.findMany (agent_rows d) (matches w) None None newest)
    as [rows|] eqn:Hf; [|discriminate].
  destruct (mapM transform_public rows) as [ts|] eqn:Hm; [|discriminate].
  injection H as <- <- <-.
  split; [now rewrite length_map|]. split; [reflexivity|].
  apply List.Forall_forall. intros o Ho.
  apply in_map_iff in Ho as (t & <- & Ht).
  destruct (mapM_In _ _ _ _ Hm Ht) as (r & Hr & Et).
  destruct (findMany_sound _ _ _ _ _ _ r Hf Hr) as [_ Hmatch].
  apply public_filters_keep_the_gate in Hw as [Hs _]. cbn in Hs.
  unfold Agents.matches in Hmatch. rewrite Hs in Hmatch.
  do 3 (apply andb_prop in Hmatch as [Hmatch _]).
  apply andb_prop in Hmatch as [_ Hmatch]. simpl in Hmatch.
  apply String.eqb_eq in Hmatch.
  unfold transform_public in Et. destruct (ar_user r) as [u|]; [|discriminate].
  simpl in Et. injection Et as <-.
  apply json_object_lookup; [|reflexivity].
  rewrite Hmatch. reflexivity.
Qed.

Lemma public_agents_are_approved_witness :
  exists listed,
    get_agents Sample.store ∅ = Some (AgentsOk listed 1 false) /\
    1%Z = Z.of_nat (length listed) /\ false = false /\
    List.Forall (fun o => o !! "verificationStatus" = Some (VStr "APPROVED")) listed.
Proof.
  assert (E : exists listed, get_agents Sample.store ∅ = Some (AgentsOk listed 1 false)).
  { eexists. vm_compute. reflexivity. }
  destruct E as [listed E]. exists listed. split; [exact E|].
  exact (public_agents_are_approved Sample.store ∅ listed 1 false E).
Defined.

End AgentFilters.

(** ** Favorites: reads and writes together *)

Section FavoriteRoundTrip.
Import Favorites FavoriteReads.

Lemma find_snoc {A : Type} (p : A -> bool) (l : list A) (x : A) :
  List.find p (l ++ [x]) =
  match List.find p l with
  | Some y => Some y
  | None => if p x then Some x else None
  end.
Proof.
  induction l as [|y l IH]; simpl; [reflexivity|].
  now destruct (p y).
Qed.

Lemma filter_none {A : Type} (p : A -> bool) (l : list A) :
  List.find p l = None -> List.filter (fun x => negb (p x)) l = l.
Proof.
  induction l as [|y l IH]; simpl; [reflexivity|].
  destruct (p y); [discriminate|]. intros H. simpl. now rewrite IH.
Qed.

Lemma find_filter_out {A : Type} (p : A -> bool) (l : list A) :
  List.find p (List.filter (fun x => negb (p x)) l) = None.
Proof.
  induction l as [|y l IH]; simpl; [reflexivity|].
  destruct (p y) eqn:E; simpl; [assumption|]. now rewrite E.
Qed.

(** The successful branch of [POST /favorites]. *)
Lemma post_favorite_created (userId : string) (b : gmap string jsval) (d : db) :
  status (post_favorite userId b d).1 = 201%Z ->
  exists propertyId property,
    b !! "propertyId" = Some (VStr propertyId) /\
    find_property d propertyId = Some property /\
    find_favorite d userId propertyId = None /\
    post_favorite userId b d =
    (Reply 201 {[ "message" := VStr "Property added to favorites";
                  "favorite" := VObj (<[ "property" := VObj (property_object property) ]>
                                        (favorite_object
                                           (Favorite (fresh_id "f" d) userId propertyId (now d)))) ]},
     add_favorite (Favorite (fresh_id "f" d) userId propertyId (now d)) d).
Proof.
  unfold post_favorite, get. intros H.
  destruct (b !! "propertyId") as [v|] eqn:E; simpl in *; [|discriminate H].
  destruct (truthy v); simpl in *; [|discriminate H].
  destruct v as [| | | |s| | |]; try discriminate H.
  destruct (find_property d s) as [p|] eqn:Ep; [|discriminate H].
  destruct (find_favorite d userId s) eqn:Ef; [discriminate H|].
  exists s, p. repeat split; reflexivity || assumption.
Qed.

(** X10. When [POST /favorites] answers 201, the property was not a
    favorite of the caller before and is one after, under the identifier of
    the reply, as [GET /favorites/check/:propertyId] tells; the following
    [DELETE /favorites/:propertyId] answers 200 and leaves the favorites
    table as it was before the POST. *)
Theorem favorite_round_trip (userId : string) (b : gmap string jsval) (d : db) :
  status (post_favorite userId b d).1 = 201%Z ->
  exists propertyId favoriteId,
    b !! "propertyId" = Some (VStr propertyId) /\
    entity_id "favorite" (post_favorite userId b d).1 = Some favoriteId /\
    check_favorite userId propertyId d = (false, None) /\
    check_favorite userId propertyId (post_favorite userId b d).2 = (true, Some favoriteId) /\
    (delete_favorite userId propertyId (post_favorite userId b d).2).1
    = message_reply 200 "Property removed from favorites" /\
    favorites (delete_favorite userId propertyId (post_favorite userId b d).2).2
    = favorites d /\
    check_favorite userId propertyId
      (delete_favorite userId propertyId (post_favorite userId b d).2).2 = (false, None).
Proof.
  intros H.
  destruct (post_favorite_created userId b d H) as (pid & p & Hb & Hp & Hf & ->).
  set (f := Favorite (fresh_id "f" d) userId pid (now d)).
  assert (F1 : find_favorite (add_favorite f d) userId pid = Some f).
  { unfold find_favorite in *. cbn [favorites add_favorite]. rewrite find_snoc, Hf.
    cbn [f_userId f_propertyId f]. now rewrite !String.eqb_refl. }
  exists pid, (fresh_id "f" d). cbn [fst snd].
  split; [assumption|]. split.
  { unfold entity_id. cbn [body]. rewrite lookup_insert_ne by discriminate.
    rewrite lookup_singleton_eq. rewrite lookup_insert_ne by discriminate.
    reflexivity. }
  split; [unfold check_favorite; now rewrite Hf|].
  split; [unfold check_favorite; now rewrite F1|].
  unfold delete_favorite. rewrite F1. cbn [fst snd].
  split; [reflexivity|]. split.
  - cbn [favorites remove_favorite add_favorite].
    rewrite List.filter_app. cbn [List.filter f_userId f_propertyId f].
    rewrite !String.eqb_refl. cbn [andb negb]. rewrite app_nil_r.
    apply (filter_none (fun f => String.eqb (f_userId f) userId
                                 && String.eqb (f_propertyId f) pid)).
    exact Hf.
  - unfold check_favorite, find_favorite. cbn [favorites remove_favorite].
    now rewrite (find_filter_out (fun f => String.eqb (f_userId f) userId
                                         && String.eqb (f_propertyId f) pid)).
Qed.

Lemma favorite_round_trip_witness :
  exists propertyId favoriteId,
    ({[ "propertyId" := VStr "p2" ]} : gmap string jsval) !! "propertyId"
    = Some (VStr propertyId) /\
    entity_id "favorite" (post_favorite "u2" {[ "propertyId" := VStr "p2" ]} Sample.store).1
    = Some favoriteId /\
    check_favorite "u2" propertyId Sample.store = (false, None) /\
    check_favorite "u2" propertyId
      (post_favorite "u2" {[ "propertyId" := VStr "p2" ]} Sample.store).2
    = (true, Some favoriteId) /\
    (delete_favorite "u2" propertyId
       (post_favorite "u2" {[ "propertyId" := VStr "p2" ]} Sample.store).2).1
    = message_reply 200 "Property removed from favorites" /\
    favorites (delete_favorite "u2" propertyId
                 (post_favorite "u2" {[ "propertyId" := VStr "p2" ]} Sample.store).2).2
    = favorites Sample.store /\
    check_favorite "u2" propertyId
      (delete_favorite "u2" propertyId
         (post_favorite "u2" {[ "propertyId" := VStr "p2" ]} Sample.store).2).2
    = (false, None).
Proof.
  apply (favorite_round_trip "u2" {[ "propertyId" := VStr "p2" ]} Sample.store).
  vm_compute. reflexivity.
Defined.

Lemma find_favorite_None_notin (d : db) (u p : string) :
  find_favorite d u p = None ->
  ~ In (u, p) (map (fun f => (f_userId f, f_propertyId f)) (favorites d)).
Proof.
  unfold find_favorite. intros H Hin.
  apply in_map_iff in Hin as (f & E & Hf). injection E as <- <-.
  apply (List.find_none _ _ H) in Hf. now rewrite !String.eqb_refl in Hf.
Qed.

Lemma NoDup_map_filter {A B : Type} (g : A -> B) (p : A -> bool) (l : list A) :
  NoDup (map g l) -> NoDup (map g (List.filter p l)).
Proof.
  induction l as [|x l IH]; simpl; [trivial|].
  intros H. apply NoDup_cons in H as [Hx Hl].
  destruct (p x); simpl; [|now apply IH].
  apply NoDup_cons. split; [|now apply IH].
  intros Hin. apply Hx. apply list_elem_of_In in Hin. apply list_elem_of_In.
  apply in_map_iff in Hin as (y & E & Hy).
  apply filter_In in Hy as [Hy _]. apply in_map_iff. now exists y.
Qed.

(** X11. [POST /favorites] and [DELETE /favorites/:propertyId] keep the
    favorites table free of duplicates: at most one record per user and
    property. *)
Theorem favorites_stay_unique (userId propertyId : string) (b : gmap string jsval) (d : db) :
  one_favorite_per_pair d ->
  one_favorite_per_pair (post_favorite userId b d).2 /\
  one_favorite_per_pair (delete_favorite userId propertyId d).2.
Proof.
  unfold one_favorite_per_pair. intros H. split.
  - destruct (Z.eq_dec (status (post_favorite userId b d).1) 201%Z) as [E|E].
    + destruct (post_favorite_created userId b d E) as (pid & p & _ & _ & Hf & ->).
      cbn [snd favorites add_favorite]. rewrite map_app. cbn [map f_userId f_propertyId].
      apply NoDup_app. split; [exact H|]. split.
      * intros x Hx Hin. apply list_elem_of_singleton in Hin as ->.
        apply list_elem_of_In in Hx. now apply find_favorite_None_notin in Hf.
      * apply NoDup_singleton.
    + replace (post_favorite userId b d).2 with d; [exact H|].
      revert E. unfold post_favorite.
      destruct (negb (truthy (get b "propertyId"))); [reflexivity|].
      destruct (get b "propertyId") as [| | | |s| | |]; try reflexivity.
      destruct (find_property d s); [|reflexivity].
      destruct (find_favorite d userId s); [reflexivity|].
      intros E. now contradiction E.
  - unfold delete_favorite. destruct (find_favorite d userId propertyId); [|exact H].
    cbn [snd favorites remove_favorite]. now apply NoDup_map_filter.
Qed.

Lemma favorites_stay_unique_witness :
  one_favorite_per_pair (post_favorite "u2" {[ "propertyId" := VStr "p2" ]} Sample.store).2 /\
  one_favorite_per_pair (delete_favorite "u2" "p1" Sample.store).2.
Proof.
  apply (favorites_stay_unique "u2" "p1" {[ "propertyId" := VStr "p2" ]} Sample.store).
  unfold one_favorite_per_pair. cbn. apply NoDup_singleton.
Defined.

(** X12. The [total] of [GET /favorites] after a [POST /favorites]: one
    more for the caller when the POST answered 201, unchanged for every
    other user and after every other answer. *)
Theorem favorites_total_follows_the_posts (userId other : string) (b : gmap string jsval) (d : db) :
  (get_favorites other (post_favorite userId b d).2).2 =
  ((get_favorites other d).2 +
   (if (status (post_favorite userId b d).1 =? 201)%Z && String.eqb userId other
    then 1 else 0))%Z.
Proof.
  unfold get_favorites. cbn [snd]. rewrite !length_map, !sort_rows_length.
  destruct (Z.eq_dec (status (post_favorite userId b d).1) 201%Z) as [E|E].
  - rewrite E. cbn [Z.eqb Pos.eqb andb].
    destruct (post_favorite_created userId b d E) as (pid & p & _ & _ & Hf & ->).
    cbn [snd favorites add_favorite]. rewrite List.filter_app, length_app.
    cbn [List.filter f_userId]. destruct (String.eqb userId other); cbn [length]; lia.
  - replace (post_favorite userId b d).2 with d.
    + apply Z.eqb_neq in E. rewrite E. cbn [andb]. lia.
    + revert E. unfold post_favorite.
      destruct (negb (truthy (get b "propertyId"))); [reflexivity|].
      destruct (get b "propertyId") as [| | | |s| | |]; try reflexivity.
      destruct (find_property d s); [|reflexivity].
      destruct (find_favorite d userId s); [reflexivity|].
      intros E. now contradiction E.
Qed.

End FavoriteRoundTrip.

(** ** The life of a review *)

Section ReviewLifeCycle.
Import Reviews ReviewWrites ReviewModeration.
Variable jwt_verify : string -> option string.
Variable undefined_alternative : bool.

Ltac split_reply H :=
  repeat match type of H with
         | context [match ?x with _ => _ end] =>
             lazymatch x with
             | context [match _ with _ => _ end] => fail
             | _ => destruct x eqn:?; try discriminate H
             end
         end.

Ltac reuse_equations :=
  repeat match goal with
         | E : ?x = _ |- context [?x] => rewrite E
         end.

(** The successful branch of [POST /reviews], current version. *)
Lemma post_review_created (r : request) (d : db) :
  status (post_review jwt_verify undefined_alternative r d).1 = 201%Z ->
  exists review,
    post_review jwt_verify undefined_alternative r d
    = (Reply 201 {[ "review" := VObj (review_object review) ]}, add_review review d) /\
    r_status review = "PENDING" /\ r_id review = fresh_id "r" d.
Proof.
  unfold post_review. intros H. cbv zeta in *.
  split_reply H.
  all: eexists; split; [reflexivity|split; reflexivity].
Qed.

Lemma failed_nil_cons (k : string) (b : bool) (rest : list (string * bool)) :
  failed ((k, b) :: rest) = [] -> b = true /\ failed rest = [].
Proof. rewrite failed_cons. destruct b; [now split|discriminate]. Qed.

Lemma given_target (v : jsval) :
  optional is_string v = true -> truthy v = true -> exists s, column v = Some s.
Proof.
  destruct v as [| | | |s| | |]; try discriminate.
  intros _ T. simpl in *. destruct (String.eqb s ""); [discriminate|]. now exists s.
Qed.

Lemma target_clause_own (col : review -> option string) (x : review) (s : string) :
  col x = Some s -> target_clause undefined_alternative col (Some s) x = true.
Proof. intros E. unfold target_clause, opt_is. rewrite E. apply String.eqb_refl. Qed.

(** X13. A review request that was answered 201 is refused when it is
    sent again: 400, and the store does not change.  (In the first version
    the property of the first request is a stored one.) *)
Theorem second_review_is_refused (r : request) (d : db) :
  tokens_name_users jwt_verify d ->
  ((exists p, find_property d (to_text (get (req_body r) "propertyId")) = Some p) ->
   status (post_review_v1 jwt_verify r d).1 = 201%Z ->
   post_review_v1 jwt_verify r (post_review_v1 jwt_verify r d).2
   = (message_reply 400 "You have already reviewed this property",
      (post_review_v1 jwt_verify r d).2)) /\
  (status (post_review jwt_verify undefined_alternative r d).1 = 201%Z ->
   post_review jwt_verify undefined_alternative r
     (post_review jwt_verify undefined_alternative r d).2
   = (message_reply 400 "You have already reviewed this property or agent",
      (post_review jwt_verify undefined_alternative r d).2)).
Proof.
  intros _. split.
  - intros _ H. unfold post_review_v1 in *. cbv zeta in *.
    split_reply H. cbn [snd reviews add_review].
    rewrite find_snoc. reuse_equations.
    cbn [r_userId r_propertyId opt_is]. now rewrite !String.eqb_refl.
  - intros H. unfold post_review, find_property, find_agent in *. cbv zeta in *.
    destruct (failed _) eqn:V; [|discriminate H].
    apply failed_nil_cons in V as [_ V]. apply failed_nil_cons in V as [_ V].
    apply failed_nil_cons in V as [Vp V]. apply failed_nil_cons in V as [Va _].
    split_reply H. cbn [snd reviews properties agents add_review].
    reuse_equations.
    rewrite find_snoc. reuse_equations.
    cbn [r_userId r_propertyId r_agentId]. rewrite String.eqb_refl. cbn [andb].
    destruct (truthy (get (req_body r) "propertyId")) eqn:Tp.
    + destruct (given_target _ Vp Tp) as [t Et]. rewrite Et.
      rewrite (target_clause_own (fun x => r_propertyId x)) by reflexivity.
      reflexivity.
    + destruct (truthy (get (req_body r) "agentId")) eqn:Ta; [|discriminate Heqb].
      destruct (given_target _ Va Ta) as [t Et]. rewrite Et.
      rewrite (target_clause_own (fun x => r_agentId x)) by reflexivity.
      rewrite orb_true_r. reflexivity.
Qed.

Lemma window_defined_anywhere {R : Type} (skip tk : option jsnum) (l l' : list R) :
  Prisma.window skip tk l = None -> Prisma.window skip tk l' = None.
Proof.
  unfold Prisma.window.
  destruct (match skip with
            | Some n => match as_int n with
                        | Some z => if (0 <=? z)%Z then Some z else None
                        | None => None
                        end
            | None => Some 0%Z
            end) as [z|]; simpl; [|reflexivity].
  destruct tk as [n|]; [|discriminate].
  destruct (as_int n) as [t|]; [|reflexivity].
  destruct (0 <=? t)%Z; discriminate.
Qed.

(** A row the filter rejects changes nothing in a listing. *)
Lemma handle_rejected_row (e : endpoint) (rows : list (ep_row e)) (x : ep_row e)
    (params query : gmap string string) :
  (forall w, ep_fetch_where e params query = Some w -> ep_matches e w x = false) ->
  (forall w, ep_count_where e params query = Some w -> ep_matches e w x = false) ->
  handle e (rows ++ [x]) params query = handle e rows params query.
Proof.
  intros Hf Hc. unfold handle.
  destruct (paginate _ _) as [pa|]; [|reflexivity]. simpl.
  destruct (ep_fetch_where e params query) as [fw|]; [|reflexivity]. simpl.
  destruct (ep_count_where e params query) as [cw|]; [|reflexivity]. simpl.
  unfold respond, Prisma.findMany, Prisma.count.
  rewrite !List.filter_app. cbn [List.filter].
  rewrite (Hf fw eq_refl), (Hc cw eq_refl). now rewrite !app_nil_r.
Qed.

(** A row the count accepts adds one to [total]. *)
Lemma total_with_row (e : endpoint) (rows : list (ep_row e)) (x : ep_row e)
    (params query : gmap string string) (cw : ep_where e) :
  ep_count_where e params query = Some cw -> ep_matches e cw x = true ->
  total_of (handle e (rows ++ [x]) params query)
  = Z.succ <$> total_of (handle e rows params query).
Proof.
  intros Hc Hm. unfold handle.
  destruct (paginate _ _) as [pa|]; [|reflexivity]. simpl.
  destruct (ep_fetch_where e params query) as [fw|]; [|reflexivity]. simpl.
  rewrite Hc. simpl. unfold respond.
  destruct (ep_valid e fw && ep_valid e cw); [|reflexivity].
  unfold Prisma.findMany.
  destruct (Prisma.window _ _ (Prisma.sort_rows _ (List.filter _ rows))) as [l1|] eqn:W1.
  - destruct (Prisma.window _ _ (Prisma.sort_rows _ (List.filter _ (rows ++ [x]))))
      as [l2|] eqn:W2.
    + simpl. f_equal. unfold Prisma.count. rewrite List.filter_app, length_app.
      cbn [List.filter]. rewrite Hm. cbn [length]. lia.
    + apply (window_defined_anywhere _ _ _
               (Prisma.sort_rows (ep_order e query) (List.filter (ep_matches e fw) rows)))
        in W2.
      rewrite W2 in W1. discriminate W1.
  - apply (window_defined_anywhere _ _ _
             (Prisma.sort_rows (ep_order e query)
                (List.filter (ep_matches e fw) (rows ++ [x])))) in W1.
    now rewrite W1.
Qed.

Lemma review_rows_add (rv : review) (d : db) :
  review_rows (add_review rv d)
  = (review_rows d ++ [ReviewRow rv (r_propertyId rv ≫= find_property d)])%list.
Proof. unfold review_rows. cbn [reviews add_review]. now rewrite map_app. Qed.

(** X14. A review that [POST /reviews] has just created is [PENDING]:
    [GET /reviews] answers as before, and the [total] of the moderation
    queue is one more. *)
Theorem posted_review_awaits_moderation (r : request) (d : db) (query : gmap string string) :
  tokens_name_users jwt_verify d ->
  status (post_review jwt_verify undefined_alternative r d).1 = 201%Z ->
  (exists review,
     reviews (post_review jwt_verify undefined_alternative r d).2
     = (reviews d ++ [review])%list /\
     r_status review = "PENDING") /\
  get_reviews (post_review jwt_verify undefined_alternative r d).2 query
  = get_reviews d query /\
  total_of (get_pending_reviews (post_review jwt_verify undefined_alternative r d).2 query)
  = Z.succ <$> total_of (get_pending_reviews d query).
Proof.
  intros _ H. destruct (post_review_created r d H) as (rv & -> & Hs & _).
  cbn [snd]. split; [exists rv; split; [reflexivity|exact Hs]|].
  unfold get_reviews, get_pending_reviews. rewrite review_rows_add. split.
  - apply handle_rejected_row; intros w Hw; injection Hw as <-;
      cbn [ep_matches all_endpoint]; unfold matches; cbn; now rewrite Hs.
  - apply (total_with_row admin_pending_endpoint _ _ _ _ pending); [reflexivity|].
    cbn [ep_matches admin_pending_endpoint]. unfold matches. cbn. now rewrite Hs.
Qed.

Lemma find_map_update {A : Type} (key : A -> string) (id : string) (g : A -> A) (l : list A) :
  (forall x, key (g x) = key x) ->
  List.find (fun x => String.eqb (key x) id)
    (map (fun x => if String.eqb (key x) id then g x else x) l)
  = g <$> List.find (fun x => String.eqb (key x) id) l.
Proof.
  intros Hk. induction l as [|x l IH]; simpl; [reflexivity|].
  destruct (String.eqb (key x) id) eqn:E.
  - now rewrite Hk, E.
  - now rewrite E.
Qed.

(** X15. Moderation of a review: apart from the time of the last write, a
    rejection after an approval leaves the reviews as the rejection alone,
    and conversely, and a repeated approval as a single one; after two
    decisions the review has the status of the second and is stamped with
    its time, one tick after the first; and the routes of the admin router
    leave the store as the routes of the reviews router do. *)
Theorem last_review_decision_wins (id : string) (d : db) :
  map without_updatedAt (reviews (reject_review id (approve_review id d).2).2)
  = map without_updatedAt (reviews (reject_review id d).2) /\
  map without_updatedAt (reviews (approve_review id (reject_review id d).2).2)
  = map without_updatedAt (reviews (approve_review id d).2) /\
  map without_updatedAt (reviews (approve_review id (approve_review id d).2).2)
  = map without_updatedAt (reviews (approve_review id d).2) /\
  (forall r, In r (reviews (reject_review id (approve_review id d).2).2) -> r_id r = id ->
     r_status r = "REJECTED" /\ r_updatedAt r = (now d + 1)%Z) /\
  (forall r, In r (reviews (approve_review id (reject_review id d).2).2) -> r_id r = id ->
     r_status r = "APPROVED" /\ r_updatedAt r = (now d + 1)%Z) /\
  (forall r, In r (reviews (approve_review id d).2) -> r_id r = id ->
     r_status r = "APPROVED" /\ r_updatedAt r = now d) /\
  (admin_approve_review id d).2 = (approve_review id d).2 /\
  (admin_reject_review id d).2 = (reject_review id d).2.
Proof.
  assert (K : forall st1 st2 f1 f2,
             map without_updatedAt (reviews (moderate st2 f2 id (moderate st1 f1 id d).2).2)
             = map without_updatedAt (reviews (moderate st2 f2 id d).2) /\
             forall r, In r (reviews (moderate st2 f2 id (moderate st1 f1 id d).2).2) ->
                       r_id r = id ->
                       r_status r = st2 /\ r_updatedAt r = (now d + 1)%Z).
  { intros st1 st2 f1 f2. unfold moderate at 2 3 5.
    destruct (find_review d id) as [rv|] eqn:E.
    - cbn [snd]. unfold moderate, find_review. cbn [reviews update_review_status].
      rewrite (find_map_update r_id id (set_review_status st1 (now d))) by reflexivity.
      unfold find_review in E. rewrite E. cbn [fmap option_fmap option_map snd].
      cbn [reviews update_review_status]. split.
      + rewrite !List.map_map. apply List.map_ext. intros x.
        destruct (String.eqb (r_id x) id) eqn:Ex.
        * cbn [set_review_status r_id]. now rewrite Ex.
        * now rewrite Ex.
      + intros r Hr Hid. rewrite List.map_map in Hr.
        apply in_map_iff in Hr as (x & <- & _).
        destruct (String.eqb (r_id x) id) eqn:Ex.
        * cbn [set_review_status r_id] in *. rewrite Ex.
          cbn [r_status r_updatedAt]. split; [reflexivity|].
          unfold now, update_review_status, tick. cbn [db_clock set_review_status r_updatedAt]. lia.
        * rewrite Ex in Hid. rewrite Ex in *.
          apply String.eqb_neq in Ex. contradiction.
    - cbn [snd]. unfold moderate. rewrite E. split; [reflexivity|].
      cbn [snd]. intros r Hr Hid. exfalso. unfold find_review in E.
      apply (find_none _ _ E) in Hr. rewrite Hid, String.eqb_refl in Hr. discriminate. }
  split; [apply K|]. split; [apply K|]. split; [apply K|].
  split; [apply K|]. split; [apply K|]. split; [|split].
  - unfold approve_review, moderate. intros r Hr Hid.
    destruct (find_review d id) as [rv|] eqn:E; cbn [snd] in Hr.
    + cbn [reviews update_review_status] in Hr.
      apply in_map_iff in Hr as (x & <- & _).
      destruct (String.eqb (r_id x) id) eqn:Ex.
      * now cbn.
      * apply String.eqb_neq in Ex. contradiction.
    + exfalso. unfold find_review in E.
      apply (find_none _ _ E) in Hr. rewrite Hid, String.eqb_refl in Hr. discriminate.
  - unfold admin_approve_review, approve_review, admin_moderate, moderate.
    now destruct (find_review d id).
  - unfold admin_reject_review, reject_review, admin_moderate, moderate.
    now destruct (find_review d id).
Qed.

(** On the sample store: the approval of the pending review [r2] at time 11
    and its rejection at time 12. *)
Example two_decisions_on_a_review :
  reviews (reject_review "r2" (approve_review "r2" Sample.store).2).2
  = [Sample.review_of "r1" "APPROVED" 8;
     Review "r2" 4 "A very pleasant visit" (Some "p1") None "u2" "REJECTED" 9 12] /\
  reviews (reject_review "r2" Sample.store).2
  = [Sample.review_of "r1" "APPROVED" 8;
     Review "r2" 4 "A very pleasant visit" (Some "p1") None "u2" "REJECTED" 9 11].
Proof. split; vm_compute; reflexivity. Qed.

Lemma filter_length_map_mono {A : Type} (P : A -> bool) (g : A -> A) (l : list A) :
  (forall x, P x = true -> P (g x) = true) ->
  (length (List.filter P l) <= length (List.filter P (map g l)))%nat.
Proof.
  intros HP. induction l as [|x l IH]; simpl; [lia|].
  destruct (P x) eqn:E.
  - rewrite (HP x E). simpl. lia.
  - destruct (P (g x)); simpl; lia.
Qed.

Lemma approved_count (d : db) :
  Prisma.count (review_rows d) (matches approved)
  = Z.of_nat (length (List.filter (fun x => String.eqb (r_status x) "APPROVED") (reviews d))).
Proof.
  unfold Prisma.count, review_rows. rewrite filter_map_commute, length_map.
  do 2 f_equal. apply List.filter_ext. intros x. unfold matches. cbn.
  now rewrite !andb_true_r.
Qed.

Lemma get_reviews_total (d : db) :
  total_of (get_reviews d ∅) = Some (Prisma.count (review_rows d) (matches approved)).
Proof.
  unfold get_reviews.
  rewrite (handle_int all_endpoint (review_rows d) ∅ ∅ 1 20 approved);
    [reflexivity | simpl; tauto | reflexivity | reflexivity | lia | lia
     | reflexivity | reflexivity ].
Qed.

(** X16. A review that is posted and then approved under the identifier
    of the 201 reply is counted by [GET /reviews]: the approval answers 200
    and [total] is at least one more than before the POST. *)
Theorem approved_review_reaches_the_listing (r : request) (d : db) :
  tokens_name_users jwt_verify d ->
  status (post_review jwt_verify undefined_alternative r d).1 = 201%Z ->
  exists id t t',
    entity_id "review" (post_review jwt_verify undefined_alternative r d).1 = Some id /\
    status (approve_review id (post_review jwt_verify undefined_alternative r d).2).1
    = 200%Z /\
    total_of (get_reviews d ∅) = Some t /\
    total_of (get_reviews
                (approve_review id (post_review jwt_verify undefined_alternative r d).2).2 ∅)
    = Some t' /\
    (t + 1 <= t')%Z.
Proof.
  intros _ H. destruct (post_review_created r d H) as (rv & -> & Hs & Hid).
  cbn [fst snd]. eexists (r_id rv), _, _.
  assert (F : find_review (add_review rv d) (r_id rv) <> None).
  { unfold find_review. cbn [reviews add_review]. rewrite find_snoc.
    destruct (List.find _ (reviews d)); [discriminate|]. now rewrite String.eqb_refl. }
  split.
  { unfold entity_id. cbn [body]. rewrite lookup_singleton_eq.
    unfold review_object. cbn. reflexivity. }
  unfold approve_review, moderate.
  destruct (find_review (add_review rv d) (r_id rv)) as [x|]; [|now contradiction F].
  cbn [fst snd status]. split; [reflexivity|].
  rewrite !get_reviews_total. split; [reflexivity|]. split; [reflexivity|].
  rewrite !approved_count. cbn [reviews update_review_status add_review].
  rewrite map_app, List.filter_app, length_app.
  cbn [map List.filter]. rewrite String.eqb_refl. cbn [set_review_status r_status].
  cbn [String.eqb Ascii.eqb Bool.eqb length].
  pose proof (filter_length_map_mono (fun x => String.eqb (r_status x) "APPROVED")
                (fun x => if String.eqb (r_id x) (r_id rv)
                          then set_review_status "APPROVED" (now (add_review rv d)) x else x)
                (reviews d)) as M.
  assert (M' : (length (List.filter (fun x => String.eqb (r_status x) "APPROVED") (reviews d))
                 <= length (List.filter (fun x => String.eqb (r_status x) "APPROVED")
                              (map (fun x => if String.eqb (r_id x) (r_id rv)
                                             then set_review_status "APPROVED" (now (add_review rv d)) x else x)
                                   (reviews d))))%nat).
  { apply M. intros y Hy. destruct (String.eqb (r_id y) (r_id rv)); [reflexivity|exact Hy]. }
  lia.
Qed.

End ReviewLifeCycle.

Lemma bobs_token_names_a_user : tokens_name_users Requests.bobs_token Sample.store.
Proof.
  intros token userId E. injection E as <-. eexists. vm_compute. reflexivity.
Qed.

Lemma second_review_is_refused_witness :
  ReviewWrites.post_review Requests.bobs_token false Requests.review_of_p2
    (ReviewWrites.post_review Requests.bobs_token false Requests.review_of_p2 Sample.store).2
  = (message_reply 400 "You have already reviewed this property or agent",
     (ReviewWrites.post_review Requests.bobs_token false Requests.review_of_p2 Sample.store).2).
Proof.
  destruct (second_review_is_refused Requests.bobs_token false Requests.review_of_p2
              Sample.store bobs_token_names_a_user) as [_ H].
  apply H. vm_compute. reflexivity.
Defined.

Lemma posted_review_awaits_moderation_witness :
  (exists review,
     reviews (ReviewWrites.post_review Requests.bobs_token false Requests.review_of_p2
                Sample.store).2
     = (reviews Sample.store ++ [review])%list /\
     r_status review = "PENDING") /\
  Reviews.get_reviews
    (ReviewWrites.post_review Requests.bobs_token false Requests.review_of_p2 Sample.store).2 ∅
  = Reviews.get_reviews Sample.store ∅ /\
  total_of (Reviews.get_pending_reviews
              (ReviewWrites.post_review Requests.bobs_token false Requests.review_of_p2
                 Sample.store).2 ∅)
  = Z.succ <$> total_of (Reviews.get_pending_reviews Sample.store ∅).
Proof.
  apply (posted_review_awaits_moderation Requests.bobs_token false Requests.review_of_p2
           Sample.store ∅ bobs_token_names_a_user).
  vm_compute. reflexivity.
Defined.

Lemma approved_review_reaches_the_listing_witness :
  exists id t t',
    entity_id "review"
      (ReviewWrites.post_review Requests.bobs_token false Requests.review_of_p2 Sample.store).1
    = Some id /\
    status (ReviewModeration.approve_review id
              (ReviewWrites.post_review Requests.bobs_token false Requests.review_of_p2
                 Sample.store).2).1
    = 200%Z /\
    total_of (Reviews.get_reviews Sample.store ∅) = Some t /\
    total_of (Reviews.get_reviews
                (ReviewModeration.approve_review id
                   (ReviewWrites.post_review Requests.bobs_token false Requests.review_of_p2
                      Sample.store).2).2 ∅)
    = Some t' /\
    (t + 1 <= t')%Z.
Proof.
  apply (approved_review_reaches_the_listing Requests.bobs_token false Requests.review_of_p2
           Sample.store bobs_token_names_a_user).
  vm_compute. reflexivity.
Defined.

(** ** Decisions on agents *)

Section AgentDecisions.
Import Agents AgentViews AgentModeration.

Lemma mapM_total {A B : Type} (f : A -> option B) (l : list A) :
  (forall x, In x l -> exists y, f x = Some y) ->
  exists k, mapM f l = Some k.
Proof.
  intros H. apply (mapM_is_Some_2 f l). apply Forall_forall. intros x Hx.
  apply list_elem_of_In in Hx. destruct (H x Hx) as [y E]. exists y. exact E.
Qed.

Lemma mapM_image {A B : Type} (f : A -> option B) (l : list A) (k : list B) (x : A) :
  mapM f l = Some k -> In x l -> exists y, In y k /\ f x = Some y.
Proof.
  intros H. apply mapM_Some in H. induction H as [|x' z l k Hxz _ IH]; intros Hx.
  - destruct Hx.
  - destruct Hx as [->|Hx].
    + exists z. split; [now left|assumption].
    + destruct (IH Hx) as (y & Hy & E). exists y. split; [now right|assumption].
Qed.

Lemma transform_public_id (r : agent_row) (t : gmap string jsval) :
  transform_public r = Some t -> json_object t !! "id" = Some (VStr (a_id r)).
Proof.
  unfold transform_public. destruct (ar_user r) as [u|]; [|discriminate].
  cbn [mbind option_bind]. intros E. apply (inj Some) in E. subst t.
  apply json_object_lookup; reflexivity.
Qed.

Lemma public_where_empty :
  public_where ∅ = Some (Agents.set_verificationStatus "APPROVED" no_filter).
Proof. reflexivity. Qed.

(** The public listing without filters, unfolded. *)
Lemma get_agents_unfiltered (d : db) :
  get_agents d ∅ =
  Some match mapM transform_public
               (Prisma.sort_rows newest
                  (List.filter (matches (Agents.set_verificationStatus "APPROVED" no_filter))
                               (agent_rows d))) with
       | Some ts => AgentsOk (map json_object ts) (Z.of_nat (length ts)) false
       | None => AgentsErr500
       end.
Proof. reflexivity. Qed.

Lemma approved_matches (r : agent_row) :
  matches (Agents.set_verificationStatus "APPROVED" no_filter) r
  = String.eqb (a_verificationStatus r) "APPROVED".
Proof. unfold matches. cbn. now rewrite !andb_true_r. Qed.

(** X17. When every agent record points to a stored user, the approval
    of a stored agent answers 200 and the agent is in the public listing of
    the current router; a second approval changes no verification status;
    and the column [isVerified] is as before. *)
Theorem approved_agent_is_listed (agentId : string) (d : db) (a : agent) :
  find_agent d agentId = Some a ->
  agents_have_users d ->
  status (approve_agent agentId d).1 = 200%Z /\
  (exists listed total,
     get_agents (approve_agent agentId d).2 ∅ = Some (AgentsOk listed total false) /\
     exists o, In o listed /\ o !! "id" = Some (VStr agentId)) /\
  map a_verificationStatus (agents (approve_agent agentId (approve_agent agentId d).2).2)
  = map a_verificationStatus (agents (approve_agent agentId d).2) /\
  map a_isVerified (agents (approve_agent agentId d).2) = map a_isVerified (agents d).
Proof.
  intros Ha Hu.
  assert (E1 : (approve_agent agentId d).2 = update_agent_status agentId "APPROVED" d)
    by (unfold approve_agent; now rewrite Ha).
  rewrite !E1.
  split; [unfold approve_agent; now rewrite Ha|].
  set (d1 := update_agent_status agentId "APPROVED" d).
  assert (Hin : In a (agents d) /\ a_id a = agentId).
  { unfold find_agent in Ha. apply List.find_some in Ha as [Hin E].
    now apply String.eqb_eq in E. }
  destruct Hin as [Hin Hid].
  split; [|split].
  - rewrite get_agents_unfiltered.
    set (rows := Prisma.sort_rows newest _).
    destruct (mapM_total transform_public rows) as [ts Hts].
    { intros x Hx. unfold rows in Hx. apply sort_rows_In in Hx.
      apply filter_In in Hx as [Hx _]. unfold agent_rows in Hx.
      apply in_map_iff in Hx as (a' & <- & Ha').
      unfold d1 in Ha'. cbn [agents update_agent_status] in Ha'.
      apply in_map_iff in Ha' as (a0 & <- & Ha0).
      destruct (Hu a0 Ha0) as [u Eu].
      unfold transform_public, d1. cbn [ar_user users update_agent_status].
      assert (Ek : a_userId (if String.eqb (a_id a0) agentId
                             then set_verificationStatus "APPROVED" (now d) a0 else a0)
                   = a_userId a0) by now destruct (String.eqb (a_id a0) agentId).
      unfold find_user in *. cbn [users update_agent_status]. rewrite Ek, Eu.
      cbn [mbind option_bind]. now eexists. }
    rewrite Hts. eexists _, _. split; [reflexivity|].
    set (a1 := set_verificationStatus "APPROVED" (now d) a).
    set (row := AgentRow a1 (find_user d1 (a_userId a1))
                  (List.filter (fun p => String.eqb (p_agentId p) (a_id a1)) (properties d1))).
    assert (Hrow : In row rows).
    { unfold rows. apply sort_rows_In. apply filter_In. split.
      - unfold agent_rows, row.
        apply (in_map (fun a => AgentRow a (find_user d1 (a_userId a))
                                  (List.filter (fun p => String.eqb (p_agentId p) (a_id a))
                                               (properties d1)))).
        unfold d1. cbn [agents update_agent_status].
        apply in_map_iff. exists a. split; [|exact Hin].
        rewrite Hid, String.eqb_refl. reflexivity.
      - rewrite approved_matches. reflexivity. }
    destruct (mapM_image _ _ _ _ Hts Hrow) as (t & Ht & Et).
    exists (json_object t). split; [now apply in_map|].
    rewrite (transform_public_id _ _ Et). cbn. now rewrite Hid.
  - unfold approve_agent, find_agent. fold d1.
    destruct (List.find _ (agents d1)); [|reflexivity].
    cbn [snd agents update_agent_status d1]. unfold d1.
    cbn [agents update_agent_status]. rewrite !List.map_map. apply List.map_ext. intros x.
    destruct (String.eqb (a_id x) agentId) eqn:E.
    + cbn [a_id set_verificationStatus]. rewrite E. reflexivity.
    + now rewrite E.
  - unfold d1. cbn [agents update_agent_status]. rewrite List.map_map. apply List.map_ext.
    intros x. now destruct (String.eqb (a_id x) agentId).
Qed.

(** X18. After the rejection of a stored agent no entry of the public
    agent listing carries the agent's identifier, whatever the filters. *)
Theorem rejected_agent_is_unlisted
    (agentId : string) (d : db) (a : agent) (query : gmap string string)
    (listed : list (gmap string jsval)) (total : Z) (hasMore : bool) :
  find_agent d agentId = Some a ->
  get_agents (reject_agent agentId d).2 query = Some (AgentsOk listed total hasMore) ->
  status (reject_agent agentId d).1 = 200%Z /\
  forall o, In o listed -> o !! "id" <> Some (VStr agentId).
Proof.
  intros Ha. unfold reject_agent. rewrite Ha. cbn [fst snd status].
  intros H. split; [reflexivity|]. intros o Ho.
  unfold get_agents, public_listing in H.
  apply bind_Some in H as (w & Hw & H). apply (inj Some) in H.
  destruct (Prisma.findMany _ (matches w) None None newest) as [rows|] eqn:Hf;
    [|discriminate].
  destruct (mapM transform_public rows) as [ts|] eqn:Hm; [|discriminate].
  injection H as <- _ _.
  apply in_map_iff in Ho as (t & <- & Ht).
  destruct (mapM_In _ _ _ _ Hm Ht) as (r & Hr & Et).
  rewrite (transform_public_id _ _ Et).
  destruct (findMany_sound _ _ _ _ _ _ r Hf Hr) as [Hrow Hmatch].
  apply public_filters_keep_the_gate in Hw as [Hs _]. cbn in Hs.
  unfold Agents.matches in Hmatch. rewrite Hs in Hmatch.
  do 3 (apply andb_prop in Hmatch as [Hmatch _]).
  apply andb_prop in Hmatch as [_ Hmatch]. cbn [opt_holds] in Hmatch.
  apply String.eqb_eq in Hmatch.
  unfold agent_rows in Hrow. apply in_map_iff in Hrow as (a' & <- & Ha').
  cbn [agents update_agent_status] in Ha'.
  apply in_map_iff in Ha' as (a0 & <- & Ha0).
  cbn [ar_agent] in *.
  destruct (String.eqb (a_id a0) agentId) eqn:E.
  - discriminate Hmatch.
  - apply String.eqb_neq in E. congruence.
Qed.

End AgentDecisions.

Lemma sample_agents_have_users : agents_have_users Sample.store.
Proof.
  intros a [<-|[]]. eexists. vm_compute. reflexivity.
Qed.

Lemma approved_agent_is_listed_witness :
  status (AgentModeration.approve_agent "a1" Sample.store).1 = 200%Z /\
  (exists listed total,
     AgentViews.get_agents (AgentModeration.approve_agent "a1" Sample.store).2 ∅
     = Some (AgentViews.AgentsOk listed total false) /\
     exists o, In o listed /\ o !! "id" = Some (VStr "a1")) /\
  map a_verificationStatus
    (agents (AgentModeration.approve_agent "a1"
               (AgentModeration.approve_agent "a1" Sample.store).2).2)
  = map a_verificationStatus (agents (AgentModeration.approve_agent "a1" Sample.store).2) /\
  map a_isVerified (agents (AgentModeration.approve_agent "a1" Sample.store).2)
  = map a_isVerified (agents Sample.store).
Proof.
  apply (approved_agent_is_listed "a1" Sample.store Sample.ann_agent).
  - vm_compute. reflexivity.
  - exact sample_agents_have_users.
Defined.

Lemma rejected_agent_is_unlisted_witness :
  status (AgentModeration.reject_agent "a1" Sample.store).1 = 200%Z /\
  forall o : gmap string jsval, In o [] -> o !! "id" <> Some (VStr "a1").
Proof.
  apply (rejected_agent_is_unlisted "a1" Sample.store Sample.ann_agent ∅ [] 0 false).
  - vm_compute. reflexivity.
  - vm_compute. reflexivity.
Defined.

(** ** Single properties and the admin router *)

Section PropertyAccessFacts.
Import PropertyWrites PropertyAccess AdminProperties Properties.

(** X19. [PUT /properties/:id] and [DELETE /properties/:id] change the
    store only for the agent the property belongs to: when the store after
    the request differs from the store before, the property exists, the
    caller has an agent record, and the property is that agent's. *)
Theorem only_the_owner_changes_a_property
    (rule : on_delete) (userId id : string) (b : property_update) (d : db) :
  (put_property userId id b d).2 <> d \/ (delete_property rule userId id d).2 <> d ->
  exists a p,
    find_agent_of_user d userId = Some a /\
    find_property d id = Some p /\
    p_agentId p = a_id a.
Proof.
  unfold put_property, delete_property, not_owner.
  intros H.
  destruct (find_property d id) as [p|].
  - destruct (find_agent_of_user d userId) as [a|].
    + destruct (String.eqb (p_agentId p) (a_id a)) eqn:E.
      * apply String.eqb_eq in E. now exists a, p.
      * exfalso. cbn [negb] in H.
        destruct H as [H|H]; [destruct (validate_update b)|]; now apply H.
    + exfalso. destruct H as [H|H]; [destruct (validate_update b)|]; now apply H.
  - exfalso. destruct H as [H|H]; [destruct (validate_update b)|]; now apply H.
Qed.

Lemma find_filter_key {A : Type} (key : A -> string) (id : string) (l : list A) :
  List.find (fun x => String.eqb (key x) id)
    (List.filter (fun x => negb (String.eqb (key x) id)) l) = None.
Proof. apply (find_filter_out (fun x => String.eqb (key x) id)). Qed.

(** X20. After a [DELETE /properties/:id] that answered 200,
    [GET /properties/:id] answers 404, every other property is still there,
    no review is lost and none points to the property, and no favorite
    points to it; whether the schema lets favorites go with the property or
    refuses to delete a property that has some. *)
Theorem deleted_property_is_gone (rule : on_delete) (userId id : string) (d : db) :
  status (delete_property rule userId id d).1 = 200%Z ->
  get_property id (delete_property rule userId id d).2
  = message_reply 404 "Property not found" /\
  (forall p, In p (properties (delete_property rule userId id d).2)
             <-> In p (properties d) /\ p_id p <> id) /\
  length (reviews (delete_property rule userId id d).2) = length (reviews d) /\
  (forall r, In r (reviews (delete_property rule userId id d).2) ->
             r_propertyId r <> Some id) /\
  (forall f, In f (favorites (delete_property rule userId id d).2) ->
             f_propertyId f <> id).
Proof.
  unfold delete_property. intros H.
  destruct (find_property d id) as [p|]; [|discriminate H].
  destruct (not_owner d userId p); [discriminate H|].
  destruct (remove_property rule id d) as [d'|] eqn:R; [|discriminate H].
  cbn [snd]. clear H.
  assert (P : properties d'
              = List.filter (fun p => negb (String.eqb (p_id p) id)) (properties d)).
  { unfold remove_property in R. destruct rule;
      [|destruct (existsb _ _); [discriminate|]]; now injection R as <-. }
  assert (V : reviews d' = map (detach_review id) (reviews d)).
  { unfold remove_property in R. destruct rule;
      [|destruct (existsb _ _); [discriminate|]]; now injection R as <-. }
  repeat split.
  - unfold get_property, find_property. rewrite P.
    now rewrite (find_filter_key p_id).
  - rewrite P in H. now apply filter_In in H.
  - rewrite P in H. apply filter_In in H as [_ H].
    apply negb_true_iff, String.eqb_neq in H. exact H.
  - intros [Hp Hn]. rewrite P. apply filter_In. split; [exact Hp|].
    now apply negb_true_iff, String.eqb_neq.
  - rewrite V. apply length_map.
  - intros r Hr. rewrite V in Hr. apply in_map_iff in Hr as (r0 & <- & _).
    unfold detach_review, Reviews.opt_is.
    destruct (r_propertyId r0) as [s|] eqn:E; [|now rewrite E].
    destruct (String.eqb s id) eqn:Es; [discriminate|].
    rewrite E. apply String.eqb_neq in Es. congruence.
  - intros f Hf. unfold remove_property in R. destruct rule.
    + injection R as <-. cbn [favorites] in Hf. apply filter_In in Hf as [_ Hf].
      now apply negb_true_iff, String.eqb_neq in Hf.
    + destruct (existsb _ (favorites d)) eqn:Ex; [discriminate|].
      injection R as <-. cbn [favorites] in Hf.
      intros E. assert (existsb (fun f => String.eqb (f_propertyId f) id) (favorites d) = true).
      { apply existsb_exists. exists f. split; [exact Hf|]. now apply String.eqb_eq. }
      congruence.
Qed.

Lemma active_count (d : db) :
  Prisma.count (property_rows d) (matches (set_status "ACTIVE" no_filter))
  = Z.of_nat (length (List.filter (fun p => String.eqb (p_status p) "ACTIVE") (properties d))).
Proof.
  unfold Prisma.count, property_rows. rewrite filter_map_commute, length_map.
  do 2 f_equal. apply List.filter_ext. intros x. unfold matches. cbn.
  now rewrite !andb_true_r.
Qed.

Lemma get_properties_total (d : db) :
  total_of (get_properties d ∅)
  = Some (Prisma.count (property_rows d) (matches (set_status "ACTIVE" no_filter))).
Proof.
  unfold get_properties.
  rewrite (handle_int list_endpoint (property_rows d) ∅ ∅ 1 10 (set_status "ACTIVE" no_filter));
    [reflexivity | simpl; tauto | reflexivity | reflexivity | lia | lia
     | reflexivity | reflexivity ].
Qed.

(** The successful branch of [POST /admin/properties]. *)
Lemma admin_post_property_created (b : property_input) (d : db) :
  status (admin_post_property b d).1 = 201%Z ->
  exists p d1,
    admin_post_property b d
    = (Reply 201 {[ "property" := VObj (property_object p) ]}, add_property p d1) /\
    p_status p = "ACTIVE" /\
    properties d1 = properties d /\ users d1 = users d /\
    (find_system_agent d <> None /\ d1 = d \/
     find_system_agent d = None /\
     exists u, d1 = Auth.add_agent (system_agent u d) d).
Proof.
  unfold admin_post_property. intros H.
  destruct (validate b); [|discriminate H].
  destruct (find_system_agent d) as [a|] eqn:S.
  - eexists _, d. split; [reflexivity|]. repeat split. left. split; [discriminate|reflexivity].
  - destruct (find_admin_user d) as [u|]; [|discriminate H].
    destruct (Auth.find_agent_by_registration d "SYSTEM-ADMIN"); [discriminate H|].
    eexists _, _. split; [reflexivity|]. repeat split. right. split; [reflexivity|].
    now exists (u_id u).
Qed.

(** X21. When [POST /admin/properties] answers 201, the property is
    stored as [ACTIVE] under the identifier of the reply and the [total] of
    [GET /properties] is one more; and no later call of the route creates an
    agent record. *)
Theorem admin_property_is_listed_at_once (b b' : property_input) (d : db) :
  status (admin_post_property b d).1 = 201%Z ->
  (exists id p,
     entity_id "property" (admin_post_property b d).1 = Some id /\
     In p (properties (admin_post_property b d).2) /\ p_id p = id /\
     p_status p = "ACTIVE") /\
  total_of (get_properties (admin_post_property b d).2 ∅)
  = Z.succ <$> total_of (get_properties d ∅) /\
  agents (admin_post_property b' (admin_post_property b d).2).2
  = agents (admin_post_property b d).2.
Proof.
  intros H.
  destruct (admin_post_property_created b d H) as (p & d1 & -> & Hs & Hp & Hu & Hd).
  cbn [fst snd]. split; [|split].
  - exists (p_id p), p. split; [apply entity_id_property|].
    split; [|split; [reflexivity|exact Hs]].
    cbn [properties add_property]. apply in_or_app. right. now left.
  - rewrite !get_properties_total, !active_count. cbn [fmap option_fmap option_map].
    f_equal. cbn [properties add_property]. rewrite Hp.
    rewrite List.filter_app, length_app. cbn [List.filter]. rewrite Hs.
    cbn [String.eqb Ascii.eqb Bool.eqb length]. lia.
  - unfold admin_post_property.
    destruct (validate b'); [|reflexivity].
    destruct (find_system_agent (add_property p d1)) as [a|] eqn:S; [reflexivity|].
    destruct (find_admin_user (add_property p d1)) as [u|]; [|reflexivity].
    destruct (Auth.find_agent_by_registration (add_property p d1) "SYSTEM-ADMIN") eqn:R;
      [reflexivity|].
    exfalso. destruct Hd as [[Hn ->]|[_ [u0 ->]]].
    + apply Hn. exact S.
    + unfold Auth.find_agent_by_registration in R.
      cbn [agents add_property Auth.add_agent] in R.
      rewrite find_snoc in R. destruct (List.find _ (agents d)); [discriminate|].
      discriminate R.
Qed.

(** X22. After the rejection of a stored property, which answers 200,
    [GET /properties] and [GET /properties/search] answer every request with
    a 500 or with a 200 of which no item carries the identifier of the
    property, whatever the filters and the page. *)
Theorem rejected_property_is_unlisted
    (id : string) (d : db) (p : property) (query : gmap string string) :
  find_property d id = Some p ->
  status (reject_property id d).1 = 200%Z /\
  (get_properties (reject_property id d).2 query = Some Err500 \/
   exists items total page pages,
     get_properties (reject_property id d).2 query = Some (Ok200 items total page pages) /\
     forall r : property_row, In r items -> p_id r <> id) /\
  (get_properties_search (reject_property id d).2 query = Some Err500 \/
   exists items total page pages,
     get_properties_search (reject_property id d).2 query
     = Some (Ok200 items total page pages) /\
     forall r : property_row, In r items -> p_id r <> id).
Proof.
  intros Hp. unfold reject_property. rewrite Hp. cbn [fst snd status].
  assert (R : forall r : property_row,
             In r (property_rows (update_property_status id "REJECTED" d)) ->
             p_status r = "ACTIVE" -> p_id r <> id).
  { intros r Hrow Hst.
    unfold property_rows in Hrow. apply in_map_iff in Hrow as (p' & <- & Hp').
    cbn [properties update_property_status] in Hp'.
    apply in_map_iff in Hp' as (p0 & <- & _). cbn [pr_property] in *.
    destruct (String.eqb (p_id p0) id) eqn:E.
    - discriminate Hst.
    - now apply String.eqb_neq in E. }
  split; [reflexivity|]. split.
  - destruct (get_properties_outcome (update_property_status id "REJECTED" d) query)
      as [E|(items & total & page & pages & E & Hi)]; [now left|right].
    exists items, total, page, pages. split; [exact E|].
    intros r Hr. destruct (Hi r Hr) as [Hrow Hst]. now apply R.
  - destruct (get_properties_search_outcome (update_property_status id "REJECTED" d) query)
      as [E|(items & total & page & pages & E & Hi)]; [now left|right].
    exists items, total, page, pages. split; [exact E|].
    intros r Hr. destruct (Hi r Hr) as [Hrow Hst]. now apply R.
Qed.

End PropertyAccessFacts.

Lemma only_the_owner_changes_a_property_witness :
  exists a p,
    find_agent_of_user Sample.store "u1" = Some a /\
    find_property Sample.store "p1" = Some p /\
    p_agentId p = a_id a.
Proof.
  apply (only_the_owner_changes_a_property PropertyAccess.Cascade "u1" "p1"
           (PropertyAccess.PropertyUpdate None None None None None None None None None None
              None None None false)
           Sample.store).
  right. vm_compute. discriminate.
Defined.

Lemma deleted_property_is_gone_witness :
  PropertyAccess.get_property "p2"
    (PropertyAccess.delete_property PropertyAccess.Restrict "u1" "p2" Sample.store).2
  = message_reply 404 "Property not found" /\
  (forall p, In p (properties (PropertyAccess.delete_property PropertyAccess.Restrict
                                 "u1" "p2" Sample.store).2)
             <-> In p (properties Sample.store) /\ p_id p <> "p2") /\
  length (reviews (PropertyAccess.delete_property PropertyAccess.Restrict
                     "u1" "p2" Sample.store).2)
  = length (reviews Sample.store) /\
  (forall r, In r (reviews (PropertyAccess.delete_property PropertyAccess.Restrict
                              "u1" "p2" Sample.store).2) ->
             r_propertyId r <> Some "p2") /\
  (forall f, In f (favorites (PropertyAccess.delete_property PropertyAccess.Restrict
                                "u1" "p2" Sample.store).2) ->
             f_propertyId f <> "p2").
Proof.
  apply (deleted_property_is_gone PropertyAccess.Restrict "u1" "p2" Sample.store).
  vm_compute. reflexivity.
Defined.

Lemma admin_property_is_listed_at_once_witness :
  (exists id p,
     entity_id "property"
       (AdminProperties.admin_post_property (Sample.input 500) Requests.office).1 = Some id /\
     In p (properties (AdminProperties.admin_post_property (Sample.input 500)
                         Requests.office).2) /\
     p_id p = id /\ p_status p = "ACTIVE") /\
  total_of (Properties.get_properties
              (AdminProperties.admin_post_property (Sample.input 500) Requests.office).2 ∅)
  = Z.succ <$> total_of (Properties.get_properties Requests.office ∅) /\
  agents (AdminProperties.admin_post_property (Sample.input 600)
            (AdminProperties.admin_post_property (Sample.input 500) Requests.office).2).2
  = agents (AdminProperties.admin_post_property (Sample.input 500) Requests.office).2.
Proof.
  apply (admin_property_is_listed_at_once (Sample.input 500) (Sample.input 600)
           Requests.office).
  vm_compute. reflexivity.
Defined.

Lemma rejected_property_is_unlisted_witness :
  Forall (fun r : property_row => p_id r <> "p2")
    [PropertyRow (Sample.house "p4" 400 "ACTIVE" 7) (Some Sample.ann);
     PropertyRow (Sample.house "p1" 100 "ACTIVE" 4) (Some Sample.ann)].
Proof.
  apply List.Forall_forall.
  destruct (rejected_property_is_unlisted "p2" Sample.store (Sample.house "p2" 200 "ACTIVE" 5)
              {[ "bathrooms" := "1.5" ]})
    as (_ & [E|(items & total & page & pages & E & H)] & _).
  - vm_compute. reflexivity.
  - vm_compute in E. discriminate E.
  - assert (E' : Properties.get_properties
                   (AdminProperties.reject_property "p2" Sample.store).2
                   {[ "bathrooms" := "1.5" ]}
                 = Some (Ok200
                           [PropertyRow (Sample.house "p4" 400 "ACTIVE" 7) (Some Sample.ann);
                            PropertyRow (Sample.house "p1" 100 "ACTIVE" 4) (Some Sample.ann)]
                           2 (jint 1) (jint 1)))
      by (vm_compute; reflexivity).
    rewrite E' in E. injection E as <- _ _ _. exact H.
Defined.

(** ** Overviews *)

Section Overviews.
Import Properties Reviews Dashboard AgentPublic.

(** X23. The dashboard counts what the listings count: [activeListings]
    is the [total] of [GET /properties] without filters, [totalProperties]
    the [total] of [GET /admin/properties], and [pendingReviews] the [total]
    of the moderation queue. *)
Theorem dashboard_agrees_with_the_listings (d : db) :
  total_of (get_properties d ∅) = Some (activeListings (dashboard_stats d)) /\
  total_of (get_admin_properties d ∅) = Some (totalProperties (dashboard_stats d)) /\
  total_of (get_pending_reviews d ∅) = Some (pendingReviews (dashboard_stats d)).
Proof.
  split; [|split].
  - rewrite get_properties_total, active_count. reflexivity.
  - unfold get_admin_properties.
    rewrite (handle_int Properties.admin_endpoint (property_rows d) ∅ ∅ 1 50
               Properties.no_filter);
      [| simpl; tauto | reflexivity | reflexivity | lia | lia | reflexivity | reflexivity ].
    cbn [total_of]. f_equal.
    unfold Prisma.count, property_rows. rewrite filter_map_commute, length_map.
    reflexivity.
  - unfold get_pending_reviews.
    rewrite (handle_int admin_pending_endpoint (review_rows d) ∅ ∅ 1 20 pending);
      [| simpl; tauto | reflexivity | reflexivity | lia | lia | reflexivity | reflexivity ].
    cbn [total_of]. f_equal.
    unfold Prisma.count, review_rows. rewrite filter_map_commute, length_map.
    cbn [dashboard_stats pendingReviews]. unfold Prisma.count.
    do 2 f_equal. apply List.filter_ext. intros x.
    cbn [ep_matches admin_pending_endpoint]. unfold Reviews.matches. cbn.
    now rewrite !andb_true_r.
Qed.

(** X24. [GET /agents/:agentId/properties] returns the properties of the
    agent whatever their status, the newest first; the statistics of
    [GET /agents/:agentId/stats] count the same properties, and the sum of
    the prices is [null] exactly when there is none. *)
Theorem agent_page_shows_every_status (agentId : string) (d : db) :
  (forall p, In p (get_agent_properties agentId d)
             <-> In p (properties d) /\ p_agentId p = agentId) /\
  in_order (Prisma.OrderBy p_createdAt Prisma.Desc) (get_agent_properties agentId d) /\
  st_totalProperties (get_agent_stats agentId d)
  = Z.of_nat (length (get_agent_properties agentId d)) /\
  (st_totalValue (get_agent_stats agentId d) = None
   <-> get_agent_properties agentId d = []).
Proof.
  unfold get_agent_properties, get_agent_stats. cbn [st_totalProperties st_totalValue].
  split; [|split; [|split]].
  - intros p. rewrite sort_rows_In, filter_In. now rewrite String.eqb_eq.
  - apply sort_rows_in_order.
  - now rewrite sort_rows_length.
  - set (ps := List.filter _ (properties d)).
    split.
    + intros H. destruct ps; [reflexivity|discriminate H].
    + intros H. apply (f_equal (@length _)) in H. rewrite sort_rows_length in H.
      destruct ps; [reflexivity|discriminate H].
Qed.

End Overviews.

(** ** Accounts *)

Section Accounts.
Import Auth.
Variable JWT_SECRET : option string.
Variable bcrypt_hash : string -> string.
Variable bcrypt_compare : string -> string -> bool.
Variable jwt_sign : string -> string -> string -> string.
Variable isEmail : string -> bool.
Variable normalizeEmail : string -> string.
Variable isMobilePhone : string -> bool.

(** What [register] does once the configuration and validation checks have passed. *)
Lemma register_outcomes (b : gmap string jsval) (d : db) :
  (users (register JWT_SECRET bcrypt_hash jwt_sign isEmail normalizeEmail isMobilePhone b d).2 = users d /\ agents (register JWT_SECRET bcrypt_hash jwt_sign isEmail normalizeEmail isMobilePhone b d).2 = agents d /\
   (register JWT_SECRET bcrypt_hash jwt_sign isEmail normalizeEmail isMobilePhone b d).2 = d /\ status (register JWT_SECRET bcrypt_hash jwt_sign isEmail normalizeEmail isMobilePhone b d).1 <> 201%Z /\
   (register JWT_SECRET bcrypt_hash jwt_sign isEmail normalizeEmail isMobilePhone b d).1 <> message_reply 400 "Registration number already exists") \/
  (secret_missing JWT_SECRET = false /\
   isEmail (to_text (get b "email")) = true /\
   min_length 6 (to_text (get b "password")) = true /\
   In (to_text (get b "role")) ["USER"; "AGENT"] /\
   find_user_by_email d (normalizeEmail (to_text (get b "email"))) = None /\
   users (register JWT_SECRET bcrypt_hash jwt_sign isEmail normalizeEmail isMobilePhone b d).2 = (users d ++ [new_user_row bcrypt_hash normalizeEmail b d])%list /\
   ((register JWT_SECRET bcrypt_hash jwt_sign isEmail normalizeEmail isMobilePhone b d).1 = message_reply 400 "Registration number already exists" /\
    agents (register JWT_SECRET bcrypt_hash jwt_sign isEmail normalizeEmail isMobilePhone b d).2 = agents d /\
    (register JWT_SECRET bcrypt_hash jwt_sign isEmail normalizeEmail isMobilePhone b d).2 = add_user (new_user_row bcrypt_hash normalizeEmail b d) d
    \/
    (register JWT_SECRET bcrypt_hash jwt_sign isEmail normalizeEmail isMobilePhone b d).1
    = Reply 201 {[ "message" := VStr "User created successfully";
                   "token" := VStr (jwt_sign (fresh_id "u" d)
                                      (normalizeEmail (to_text (get b "email")))
                                      (to_text (get b "role")));
                   "user" := VObj (select_keys
                                     ["id"; "email"; "firstName"; "lastName"; "role"; "createdAt"]
                                     (user_object (new_user_row bcrypt_hash normalizeEmail b d))) ]} /\
    forall a, In a (agents (register JWT_SECRET bcrypt_hash jwt_sign isEmail normalizeEmail isMobilePhone b d).2) ->
      In a (agents d) \/
      (a_userId a = fresh_id "u" d /\ a_verificationStatus a = "PENDING"
       /\ a_isVerified a = false /\ to_text (get b "role") = "AGENT"))).
Proof.
  unfold Auth.register. cbv zeta.
  destruct (secret_missing JWT_SECRET) eqn:S.
  { left. repeat split; discriminate. }
  destruct (failed _) eqn:V.
  2:{ left. repeat split; discriminate. }
  apply failed_nil_cons in V as [Ve V]. apply failed_nil_cons in V as [Vp V].
  apply failed_nil_cons in V as [_ V]. apply failed_nil_cons in V as [_ V].
  apply failed_nil_cons in V as [Vr _].
  destruct (find_user_by_email d _) eqn:F.
  { left. repeat split; discriminate. }
  right. fold (new_user_row bcrypt_hash normalizeEmail b d).
  assert (R : In (to_text (get b "role")) ["USER"; "AGENT"]).
  { cbn [existsb] in Vr. rewrite orb_false_r in Vr.
    apply orb_prop in Vr as [E|E]; apply String.eqb_eq in E; rewrite E; simpl; auto. }
  do 5 (split; [reflexivity || assumption|]).
  destruct (String.eqb (to_text (get b "role")) "AGENT") eqn:A.
  - destruct (find_agent_by_registration _ _).
    + split; [reflexivity|]. left. repeat split; reflexivity.
    + split; [reflexivity|]. right. split; [reflexivity|].
      intros a Ha. cbn [snd agents add_agent add_user] in Ha.
      apply in_app_or in Ha as [Ha|[<-|[]]]; [now left|right].
      apply String.eqb_eq in A. repeat split; assumption || reflexivity.
  - split; [reflexivity|]. right. split; [reflexivity|].
    intros a Ha. now left.
Qed.

(** X25. What [POST /auth/register] writes, whatever the body: a user it
    adds carries the hash of the password, the normalised e-mail address and
    the role [USER] or [AGENT], never [ADMIN]; an agent it adds is [PENDING],
    not verified, and belongs to a user of role [AGENT]. *)
Theorem registration_writes_a_hash_and_no_admin (b : gmap string jsval) (d : db) :
  (forall u, In u (users (register JWT_SECRET bcrypt_hash jwt_sign isEmail normalizeEmail isMobilePhone b d).2) ->
     In u (users d) \/
     (u_password u = bcrypt_hash (to_text (get b "password")) /\
      u_email u = normalizeEmail (to_text (get b "email")) /\
      In (u_role u) ["USER"; "AGENT"])) /\
  (forall a, In a (agents (register JWT_SECRET bcrypt_hash jwt_sign isEmail normalizeEmail isMobilePhone b d).2) ->
     In a (agents d) \/
     (a_verificationStatus a = "PENDING" /\ a_isVerified a = false /\
      exists u, In u (users (register JWT_SECRET bcrypt_hash jwt_sign isEmail normalizeEmail isMobilePhone b d).2) /\ a_userId a = u_id u /\ u_role u = "AGENT")).
Proof.
  destruct (register_outcomes b d)
    as [(Hu & Ha & _)|(_ & _ & _ & Hr & _ & Hu & [(_ & Ha & _)|(_ & Ha)])].
  - rewrite Hu, Ha. split; intros x Hx; now left.
  - rewrite Hu, Ha. split; [|intros x Hx; now left].
    intros u Hin. apply in_app_or in Hin as [Hin|[<-|[]]]; [now left|right].
    repeat split; assumption || reflexivity.
  - rewrite Hu. split.
    + intros u Hin. apply in_app_or in Hin as [Hin|[<-|[]]]; [now left|right].
      repeat split; assumption || reflexivity.
    + intros a Hin. destruct (Ha a Hin) as [Hold|(Hid & Hs & Hv & Hrole)]; [now left|right].
      split; [exact Hs|]. split; [exact Hv|].
      exists (new_user_row bcrypt_hash normalizeEmail b d). split; [apply in_or_app; right; now left|].
      split; [exact Hid|exact Hrole].
Qed.

(** X26. When [POST /auth/register] refuses a registration number that
    is taken, the user of the request has been created all the same, without
    an agent record; the same request, sent again, is refused with
    [User already exists]. *)
Theorem refused_registration_number_keeps_the_user (b : gmap string jsval) (d : db) :
  (register JWT_SECRET bcrypt_hash jwt_sign isEmail normalizeEmail isMobilePhone b d).1 = message_reply 400 "Registration number already exists" ->
  length (users (register JWT_SECRET bcrypt_hash jwt_sign isEmail normalizeEmail isMobilePhone b d).2) = S (length (users d)) /\
  agents (register JWT_SECRET bcrypt_hash jwt_sign isEmail normalizeEmail isMobilePhone b d).2 = agents d /\
  register JWT_SECRET bcrypt_hash jwt_sign isEmail normalizeEmail isMobilePhone b (register JWT_SECRET bcrypt_hash jwt_sign isEmail normalizeEmail isMobilePhone b d).2
  = (message_reply 400 "User already exists", (register JWT_SECRET bcrypt_hash jwt_sign isEmail normalizeEmail isMobilePhone b d).2).
Proof.
  intros H.
  destruct (register_outcomes b d)
    as [(_ & _ & _ & _ & N)|(S & Ve & Vp & Hr & F & Hu & [(_ & Ha & Hd)|(E & _)])].
  - now contradiction N.
  - rewrite Hu, Ha, Hd. split; [rewrite length_app; simpl; lia|]. split; [reflexivity|].
    unfold Auth.register at 1. cbv zeta. rewrite S.
    destruct (failed _) eqn:V.
    + unfold find_user_by_email in *. cbn [users add_user]. rewrite find_snoc, F.
      cbn [u_email new_user_row]. now rewrite String.eqb_refl.
    + exfalso. revert H. unfold Auth.register. cbv zeta. rewrite S, V. discriminate.
  - rewrite E in H. discriminate H.
Qed.

Lemma select_keys_lookup (keys : list string) (o : gmap string jsval) (k : string) :
  In k keys -> select_keys keys o !! k = o !! k.
Proof.
  intros Hk. unfold select_keys. destruct (o !! k) as [v|] eqn:E.
  - apply map_lookup_filter_Some. split; [exact E|]. cbn. now apply list_elem_of_In.
  - apply map_lookup_filter_None. now left.
Qed.

(** X27. When the password check accepts a password against its own
    hash, a registration answered 201 with an e-mail address and a password
    given as strings can log in with the same body: [POST /auth/login]
    answers 200 with the user the registration created. *)
Theorem registered_user_can_log_in (b : gmap string jsval) (d : db) (email password : string) :
  (forall p, bcrypt_compare p (bcrypt_hash p) = true) ->
  b !! "email" = Some (VStr email) ->
  b !! "password" = Some (VStr password) ->
  status (register JWT_SECRET bcrypt_hash jwt_sign isEmail normalizeEmail isMobilePhone b d).1 = 201%Z ->
  status (login JWT_SECRET bcrypt_compare jwt_sign isEmail normalizeEmail b (register JWT_SECRET bcrypt_hash jwt_sign isEmail normalizeEmail isMobilePhone b d).2) = 200%Z /\
  entity_id "user" (login JWT_SECRET bcrypt_compare jwt_sign isEmail normalizeEmail b (register JWT_SECRET bcrypt_hash jwt_sign isEmail normalizeEmail isMobilePhone b d).2) = entity_id "user" (register JWT_SECRET bcrypt_hash jwt_sign isEmail normalizeEmail isMobilePhone b d).1 /\
  entity_id "user" (register JWT_SECRET bcrypt_hash jwt_sign isEmail normalizeEmail isMobilePhone b d).1 = Some (fresh_id "u" d).
Proof.
  intros Hc He Hp H.
  destruct (register_outcomes b d)
    as [(_ & _ & _ & N & _)|(S & Ve & Vp & Hr & F & Hu & [(E & _)|(E & _)])].
  - now contradiction N.
  - rewrite E in H. discriminate H.
  - rewrite E. clear H.
    assert (L : login JWT_SECRET bcrypt_compare jwt_sign isEmail normalizeEmail b (register JWT_SECRET bcrypt_hash jwt_sign isEmail normalizeEmail isMobilePhone b d).2
                = Reply 200 {[ "message" := VStr "Login successful";
                               "token" := VStr (jwt_sign (fresh_id "u" d)
                                                  (normalizeEmail (to_text (get b "email")))
                                                  (to_text (get b "role")));
                               "user" := VObj (without_password
                                                 (user_with_agent (register JWT_SECRET bcrypt_hash jwt_sign isEmail normalizeEmail isMobilePhone b d).2
                                                    (new_user_row bcrypt_hash normalizeEmail b d))) ]}).
    { unfold Auth.login. rewrite S, Ve.
      assert (U : is_undefined (get b "password") = false)
        by (now rewrite (get_Some _ _ _ Hp)).
      rewrite U. cbn [negb failed map List.filter snd fst].
      unfold find_user_by_email in *. rewrite Hu, find_snoc, F.
      cbn [u_email new_user_row]. rewrite String.eqb_refl.
      cbn [u_password u_id u_role u_email]. now rewrite Hc. }
    rewrite L. cbn [status body]. split; [reflexivity|].
    unfold entity_id. cbn [body].
    rewrite !(lookup_insert_ne _ "message" "user") by discriminate.
    rewrite !(lookup_insert_ne _ "token" "user") by discriminate.
    rewrite !lookup_singleton_eq.
    rewrite select_keys_lookup by (simpl; auto).
    rewrite without_password_keeps by discriminate.
    unfold user_with_agent. rewrite lookup_insert_ne by discriminate.
    split; reflexivity.
Qed.

End Accounts.

Lemma registration_writes_a_hash_and_no_admin_witness :
  (forall u,
     In u (users (Auth.register (Some "secret") Requests.hash Requests.sign Requests.any_email
                    Requests.as_given Requests.any_email Requests.cleo Sample.store).2) ->
     In u (users Sample.store) \/
     (u_password u = Requests.hash (to_text (get Requests.cleo "password")) /\
      u_email u = Requests.as_given (to_text (get Requests.cleo "email")) /\
      In (u_role u) ["USER"; "AGENT"])) /\
  (forall a,
     In a (agents (Auth.register (Some "secret") Requests.hash Requests.sign Requests.any_email
                     Requests.as_given Requests.any_email Requests.cleo Sample.store).2) ->
     In a (agents Sample.store) \/
     (a_verificationStatus a = "PENDING" /\ a_isVerified a = false /\
      exists u,
        In u (users (Auth.register (Some "secret") Requests.hash Requests.sign
                       Requests.any_email Requests.as_given Requests.any_email
                       Requests.cleo Sample.store).2) /\
        a_userId a = u_id u /\ u_role u = "AGENT")).
Proof.
  exact (registration_writes_a_hash_and_no_admin (Some "secret") Requests.hash
           Requests.sign Requests.any_email Requests.as_given Requests.any_email
           Requests.cleo Sample.store).
Defined.

Lemma refused_registration_number_keeps_the_user_witness :
  length (users (Auth.register (Some "secret") Requests.hash Requests.sign Requests.any_email
                   Requests.as_given Requests.any_email Requests.dan Sample.store).2)
  = S (length (users Sample.store)) /\
  agents (Auth.register (Some "secret") Requests.hash Requests.sign Requests.any_email
            Requests.as_given Requests.any_email Requests.dan Sample.store).2
  = agents Sample.store /\
  Auth.register (Some "secret") Requests.hash Requests.sign Requests.any_email
    Requests.as_given Requests.any_email Requests.dan
    (Auth.register (Some "secret") Requests.hash Requests.sign Requests.any_email
       Requests.as_given Requests.any_email Requests.dan Sample.store).2
  = (message_reply 400 "User already exists",
     (Auth.register (Some "secret") Requests.hash Requests.sign Requests.any_email
        Requests.as_given Requests.any_email Requests.dan Sample.store).2).
Proof.
  apply (refused_registration_number_keeps_the_user (Some "secret") Requests.hash
           Requests.sign Requests.any_email Requests.as_given Requests.any_email
           Requests.dan Sample.store).
  vm_compute. reflexivity.
Defined.

Lemma registered_user_can_log_in_witness :
  status (Auth.login (Some "secret") Requests.compare Requests.sign Requests.any_email
            Requests.as_given Requests.cleo
            (Auth.register (Some "secret") Requests.hash Requests.sign Requests.any_email
               Requests.as_given Requests.any_email Requests.cleo Sample.store).2)
  = 200%Z /\
  entity_id "user"
    (Auth.login (Some "secret") Requests.compare Requests.sign Requests.any_email
       Requests.as_given Requests.cleo
       (Auth.register (Some "secret") Requests.hash Requests.sign Requests.any_email
          Requests.as_given Requests.any_email Requests.cleo Sample.store).2)
  = entity_id "user"
      (Auth.register (Some "secret") Requests.hash Requests.sign Requests.any_email
         Requests.as_given Requests.any_email Requests.cleo Sample.store).1 /\
  entity_id "user"
    (Auth.register (Some "secret") Requests.hash Requests.sign Requests.any_email
       Requests.as_given Requests.any_email Requests.cleo Sample.store).1
  = Some (fresh_id "u" Sample.store).
Proof.
  apply (registered_user_can_log_in (Some "secret") Requests.hash Requests.compare
           Requests.sign Requests.any_email Requests.as_given Requests.any_email
           Requests.cleo Sample.store "cleo@example.com" "secret1").
  - intros p. unfold Requests.compare, Requests.hash. apply String.eqb_refl.
  - vm_compute. reflexivity.
  - vm_compute. reflexivity.
  - vm_compute. reflexivity.
Defined.
